(** * The xdeployment composition function

    A shallow embedding of the Go composition function under
    [go-modules/composer] and [go-modules/xdeployment]: the generic
    composer helpers ([ComposeDesiredResourceFrom], [ConvertObserved]),
    the three resource composers (Deployment, Service, HTTPRoute) and the
    request handler [RunFunction].

    Conventions of the embedding.
    - A Go [string] is a [string] (a sequence of bytes); string comparison
      is bytewise, as in Go.
    - A Go pointer [*T] that may be [nil] is an [option T].
    - A Go slice is the [list] of its elements, and the [nil] slice is
      [[]], wherever the code only builds a slice or ranges over it.  The
      result of [convertEnvVars], which returns [nil] itself and is
      stored in the container's [Env], is a [GoSlice]: [nil] or a
      sequence.
    - A Go [map[string]string] value is [nil] or a table: [option (gmap ..)].
    - A Go result pair [(v, err)] of which exactly one is set is [Err + T].
    - The response under construction and the logger are the only mutable
      objects of an invocation; they are threaded as the state [World].
    - Of a request and a response, the tag, the resources, the conditions
      and the results are kept; the time to live, the context, the
      composite's own desired state and connection details play no part
      in the function and are left out. *)

From Stdlib Require Import ZArith Lia.
From stdpp Require Import base option list gmap strings sorting fin_maps.

Open Scope Z_scope.

(** ** Errors *)

Definition Err : Type := string.

(** [errors.Wrapf(err, msg)]: the message is prefixed to the cause. *)
Definition Wrapf (err : Err) (msg : string) : Err := msg +:+ ": " +:+ err.

(** ** Go strings: bytewise order and [sort.Strings] *)

Definition str_le (a b : string) : Prop := String.leb a b = true.

#[global] Instance str_le_dec a b : Decision (str_le a b).
Proof. unfold str_le. apply _. Defined.

(** [sort.Strings]: sorts a slice of strings in increasing order. *)
Definition sort_Strings (keys : list string) : list string :=
  merge_sort str_le keys.

(** ** Go maps from strings to strings *)

Definition GoMap : Type := option (gmap string string).

Definition go_table (m : GoMap) : gmap string string := default ∅ m.

(** [len(m)]: a nil map has length 0. *)
Definition go_len (m : GoMap) : nat := size (go_table m).

(** [m[k]]: the zero value when the key is missing (or the map is nil). *)
Definition go_index (m : GoMap) (k : string) : string :=
  default "" (go_table m !! k).

(** [for k := range m]: the keys are produced once each, in an order the
    language leaves unspecified.  [range_order m ks] says that [ks] is one
    of the orders in which the loop may see the keys of [m]. *)
Definition range_order (m : GoMap) (ks : list string) : Prop :=
  ks ≡ₚ (map_to_list (go_table m)).*1.

(** ** Go slices that may be nil *)

(** A slice value is [nil] or a sequence of elements, possibly empty.
    Both have length 0; only the first is [== nil], and a field holding
    it is unset. *)
Definition GoSlice (A : Type) : Type := option (list A).

(** The elements of a slice; the [nil] slice has none. *)
Definition slice_elems {A : Type} (s : GoSlice A) : list A := default [] s.

(** ** Kubernetes object shapes *)

Module metav1.
Record ObjectMeta := {
    Name : string;
    Labels : gmap string string;
  }.
Record Condition := {
    Type_ : string;
    Status : string;
  }.
Definition ConditionTrue : string := "True".
End metav1.

Module corev1.
Record EnvVar := { ev_Name : string; ev_Value : string }.
Record ContainerPort := { cp_Name : string; cp_ContainerPort : Z }.
Record Container := {
    c_Name : string;
    c_Image : string;
    c_Env : GoSlice EnvVar;
    c_Ports : list ContainerPort;
  }.
Record PodTemplateSpec := {
    pt_ObjectMeta : metav1.ObjectMeta;
    pt_Containers : list Container;
  }.
Record ServicePort := {
    sp_Name : string;
    sp_Protocol : string;
    sp_Port : Z;
    sp_TargetPort : Z;
  }.
Record ServiceSpec := {
    ss_Type : string;
    ss_Selector : gmap string string;
    ss_Ports : list ServicePort;
    ss_ClusterIP : string;
  }.
Record Service := {
    svc_ObjectMeta : metav1.ObjectMeta;
    svc_Spec : ServiceSpec;
  }.
Definition ConditionTrue : string := "True".
End corev1.

Module appsv1.
Record DeploymentCondition := { dc_Type : string; dc_Status : string }.
Record DeploymentSpec := {
    ds_Replicas : option Z;
    ds_MatchLabels : gmap string string;
    ds_Template : corev1.PodTemplateSpec;
  }.
Record Deployment := {
    dep_ObjectMeta : metav1.ObjectMeta;
    dep_Spec : DeploymentSpec;
    dep_Conditions : list DeploymentCondition;
  }.
Definition DeploymentAvailable : string := "Available".
End appsv1.

Module gwapiv1.
Record ParentReference := { pr_Name : string; pr_Namespace : option string }.
Record BackendRef := { br_Name : string; br_Port : option Z }.
Record HTTPRouteRule := { rr_BackendRefs : list BackendRef }.
Record HTTPRouteSpec := {
    rs_ParentRefs : list ParentReference;
    rs_Hostnames : list string;
    rs_Rules : list HTTPRouteRule;
  }.
Record RouteParentStatus := { rps_Conditions : list metav1.Condition }.
Record HTTPRoute := {
    rt_ObjectMeta : metav1.ObjectMeta;
    rt_Spec : HTTPRouteSpec;
    rt_Parents : list RouteParentStatus;
  }.
Definition RouteConditionAccepted : string := "Accepted".
End gwapiv1.

(** Conversion of a Go [int] to [int32]: wraps around. *)
Definition int32 (z : Z) : Z := (z + 2 ^ 31) mod 2 ^ 32 - 2 ^ 31.

(** ** The composite resource and the function input *)

Module xdeployment.
  (** Modelled from the spec: the declaration of the [XDeployment] type
      ([resources/xdeployment]) is not among the sources; the fields are
      those the composers read ([Spec.Replicas] an [*int32], [Spec.Port]
      an [*int], [Spec.Hostname] and [Spec.Image] strings, [Spec.Env] a
      [map[string]string], and the object's [Name]). *)
Record XDeploymentSpec := {
    Image : string;
    Replicas : option Z;
    Port : option Z;
    Hostname : string;
    Env : GoMap;
  }.
Record XDeployment := {
    Name : string;
    Spec : XDeploymentSpec;
  }.
Definition GetName (xd : XDeployment) : string := Name xd.
End xdeployment.

Module defaults.
  (** Modelled from the spec: the declaration of the function input
      ([input/v1beta1]) is not among the sources; [Gateway] is a pointer
      to a pair of strings, as the route composer and its tests use it. *)
Record GatewayConfig := { gw_Name : string; gw_Namespace : string }.
Record XDeploymentDefaults := { Gateway : option GatewayConfig }.
End defaults.

(** ** The function SDK boundary

    The protobuf and Kubernetes machinery the function calls into is not
    part of the repository.  What the function needs from it is collected
    in a class: the wire form of an object ([Struct]), its unstructured
    form ([Unstructured]), the conversions between them and the decoders
    into the typed shapes above.  Every conversion may fail. *)

Inductive runtime_Object :=
  | NilObject
  | DeploymentObject (p : option appsv1.Deployment)
  | ServiceObject (p : option corev1.Service)
  | HTTPRouteObject (p : option gwapiv1.HTTPRoute).

Class Sdk := {
  Struct : Type;
  Unstructured : Type;
  (* resource.AsObject / resource.AsStruct *)
  AsObject : Struct → Err + Unstructured;
  AsStruct : Unstructured → Err + Struct;
  (* request.GetInput into *defaults.XDeploymentDefaults *)
  GetInput_into : Struct → Err + defaults.XDeploymentDefaults;
  (* runtime.DefaultUnstructuredConverter.FromUnstructured, per target *)
  XDeployment_FromUnstructured : Unstructured → Err + xdeployment.XDeployment;
  Deployment_FromUnstructured : Unstructured → Err + appsv1.Deployment;
  Service_FromUnstructured : Unstructured → Err + corev1.Service;
  HTTPRoute_FromUnstructured : Unstructured → Err + gwapiv1.HTTPRoute;
  (* composed.From, on a non-nil object *)
  composed_From : runtime_Object → Err + Unstructured;
}.

(** The type parameter [T] of [ConvertObserved]: a shape the unstructured
    converter can decode into. *)
Class FromUnstructured `{Sdk} (T : Type) :=
  fromUnstructured : Unstructured → Err + T.

#[global] Instance Deployment_decodable `{Sdk} : FromUnstructured appsv1.Deployment :=
  Deployment_FromUnstructured.
#[global] Instance Service_decodable `{Sdk} : FromUnstructured corev1.Service :=
  Service_FromUnstructured.
#[global] Instance HTTPRoute_decodable `{Sdk} : FromUnstructured gwapiv1.HTTPRoute :=
  HTTPRoute_FromUnstructured.

Inductive Ready := ReadyUnspecified | ReadyTrue | ReadyFalse.
Inductive Target := TargetComposite | TargetCompositeAndClaim.
Inductive ConditionStatus := StatusConditionTrue | StatusConditionFalse.
Inductive Severity := SeverityFatal | SeverityWarning | SeverityNormal.
Inductive Level := LevelDebug | LevelInfo.

Record Condition := {
  cond_Type : string;
  cond_Status : ConditionStatus;
  cond_Reason : string;
  cond_Message : option string;
  cond_Target : Target;
}.

Record Result := { res_Severity : Severity; res_Message : string }.

Record LogEntry := { log_Level : Level; log_Msg : string }.

#[global] Instance Ready_eq_dec : EqDecision Ready.
Proof. solve_decision. Defined.
#[global] Instance Target_eq_dec : EqDecision Target.
Proof. solve_decision. Defined.
#[global] Instance ConditionStatus_eq_dec : EqDecision ConditionStatus.
Proof. solve_decision. Defined.
#[global] Instance Severity_eq_dec : EqDecision Severity.
Proof. solve_decision. Defined.
#[global] Instance Condition_eq_dec : EqDecision Condition.
Proof. solve_decision. Defined.
#[global] Instance Result_eq_dec : EqDecision Result.
Proof. solve_decision. Defined.

Section Function.
Context `{sdk : Sdk}.

(** [resource.DesiredComposed] and [resource.ObservedComposed]. *)
Record DesiredComposed := { dc_Resource : Unstructured; dc_Ready : Ready }.
Record ObservedComposed := { oc_Resource : Unstructured }.

(** A composed resource on the wire. *)
Record ProtoResource := { wire_Resource : Struct; wire_Ready : Ready }.

Record RunFunctionRequest := {
  req_Tag : string;
  req_Input : Struct;
  req_ObservedComposite : Struct;
  req_ObservedResources : gmap string Struct;
  req_DesiredResources : gmap string ProtoResource;
}.

Record RunFunctionResponse := {
  rsp_Tag : string;
  rsp_Desired : gmap string ProtoResource;
  rsp_Conditions : list Condition;
  rsp_Results : list Result;
}.

(** ** Mutable state of an invocation *)

Record World := { w_rsp : RunFunctionResponse; w_log : list LogEntry }.

Definition M (A : Type) : Type := World → World * A.

#[global] Instance M_ret : MRet M := λ A a w, (w, a).
#[global] Instance M_bind : MBind M := λ A B f m w, f (m w).2 (m w).1.

Definition modify_rsp (f : RunFunctionResponse → RunFunctionResponse) : M unit :=
  λ w, ({| w_rsp := f (w_rsp w); w_log := w_log w |}, tt).

Definition log_emit (lvl : Level) (msg : string) : M unit :=
  λ w, ({| w_rsp := w_rsp w; w_log := w_log w ++ [{| log_Level := lvl; log_Msg := msg |}] |}, tt).

Definition log_Debug : string → M unit := log_emit LevelDebug.
Definition log_Info : string → M unit := log_emit LevelInfo.

(** [response.To]: the response starts from the request's tag and desired
    state, with no condition and no result. *)
Definition response_To (req : RunFunctionRequest) : RunFunctionResponse :=
  {| rsp_Tag := req_Tag req;
     rsp_Desired := req_DesiredResources req;
     rsp_Conditions := [];
     rsp_Results := [] |}.

(** [response.Fatal]: appends a result of fatal severity. *)
Definition response_Fatal (err : Err) : M unit :=
  modify_rsp (λ r,
    {| rsp_Tag := rsp_Tag r; rsp_Desired := rsp_Desired r;
       rsp_Conditions := rsp_Conditions r;
       rsp_Results := rsp_Results r ++
         [{| res_Severity := SeverityFatal; res_Message := err |}] |}).

(** [response.ConditionTrue] / [response.ConditionFalse] followed by the
    builder calls [WithMessage] and [TargetComposite] /
    [TargetCompositeAndClaim]: appends the finished condition. *)
Definition response_Condition (c : Condition) : M unit :=
  modify_rsp (λ r,
    {| rsp_Tag := rsp_Tag r; rsp_Desired := rsp_Desired r;
       rsp_Conditions := rsp_Conditions r ++ [c];
       rsp_Results := rsp_Results r |}).

Definition set_desired_entry (name : string) (r : ProtoResource) : M unit :=
  modify_rsp (λ rsp,
    {| rsp_Tag := rsp_Tag rsp; rsp_Desired := <[name := r]> (rsp_Desired rsp);
       rsp_Conditions := rsp_Conditions rsp;
       rsp_Results := rsp_Results rsp |}).

(** [request.GetObservedComposedResources]: every observed resource is
    converted from its wire form; the first failure aborts. *)
Fixpoint observed_loop (items : list (string * Struct))
    (ocds : gmap string ObservedComposed) : Err + gmap string ObservedComposed :=
  match items with
  | [] => inr ocds
  | (name, r) :: rest =>
      match AsObject r with
      | inl err => inl err
      | inr u => observed_loop rest (<[name := {| oc_Resource := u |}]> ocds)
      end
  end.

Definition GetObservedComposedResources (req : RunFunctionRequest)
    : Err + gmap string ObservedComposed :=
  observed_loop (map_to_list (req_ObservedResources req)) ∅.

(** [request.GetDesiredComposedResources]: likewise for the desired
    resources handed over by the caller; the ready flag is carried over. *)
Fixpoint desired_loop (items : list (string * ProtoResource))
    (dcds : gmap string DesiredComposed) : Err + gmap string DesiredComposed :=
  match items with
  | [] => inr dcds
  | (name, r) :: rest =>
      match AsObject (wire_Resource r) with
      | inl err => inl err
      | inr u =>
          desired_loop rest
            (<[name := {| dc_Resource := u; dc_Ready := wire_Ready r |}]> dcds)
      end
  end.

Definition GetDesiredComposedResources (req : RunFunctionRequest)
    : Err + gmap string DesiredComposed :=
  desired_loop (map_to_list (req_DesiredResources req)) ∅.

(** [response.SetDesiredComposedResources]: every desired resource is
    converted to its wire form and stored in the response under its name;
    the first failure aborts and is returned.  (The Go loop ranges over a
    map; on success the outcome does not depend on the order.) *)
Fixpoint set_desired_loop (items : list (string * DesiredComposed)) : M (option Err) :=
  match items with
  | [] => mret None
  | (name, dcd) :: rest =>
      match AsStruct (dc_Resource dcd) with
      | inl err => mret (Some err)
      | inr s =>
          _ ← set_desired_entry name
                {| wire_Resource := s; wire_Ready := dc_Ready dcd |};
          set_desired_loop rest
      end
  end.

Definition SetDesiredComposedResources (dcds : gmap string DesiredComposed)
    : M (option Err) :=
  set_desired_loop (map_to_list dcds).

(** ** Package [composer] *)

(** [FunctionContext[XR, D]].  Its [FunctionResponse] and [Log] fields are
    references to the two mutable objects of the invocation, which are the
    [World] here. *)
Record FunctionContext (XR D : Type) := {
  Observed : gmap string ObservedComposed;
  XR_ : XR;
  Defaults : D;
}.
Arguments Observed {XR D}.
Arguments XR_ {XR D}.
Arguments Defaults {XR D}.

Record DesiredResource := {
  dr_Name : string;
  dr_Resource : DesiredComposed;
}.

(** The interface [ComposableResource]: a value of it is the three methods
    closed over their receiver. *)
Record ComposableResource := {
  ComposeDesiredResource : M (Err + option DesiredResource);
  IsReady : bool;
  GetConditionType : string;
}.

Record BaseComposer (XR D : Type) := {
  bc_FunctionContext : FunctionContext XR D;
  ResourceName : string;
  ConditionType : string;
}.
Arguments bc_FunctionContext {XR D}.
Arguments ResourceName {XR D}.
Arguments ConditionType {XR D}.

Definition BaseComposer_GetConditionType {XR D} (b : BaseComposer XR D) : string :=
  ConditionType b.

(** [reflect.ValueOf(o).IsNil()] on an interface holding a pointer. *)
Definition is_nil_pointer {A} (p : option A) : bool :=
  match p with None => true | Some _ => false end.

Definition reflect_IsNil (o : runtime_Object) : bool :=
  match o with
  | NilObject => true
  | DeploymentObject p => is_nil_pointer p
  | ServiceObject p => is_nil_pointer p
  | HTTPRouteObject p => is_nil_pointer p
  end.

(** [o == nil] on an interface value: only the interface without a dynamic
    type is nil; an interface holding a nil pointer is not. *)
Definition is_nil_interface (o : runtime_Object) : bool :=
  match o with NilObject => true | _ => false end.

(** The dynamic type of the object, as [%T] prints it. *)
Definition type_name (o : runtime_Object) : string :=
  match o with
  | NilObject => "<nil>"
  | DeploymentObject _ => "*v1.Deployment"
  | ServiceObject _ => "*v1.Service"
  | HTTPRouteObject _ => "*v1.HTTPRoute"
  end.

Definition ComposeDesiredResourceFrom {XR D} (b : BaseComposer XR D)
    (structuredResource : runtime_Object) : M (Err + option DesiredResource) :=
  if is_nil_interface structuredResource || reflect_IsNil structuredResource
  then mret (inr None)
  else
    match composed_From structuredResource with
    | inl err =>
        _ ← response_Fatal
              (Wrapf err ("cannot convert " +:+ type_name structuredResource
                          +:+ " to composed resource"));
        mret (inl err)
    | inr composed =>
        mret (inr (Some
          {| dr_Name := ResourceName b;
             dr_Resource := {| dc_Resource := composed; dc_Ready := ReadyFalse |} |}))
    end.

Definition ConvertObserved (T : Type) `{!FromUnstructured T}
    (observed : gmap string ObservedComposed) (resourceName : string)
    : Err + option T :=
  match observed !! resourceName with
  | Some obs =>
      match fromUnstructured (oc_Resource obs) with
      | inl err => inl err
      | inr observedResource => inr (Some observedResource)
      end
  | None => inr None
  end.

(** ** Package [main]: the concrete context and composer *)

Definition XContext : Type :=
  FunctionContext xdeployment.XDeployment (option defaults.XDeploymentDefaults).
Definition XComposer : Type :=
  BaseComposer xdeployment.XDeployment (option defaults.XDeploymentDefaults).

(** *** Deployment *)

Record Deployment := {
  d_XComposer : XComposer;
  d_ObservedResource : option appsv1.Deployment;
}.

Definition NewDeployment (f : XContext) : Err + Deployment :=
  let resourceName := "xdeployment-deployment-" +:+ xdeployment.Name (XR_ f) in
  match ConvertObserved appsv1.Deployment (Observed f) resourceName with
  | inl err => inl err
  | inr observedStructured =>
      inr {| d_XComposer :=
               {| bc_FunctionContext := f;
                  ResourceName := resourceName;
                  ConditionType := "DeploymentReady" |};
             d_ObservedResource := observedStructured |}
  end.

Fixpoint deployment_available (conditions : list appsv1.DeploymentCondition) : bool :=
  match conditions with
  | [] => false
  | condition :: rest =>
      if String.eqb (appsv1.dc_Type condition) appsv1.DeploymentAvailable
         && String.eqb (appsv1.dc_Status condition) corev1.ConditionTrue
      then true
      else deployment_available rest
  end.

Definition Deployment_IsReady (d : Deployment) : bool :=
  match d_ObservedResource d with
  | None => false
  | Some o => deployment_available (appsv1.dep_Conditions o)
  end.

(** One pass of the first loop of [convertEnvVars] appends a key, one pass
    of the second appends an entry. *)
Definition convertEnvVars (iter : list string) (envMap : GoMap)
    : GoSlice corev1.EnvVar :=
  if bool_decide (go_len envMap = 0%nat) then None
  else
    let keys := foldl (λ keys k, keys ++ [k]) [] iter in
    let keys := sort_Strings keys in
    Some (foldl (λ result key,
                   result ++ [{| corev1.ev_Name := key;
                                 corev1.ev_Value := go_index envMap key |}])
                [] keys).

(** The order in which this invocation's [range] over the env map yields
    its keys: the order of the table's listing. *)
Definition env_iteration (envMap : GoMap) : list string :=
  (map_to_list (go_table envMap)).*1.

Definition Deployment_createResource (d : Deployment) : M (option appsv1.Deployment) :=
  let xd := XR_ (bc_FunctionContext (d_XComposer d)) in
  replicas ←
    match xdeployment.Replicas (xdeployment.Spec xd) with
    | None =>
        _ ← log_Debug "replicas not set on deployment, defaulting to 2";
        mret (Some 2)
    | Some r => mret (Some r)
    end;
  let container :=
    {| corev1.c_Name := xdeployment.GetName xd;
       corev1.c_Image := xdeployment.Image (xdeployment.Spec xd);
       corev1.c_Env :=
         convertEnvVars (env_iteration (xdeployment.Env (xdeployment.Spec xd)))
                        (xdeployment.Env (xdeployment.Spec xd));
       corev1.c_Ports :=
         match xdeployment.Port (xdeployment.Spec xd) with
         | Some port =>
             [{| corev1.cp_Name := "http"; corev1.cp_ContainerPort := int32 port |}]
         | None => []
         end |} in
  mret (Some
    {| appsv1.dep_ObjectMeta :=
         {| metav1.Name := xdeployment.GetName xd; metav1.Labels := ∅ |};
       appsv1.dep_Spec :=
         {| appsv1.ds_Replicas := replicas;
            appsv1.ds_MatchLabels :=
              {[ "app.kubernetes.io/name" := xdeployment.GetName xd ]};
            appsv1.ds_Template :=
              {| corev1.pt_ObjectMeta :=
                   {| metav1.Name := xdeployment.GetName xd;
                      metav1.Labels :=
                        {[ "app.kubernetes.io/name" := xdeployment.GetName xd ]} |};
                 corev1.pt_Containers := [container] |} |};
       appsv1.dep_Conditions := [] |}).

Definition Deployment_ComposeDesiredResource (d : Deployment)
    : M (Err + option DesiredResource) :=
  o ← Deployment_createResource d;
  ComposeDesiredResourceFrom (d_XComposer d) (DeploymentObject o).

Definition Deployment_composer (d : Deployment) : ComposableResource :=
  {| ComposeDesiredResource := Deployment_ComposeDesiredResource d;
     IsReady := Deployment_IsReady d;
     GetConditionType := BaseComposer_GetConditionType (d_XComposer d) |}.

(** *** Service *)

Record Service := {
  s_XComposer : XComposer;
  s_ObservedResource : option corev1.Service;
}.

Definition NewService (f : XContext) : Err + Service :=
  let resourceName := "xdeployment-service-" +:+ xdeployment.Name (XR_ f) in
  match ConvertObserved corev1.Service (Observed f) resourceName with
  | inl err => inl err
  | inr observedStructured =>
      inr {| s_XComposer :=
               {| bc_FunctionContext := f;
                  ResourceName := resourceName;
                  ConditionType := "ServiceReady" |};
             s_ObservedResource := observedStructured |}
  end.

Definition Service_IsReady (s : Service) : bool :=
  match s_ObservedResource s with
  | None => false
  | Some o => negb (String.eqb (corev1.ss_ClusterIP (corev1.svc_Spec o)) "")
  end.

Definition Service_createResource (s : Service) : M (option corev1.Service) :=
  let xd := XR_ (bc_FunctionContext (s_XComposer s)) in
  match xdeployment.Port (xdeployment.Spec xd) with
  | None =>
      _ ← log_Debug "no port found, skipping service";
      mret None
  | Some port =>
      mret (Some
        {| corev1.svc_ObjectMeta :=
             {| metav1.Name := xdeployment.GetName xd; metav1.Labels := ∅ |};
           corev1.svc_Spec :=
             {| corev1.ss_Type := "ClusterIP";
                corev1.ss_Selector :=
                  {[ "app.kubernetes.io/name" := xdeployment.GetName xd ]};
                corev1.ss_Ports :=
                  [{| corev1.sp_Name := "http";
                      corev1.sp_Protocol := "TCP";
                      corev1.sp_Port := 8080;
                      corev1.sp_TargetPort := int32 port |}];
                corev1.ss_ClusterIP := "" |} |})
  end.

Definition Service_ComposeDesiredResource (s : Service)
    : M (Err + option DesiredResource) :=
  o ← Service_createResource s;
  ComposeDesiredResourceFrom (s_XComposer s) (ServiceObject o).

Definition Service_composer (s : Service) : ComposableResource :=
  {| ComposeDesiredResource := Service_ComposeDesiredResource s;
     IsReady := Service_IsReady s;
     GetConditionType := BaseComposer_GetConditionType (s_XComposer s) |}.

(** *** HttpRoute *)

Record HttpRoute := {
  h_XComposer : XComposer;
  h_ObservedResource : option gwapiv1.HTTPRoute;
}.

Definition NewHttpRoute (f : XContext) : Err + HttpRoute :=
  let resourceName := "xdeployment-httproute-" +:+ xdeployment.Name (XR_ f) in
  match ConvertObserved gwapiv1.HTTPRoute (Observed f) resourceName with
  | inl err => inl err
  | inr observedStructured =>
      inr {| h_XComposer :=
               {| bc_FunctionContext := f;
                  ResourceName := resourceName;
                  ConditionType := "HttpRouteReady" |};
             h_ObservedResource := observedStructured |}
  end.

(** The inner loop of [IsReady]: the conditions of one parent. *)
Fixpoint parent_accepted (conditions : list metav1.Condition) : bool :=
  match conditions with
  | [] => false
  | condition :: rest =>
      let routeAccepted :=
        String.eqb (metav1.Type_ condition) gwapiv1.RouteConditionAccepted in
      if routeAccepted && String.eqb (metav1.Status condition) metav1.ConditionTrue
      then true
      else parent_accepted rest
  end.

(** The outer loop of [IsReady]: the parents, in order; the first accepted
    one returns. *)
Fixpoint parents_accepted (parents : list gwapiv1.RouteParentStatus) : bool :=
  match parents with
  | [] => false
  | parent :: rest =>
      if parent_accepted (gwapiv1.rps_Conditions parent) then true
      else parents_accepted rest
  end.

Definition HttpRoute_IsReady (h : HttpRoute) : bool :=
  match h_ObservedResource h with
  | None => false
  | Some o => parents_accepted (gwapiv1.rt_Parents o)
  end.

Definition HttpRoute_createResource (h : HttpRoute) : M (option gwapiv1.HTTPRoute) :=
  let xd := XR_ (bc_FunctionContext (h_XComposer h)) in
  match Defaults (bc_FunctionContext (h_XComposer h)) ≫= defaults.Gateway with
  | None =>
      _ ← log_Debug "no default values found";
      mret None
  | Some gateway =>
      if is_nil_pointer (xdeployment.Port (xdeployment.Spec xd))
         || String.eqb (xdeployment.Hostname (xdeployment.Spec xd)) ""
      then
        _ ← log_Debug "no port or hostname specifed, skipping httpRoute";
        mret None
      else
        mret (Some
          {| gwapiv1.rt_ObjectMeta :=
               {| metav1.Name := xdeployment.GetName xd; metav1.Labels := ∅ |};
             gwapiv1.rt_Spec :=
               {| gwapiv1.rs_ParentRefs :=
                    [{| gwapiv1.pr_Name := defaults.gw_Name gateway;
                        gwapiv1.pr_Namespace := Some (defaults.gw_Namespace gateway) |}];
                  gwapiv1.rs_Hostnames :=
                    [xdeployment.Hostname (xdeployment.Spec xd)];
                  gwapiv1.rs_Rules :=
                    [{| gwapiv1.rr_BackendRefs :=
                          [{| gwapiv1.br_Name := xdeployment.GetName xd;
                              gwapiv1.br_Port := Some 8080 |}] |}] |};
             gwapiv1.rt_Parents := [] |})
  end.

Definition HttpRoute_ComposeDesiredResource (h : HttpRoute)
    : M (Err + option DesiredResource) :=
  o ← HttpRoute_createResource h;
  ComposeDesiredResourceFrom (h_XComposer h) (HTTPRouteObject o).

Definition HttpRoute_composer (h : HttpRoute) : ComposableResource :=
  {| ComposeDesiredResource := HttpRoute_ComposeDesiredResource h;
     IsReady := HttpRoute_IsReady h;
     GetConditionType := BaseComposer_GetConditionType (h_XComposer h) |}.

(** ** The handler *)

Definition InternalErrorResponse (err : Err) : M unit :=
  _ ← response_Condition
        {| cond_Type := "FunctionSuccess";
           cond_Status := StatusConditionFalse;
           cond_Reason := "InternalError";
           cond_Message := None;
           cond_Target := TargetCompositeAndClaim |};
  response_Fatal err.

(** How [RunFunction] returns: [return rsp, nil] or [return nil, err]. *)
Inductive Return := ReturnResponse | ReturnError (err : Err).

Definition with_ready (d : DesiredComposed) (r : Ready) : DesiredComposed :=
  {| dc_Resource := dc_Resource d; dc_Ready := r |}.

(** The loop over the composers.  [desired] is the local map of
    [RunFunction]; the result is [inl err] when the loop is left by
    [return nil, err]. *)
Fixpoint compose_loop (resources : list ComposableResource)
    (desired : gmap string DesiredComposed) : M (Err + gmap string DesiredComposed) :=
  match resources with
  | [] => mret (inr desired)
  | r :: rest =>
      res ← ComposeDesiredResource r;
      match res with
      | inl err =>
          _ ← response_Condition
                {| cond_Type := GetConditionType r;
                   cond_Status := StatusConditionFalse;
                   cond_Reason := "CompositionError";
                   cond_Message := Some err;
                   cond_Target := TargetComposite |};
          mret (inl err)
      | inr None => compose_loop rest desired
      | inr (Some desiredResource) =>
          resource ←
            (if IsReady r then
               _ ← response_Condition
                     {| cond_Type := GetConditionType r;
                        cond_Status := StatusConditionTrue;
                        cond_Reason := "Available";
                        cond_Message := None;
                        cond_Target := TargetComposite |};
               mret (with_ready (dr_Resource desiredResource) ReadyTrue)
             else
               _ ← response_Condition
                     {| cond_Type := GetConditionType r;
                        cond_Status := StatusConditionFalse;
                        cond_Reason := "Unavailable";
                        cond_Message :=
                          Some (GetConditionType r +:+ " is not yet available");
                        cond_Target := TargetComposite |};
               mret (dr_Resource desiredResource));
          _ ← log_Info "Added desired resource";
          compose_loop rest (<[dr_Name desiredResource := resource]> desired)
      end
  end.

Definition fatal_return (err : Err) : M Return :=
  _ ← response_Fatal err; mret ReturnResponse.

Definition internal_error_return (err : Err) : M Return :=
  _ ← InternalErrorResponse err; mret ReturnResponse.

(** The body of [RunFunction] after [rsp := response.To(req, ...)]. *)
Definition RunFunction_body (req : RunFunctionRequest) : M Return :=
  _ ← log_Info "Running function";
  match GetInput_into (req_Input req) with
  | inl err =>
      internal_error_return
        (Wrapf err "cannot get Function input from *v1.RunFunctionRequest")
  | inr defaultValues =>
  match GetObservedComposedResources req with
  | inl err =>
      internal_error_return
        (Wrapf err "cannot get observed resources from *v1.RunFunctionRequest")
  | inr observed =>
  match GetDesiredComposedResources req with
  | inl err =>
      internal_error_return
        (Wrapf err "cannot get desired resources from *v1.RunFunctionRequest")
  | inr desired =>
  match AsObject (req_ObservedComposite req) with
  | inl err =>
      internal_error_return
        (Wrapf err
           "cannot get observedf composite resources from *v1.RunFunctionRequest")
  | inr xr =>
  match XDeployment_FromUnstructured xr with
  | inl err =>
      internal_error_return
        (Wrapf err "cannot convert composite resource to XDeployment")
  | inr xd =>
  let fnContext : XContext :=
    {| Observed := observed; XR_ := xd; Defaults := Some defaultValues |} in
  match NewDeployment fnContext with
  | inl err => fatal_return (Wrapf err "cannot create deployment")
  | inr deployment =>
  match NewService fnContext with
  | inl err => fatal_return (Wrapf err "cannot create service")
  | inr service =>
  match NewHttpRoute fnContext with
  | inl err => fatal_return (Wrapf err "cannot create httpRoute")
  | inr httpRoute =>
  let resources :=
    [Deployment_composer deployment;
     Service_composer service;
     HttpRoute_composer httpRoute] in
  looped ← compose_loop resources desired;
  match looped with
  | inl err => mret (ReturnError err)
  | inr desired =>
      failed ← SetDesiredComposedResources desired;
      match failed with
      | Some err =>
          internal_error_return
            (Wrapf err
               "cannot set desired composed resources in *v1.RunFunctionResponse")
      | None => mret ReturnResponse
      end
  end end end end end end end end end.

Definition initial_world (req : RunFunctionRequest) : World :=
  {| w_rsp := response_To req; w_log := [] |}.

(** The response object and the log as the invocation leaves them. *)
Definition RunFunction_world (req : RunFunctionRequest) : World :=
  (RunFunction_body req (initial_world req)).1.

(** [RunFunction]: the pair [(rsp, err)] handed back to the caller. *)
Definition RunFunction (req : RunFunctionRequest)
    : option RunFunctionResponse * option Err :=
  match (RunFunction_body req (initial_world req)).2 with
  | ReturnResponse => (Some (w_rsp (RunFunction_world req)), None)
  | ReturnError err => (None, Some err)
  end.

End Function.

Arguments Observed {sdk XR D}.
Arguments XR_ {sdk XR D}.
Arguments Defaults {sdk XR D}.
Arguments bc_FunctionContext {sdk XR D}.
Arguments ResourceName {sdk XR D}.
Arguments ConditionType {sdk XR D}.

(** * Vocabulary of the statements

    Predicates and summaries the properties below are stated with. *)

Section Vocabulary.
Context `{sdk : Sdk}.

(** The entry [convertEnvVars] makes for a key. *)
Definition env_entry (envMap : GoMap) (key : string) : corev1.EnvVar :=
  {| corev1.ev_Name := key; corev1.ev_Value := go_index envMap key |}.

(** The precondition as the specification words it: port set, hostname
    non-empty, and a route target whose name and namespace are both
    present. *)
Definition route_precondition_spec (xd : xdeployment.XDeployment)
    (dv : option defaults.XDeploymentDefaults) : Prop :=
  is_Some (xdeployment.Port (xdeployment.Spec xd)) ∧
  xdeployment.Hostname (xdeployment.Spec xd) ≠ "" ∧
  ∃ gw, dv ≫= defaults.Gateway = Some gw ∧
        defaults.gw_Name gw ≠ "" ∧ defaults.gw_Namespace gw ≠ "".

(** The precondition the composer tests. *)
Definition route_precondition (xd : xdeployment.XDeployment)
    (dv : option defaults.XDeploymentDefaults) : Prop :=
  is_Some (xdeployment.Port (xdeployment.Spec xd)) ∧
  xdeployment.Hostname (xdeployment.Spec xd) ≠ "" ∧
  is_Some (dv ≫= defaults.Gateway).

#[global] Instance route_precondition_dec xd dv : Decision (route_precondition xd dv).
Proof. unfold route_precondition. apply _. Defined.

(** [builds r name pre]: from any state, composing [r] either fails
    (recording a fatal result), or yields nothing when [pre] is false, or
    yields a resource called [name] with its flag at [ReadyFalse] when
    [pre] is true; without failure the response is untouched. *)
Definition builds (r : ComposableResource) (name : string) (pre : bool) : Prop :=
  ∀ w,
    match (ComposeDesiredResource r w).2 with
    | inl err =>
        ∃ msg, w_rsp (ComposeDesiredResource r w).1 = w_rsp (response_Fatal msg w).1
    | inr None =>
        pre = false ∧ w_rsp (ComposeDesiredResource r w).1 = w_rsp w
    | inr (Some dr) =>
        pre = true ∧ w_rsp (ComposeDesiredResource r w).1 = w_rsp w ∧
        dr_Name dr = name ∧ dc_Ready (dr_Resource dr) = ReadyFalse
    end.

(** The flag the handler leaves on a built resource. *)
Definition ready_flag (ready : bool) : Ready :=
  if ready then ReadyTrue else ReadyFalse.

(** The condition the handler emits for a built resource. *)
Definition readiness_condition (r : ComposableResource) : Condition :=
  if IsReady r then
    {| cond_Type := GetConditionType r;
       cond_Status := StatusConditionTrue;
       cond_Reason := "Available";
       cond_Message := None;
       cond_Target := TargetComposite |}
  else
    {| cond_Type := GetConditionType r;
       cond_Status := StatusConditionFalse;
       cond_Reason := "Unavailable";
       cond_Message := Some (GetConditionType r +:+ " is not yet available");
       cond_Target := TargetComposite |}.

(** The condition the handler records when composing [r] fails. *)
Definition composition_error (r : ComposableResource) (err : Err) : Condition :=
  {| cond_Type := GetConditionType r;
     cond_Status := StatusConditionFalse;
     cond_Reason := "CompositionError";
     cond_Message := Some err;
     cond_Target := TargetComposite |}.

(** The local desired map after a composer that built [built]. *)
Definition put (name : string) (built : option Unstructured) (ready : bool)
    (m : gmap string DesiredComposed) : gmap string DesiredComposed :=
  match built with
  | Some body => <[name := {| dc_Resource := body; dc_Ready := ready_flag ready |}]> m
  | None => m
  end.

(** The response after a composer whose precondition is [pre]. *)
Definition noted (pre : bool) (c : Condition) (rsp : RunFunctionResponse)
    : RunFunctionResponse :=
  if pre then
    {| rsp_Tag := rsp_Tag rsp; rsp_Desired := rsp_Desired rsp;
       rsp_Conditions := rsp_Conditions rsp ++ [c];
       rsp_Results := rsp_Results rsp |}
  else rsp.

(** Every decoding step of the handler succeeds on [req], with these
    results. *)
Definition decoded (req : RunFunctionRequest)
    (dv : defaults.XDeploymentDefaults)
    (observed : gmap string ObservedComposed)
    (desired : gmap string DesiredComposed)
    (xd : xdeployment.XDeployment) : Prop :=
  GetInput_into (req_Input req) = inr dv ∧
  GetObservedComposedResources req = inr observed ∧
  GetDesiredComposedResources req = inr desired ∧
  ∃ xr, AsObject (req_ObservedComposite req) = inr xr ∧
        XDeployment_FromUnstructured xr = inr xd.

(** The context the handler builds from the decoded parts. *)
Definition context_of (dv : defaults.XDeploymentDefaults)
    (observed : gmap string ObservedComposed)
    (xd : xdeployment.XDeployment) : XContext :=
  {| Observed := observed; XR_ := xd; Defaults := Some dv |}.

(** The three constructors succeed in [f], with these composers. *)
Definition constructed (f : XContext) (d : Deployment) (s : Service)
    (h : HttpRoute) : Prop :=
  NewDeployment f = inr d ∧ NewService f = inr s ∧ NewHttpRoute f = inr h.

(** The state in which the loop starts. *)
Definition loop_start (req : RunFunctionRequest) : World :=
  (log_Info "Running function" (initial_world req)).1.

(** What follows the loop. *)
Definition after_loop (looped : Err + gmap string DesiredComposed) : M Return :=
  match looped with
  | inl err => mret (ReturnError err)
  | inr desired =>
      failed ← SetDesiredComposedResources desired;
      match failed with
      | Some err =>
          internal_error_return
            (Wrapf err
               "cannot set desired composed resources in *v1.RunFunctionResponse")
      | None => mret ReturnResponse
      end
  end.

(** A response that holds only what the request handed over, plus the
    given conditions and one fatal result. *)
Definition halted (req : RunFunctionRequest) (conditions : list Condition)
    (msg : string) : RunFunctionResponse :=
  {| rsp_Tag := req_Tag req;
     rsp_Desired := req_DesiredResources req;
     rsp_Conditions := conditions;
     rsp_Results := [{| res_Severity := SeverityFatal; res_Message := msg |}] |}.

(** The condition [InternalErrorResponse] records. *)
Definition internal_error : Condition :=
  {| cond_Type := "FunctionSuccess";
     cond_Status := StatusConditionFalse;
     cond_Reason := "InternalError";
     cond_Message := None;
     cond_Target := TargetCompositeAndClaim |}.

(** The five decoding steps of the handler, in order; [decode_failure]
    says that one of them fails. *)
Definition decode_failure (req : RunFunctionRequest) : Prop :=
  (∃ err, GetInput_into (req_Input req) = inl err) ∨
  (∃ err, GetObservedComposedResources req = inl err) ∨
  (∃ err, GetDesiredComposedResources req = inl err) ∨
  (∃ err, AsObject (req_ObservedComposite req) = inl err) ∨
  (∃ xr err, AsObject (req_ObservedComposite req) = inr xr ∧
             XDeployment_FromUnstructured xr = inl err).

(** A composer that touches the response only to record a failure. *)
Definition quiet (r : ComposableResource) : Prop := ∃ name pre, builds r name pre.

(** The condition types a run emits: one per composer whose precondition
    holds, in the order of the loop. *)
Definition when (P : Prop) `{!Decision P} (condType : string) : list string :=
  if bool_decide P then [condType] else [].

(** The condition that goes with a ready flag, for a condition type. *)
Definition condition_for (condType : string) (flag : Ready) : Condition :=
  match flag with
  | ReadyTrue =>
      {| cond_Type := condType;
         cond_Status := StatusConditionTrue;
         cond_Reason := "Available";
         cond_Message := None;
         cond_Target := TargetComposite |}
  | _ =>
      {| cond_Type := condType;
         cond_Status := StatusConditionFalse;
         cond_Reason := "Unavailable";
         cond_Message := Some (condType +:+ " is not yet available");
         cond_Target := TargetComposite |}
  end.

(** The same request, with the desired resources of a response as the
    caller's desired state: the next invocation when nothing else has
    changed. *)
Definition resubmit (req : RunFunctionRequest) (rsp : RunFunctionResponse)
    : RunFunctionRequest :=
  {| req_Tag := req_Tag req;
     req_Input := req_Input req;
     req_ObservedComposite := req_ObservedComposite req;
     req_ObservedResources := req_ObservedResources req;
     req_DesiredResources := rsp_Desired rsp |}.

(** A composer whose outcome does not depend on the state it runs in. *)
Definition steady (r : ComposableResource) : Prop :=
  ∀ w w', (ComposeDesiredResource r w).2 = (ComposeDesiredResource r w').2.

(** The resource name carried by what a constructor returns, or the
    constructor's error. *)
Definition name_of {C : Type} (composer : C → XComposer) (made : Err + C)
    : Err + string :=
  sum_map id (ResourceName ∘ composer) made.

(** What becomes of a name once the observed entry under it has been
    looked up: the lookup's error, or the name. *)
Definition looked_up {T : Type} (resourceName : string) (found : Err + option T)
    : Err + string :=
  sum_map id (λ _, resourceName) found.

(** A composer whose failure leaves a fatal result that names the type
    of the object that did not convert. *)
Definition fails_loudly (r : ComposableResource) : Prop :=
  ∀ w err,
    (ComposeDesiredResource r w).2 = inl err →
    ∃ T, T ∈ ["*v1.Deployment"; "*v1.Service"; "*v1.HTTPRoute"] ∧
      w_rsp (ComposeDesiredResource r w).1 =
        w_rsp (response_Fatal
                 (Wrapf err ("cannot convert " +:+ T +:+ " to composed resource"))
                 w).1.

End Vocabulary.

(** ** A small SDK instance and concrete invocations

    Objects carry their typed content directly; decoding a shape out of an
    object of another kind fails.  [routes_convert] says whether
    [composed.From] succeeds on an HTTPRoute. *)

Module Scenario.

Inductive Obj :=
  | OInput (d : defaults.XDeploymentDefaults)
  | OXD (xd : xdeployment.XDeployment)
  | ODeployment (d : appsv1.Deployment)
  | OService (s : corev1.Service)
  | ORoute (r : gwapiv1.HTTPRoute)
  | OOther (kind : string).

Definition from (routes_convert : bool) (o : runtime_Object) : Err + Obj :=
  match o with
  | DeploymentObject (Some d) => inr (ODeployment d)
  | ServiceObject (Some s) => inr (OService s)
  | HTTPRouteObject (Some r) =>
      if routes_convert then inr (ORoute r)
      else inl "cannot convert HTTPRoute to unstructured"
  | _ => inl "nil object"
  end.

Definition sdk (routes_convert : bool) : Sdk :=
  {| Struct := Obj;
     Unstructured := Obj;
     AsObject := inr;
     AsStruct := inr;
     GetInput_into := λ o,
       match o with OInput d => inr d | _ => inl "cannot unmarshal input" end;
     XDeployment_FromUnstructured := λ o,
       match o with OXD xd => inr xd | _ => inl "cannot decode XDeployment" end;
     Deployment_FromUnstructured := λ o,
       match o with ODeployment d => inr d | _ => inl "cannot decode Deployment" end;
     Service_FromUnstructured := λ o,
       match o with OService s => inr s | _ => inl "cannot decode Service" end;
     HTTPRoute_FromUnstructured := λ o,
       match o with ORoute r => inr r | _ => inl "cannot decode HTTPRoute" end;
     composed_From := from routes_convert |}.

Definition spec (port : option Z) (hostname : string) : xdeployment.XDeployment :=
  {| xdeployment.Name := "test-app";
     xdeployment.Spec :=
       {| xdeployment.Image := "nginx:latest";
          xdeployment.Replicas := None;
          xdeployment.Port := port;
          xdeployment.Hostname := hostname;
          xdeployment.Env := None |} |}.

Definition gateway (name namespace : string) : defaults.XDeploymentDefaults :=
  {| defaults.Gateway :=
       Some {| defaults.gw_Name := name; defaults.gw_Namespace := namespace |} |}.

Definition no_gateway : defaults.XDeploymentDefaults :=
  {| defaults.Gateway := None |}.

Definition context (sdk : Sdk) (xd : xdeployment.XDeployment)
    (dv : option defaults.XDeploymentDefaults) : XContext :=
  {| Observed := ∅; XR_ := xd; Defaults := dv |}.

(** The composers the constructors return in a context, given what was
    observed for each kind. *)
Definition deployment (sdk : Sdk) (f : XContext)
    (o : option appsv1.Deployment) : Deployment :=
  {| d_XComposer :=
       {| bc_FunctionContext := f;
          ResourceName := "xdeployment-deployment-" +:+ xdeployment.Name (XR_ f);
          ConditionType := "DeploymentReady" |};
     d_ObservedResource := o |}.

Definition service (sdk : Sdk) (f : XContext)
    (o : option corev1.Service) : Service :=
  {| s_XComposer :=
       {| bc_FunctionContext := f;
          ResourceName := "xdeployment-service-" +:+ xdeployment.Name (XR_ f);
          ConditionType := "ServiceReady" |};
     s_ObservedResource := o |}.

Definition route (sdk : Sdk) (f : XContext)
    (o : option gwapiv1.HTTPRoute) : HttpRoute :=
  {| h_XComposer :=
       {| bc_FunctionContext := f;
          ResourceName := "xdeployment-httproute-" +:+ xdeployment.Name (XR_ f);
          ConditionType := "HttpRouteReady" |};
     h_ObservedResource := o |}.

Definition request (routes_convert : bool) (xd : xdeployment.XDeployment)
    (dv : defaults.XDeploymentDefaults)
    (observed : gmap string Obj)
    (desired : gmap string (@ProtoResource (sdk routes_convert)))
    : @RunFunctionRequest (sdk routes_convert) :=
  @Build_RunFunctionRequest (sdk routes_convert)
    "test" (OInput dv) (OXD xd) observed desired.

Definition empty_world (routes_convert : bool) : @World (sdk routes_convert) :=
  @Build_World (sdk routes_convert)
    (@Build_RunFunctionResponse (sdk routes_convert) "test" ∅ [] []) [].

Definition zebra_env : GoMap :=
  Some (<["ZEBRA" := "z"]> (<["ALPHA" := "a"]> (<["BETA" := "b"]> ∅))).

Definition full_spec : xdeployment.XDeployment :=
  spec (Some 8080) "test.example.com".

Definition my_gateway : defaults.XDeploymentDefaults :=
  gateway "my-gateway" "gateway-ns".

Definition parent (accepted : string) : gwapiv1.RouteParentStatus :=
  {| gwapiv1.rps_Conditions :=
       [{| metav1.Type_ := "Accepted"; metav1.Status := accepted |}] |}.

(** An observed route refused by its first parent, accepted by its second. *)
Definition observed_route : gwapiv1.HTTPRoute :=
  {| gwapiv1.rt_ObjectMeta := {| metav1.Name := "test-app"; metav1.Labels := ∅ |};
     gwapiv1.rt_Spec :=
       {| gwapiv1.rs_ParentRefs := []; gwapiv1.rs_Hostnames := [];
          gwapiv1.rs_Rules := [] |};
     gwapiv1.rt_Parents := [parent "False"; parent "True"] |}.

(** An observed deployment that reports Available=True. *)
Definition observed_deployment : appsv1.Deployment :=
  {| appsv1.dep_ObjectMeta := {| metav1.Name := "test-app"; metav1.Labels := ∅ |};
     appsv1.dep_Spec :=
       {| appsv1.ds_Replicas := Some 2;
          appsv1.ds_MatchLabels := ∅;
          appsv1.ds_Template :=
            {| corev1.pt_ObjectMeta :=
                 {| metav1.Name := "test-app"; metav1.Labels := ∅ |};
               corev1.pt_Containers := [] |} |};
     appsv1.dep_Conditions :=
       [{| appsv1.dc_Type := "Available"; appsv1.dc_Status := "True" |}] |}.

(** Port unset, no gateway, nothing observed, nothing desired so far. *)
Definition only_deployment : @RunFunctionRequest (sdk true) :=
  request true (spec None "") no_gateway ∅ ∅.

(** Port unset, but the caller's desired state already holds an entry
    under the service name. *)
Definition prior_service : @RunFunctionRequest (sdk true) :=
  request true (spec None "") no_gateway ∅
    {[ "xdeployment-service-test-app" :=
         @Build_ProtoResource (sdk true) (OOther "Service") ReadyUnspecified ]}.

(** The function input does not decode. *)
Definition bad_input : @RunFunctionRequest (sdk true) :=
  @Build_RunFunctionRequest (sdk true)
    "test" (OOther "garbage") (OXD full_spec) ∅ ∅.

(** Everything requested; whether the route converts is left open. *)
Definition everything (routes_convert : bool)
    : @RunFunctionRequest (sdk routes_convert) :=
  request routes_convert full_spec my_gateway ∅ ∅.

(** The object observed under the deployment's name is not a Deployment. *)
Definition corrupt_observed : @RunFunctionRequest (sdk true) :=
  request true full_spec my_gateway
    {[ "xdeployment-deployment-test-app" := OOther "corrupt" ]} ∅.

(** Deployment and route observed and ready, service not yet observed. *)
Definition observed_ready : @RunFunctionRequest (sdk true) :=
  request true full_spec my_gateway
    (<[ "xdeployment-deployment-test-app" := ODeployment observed_deployment ]>
       {[ "xdeployment-httproute-test-app" := ORoute observed_route ]}) ∅.

(** The response of a request, when there is one. *)
Definition response_of {sdk : Sdk} (req : RunFunctionRequest) : RunFunctionResponse :=
  default (response_To req) (RunFunction req).1.

(** An SDK whose conversion to the wire form fails on a Service. *)
Definition fragile_sdk : Sdk :=
  {| Struct := Obj;
     Unstructured := Obj;
     AsObject := inr;
     AsStruct := λ o,
       match o with OService _ => inl "cannot encode Service" | _ => inr o end;
     GetInput_into := λ o,
       match o with OInput d => inr d | _ => inl "cannot unmarshal input" end;
     XDeployment_FromUnstructured := λ o,
       match o with OXD xd => inr xd | _ => inl "cannot decode XDeployment" end;
     Deployment_FromUnstructured := λ o,
       match o with ODeployment d => inr d | _ => inl "cannot decode Deployment" end;
     Service_FromUnstructured := λ o,
       match o with OService s => inr s | _ => inl "cannot decode Service" end;
     HTTPRoute_FromUnstructured := λ o,
       match o with ORoute r => inr r | _ => inl "cannot decode HTTPRoute" end;
     composed_From := from true |}.

(** Everything requested, on the fragile SDK. *)
Definition fragile_everything : @RunFunctionRequest fragile_sdk :=
  @Build_RunFunctionRequest fragile_sdk
    "test" (OInput my_gateway) (OXD full_spec) ∅ ∅.

(** Everything requested, the observed service being of another kind. *)
Definition corrupt_service : @RunFunctionRequest (sdk true) :=
  request true full_spec my_gateway
    {[ "xdeployment-service-test-app" := OOther "corrupt" ]} ∅.

(** Everything requested, the caller already desiring a config map. *)
Definition prior_configmap : @RunFunctionRequest (sdk true) :=
  request true full_spec my_gateway ∅
    {[ "other-function-configmap" :=
         @Build_ProtoResource (sdk true) (OOther "ConfigMap") ReadyTrue ]}.

End Scenario.

(** * Properties *)

(** ** The order on strings *)

Lemma ascii_compare_lt_trans a b c :
  Ascii.compare a b = Lt → Ascii.compare b c = Lt → Ascii.compare a c = Lt.
Proof.
  unfold Ascii.compare. rewrite !N.compare_lt_iff. intros; etrans; eauto.
Qed.

Lemma string_compare_refl a : String.compare a a = Eq.
Proof.
  induction a as [|x a IH]; simpl; [done|].
  unfold Ascii.compare. by rewrite N.compare_refl.
Qed.

Lemma string_compare_lt_trans a b c :
  String.compare a b = Lt → String.compare b c = Lt → String.compare a c = Lt.
Proof.
  revert b c. induction a as [|x a IH]; intros [|y b] [|z c]; simpl; try done.
  destruct (Ascii.compare x y) eqn:Hxy; try done;
    destruct (Ascii.compare y z) eqn:Hyz; try done.
  - apply Ascii.compare_eq_iff in Hxy, Hyz. subst.
    unfold Ascii.compare at 1. rewrite N.compare_refl. apply IH.
  - apply Ascii.compare_eq_iff in Hxy. subst. by rewrite Hyz.
  - apply Ascii.compare_eq_iff in Hyz. subst. by rewrite Hxy.
  - by rewrite (ascii_compare_lt_trans _ _ _ Hxy Hyz).
Qed.

Lemma str_le_alt a b : str_le a b ↔ a = b ∨ String.compare a b = Lt.
Proof.
  unfold str_le, String.leb. split.
  - destruct (String.compare a b) eqn:E; try done; [|by right].
    left. by apply String.compare_eq_iff.
  - intros [-> | ->]; [|done]. by rewrite string_compare_refl.
Qed.

#[global] Instance str_le_total : Total str_le.
Proof. intros a b. apply String.leb_total. Qed.

#[global] Instance str_le_antisym : AntiSymm (=) str_le.
Proof. intros a b. apply String.leb_antisym. Qed.

#[global] Instance str_le_trans : Transitive str_le.
Proof.
  intros a b c. rewrite !str_le_alt. intros [-> | Hab] [-> | Hbc]; eauto.
  right. eapply string_compare_lt_trans; eauto.
Qed.

Section Properties.
Context `{sdk : Sdk}.

(** ** Environment variables *)

Lemma foldl_snoc {A B} (g : A → B) (l : list A) (acc : list B) :
  foldl (λ r x, r ++ [g x]) acc l = acc ++ (g <$> l).
Proof.
  revert acc. induction l as [|x l IH]; intros acc; simpl.
  - by rewrite app_nil_r.
  - rewrite IH. by rewrite <- app_assoc.
Qed.

Lemma env_entry_names envMap (keys : list string) :
  corev1.ev_Name <$> (env_entry envMap <$> keys) = keys.
Proof. induction keys as [|k keys IH]; [done|]. rewrite !fmap_cons. by f_equal. Qed.

Lemma range_order_empty envMap iter :
  go_len envMap = 0%nat → range_order envMap iter → iter = [].
Proof.
  unfold go_len, range_order. intros Hsz Hp.
  apply map_size_empty_iff in Hsz. rewrite Hsz, map_to_list_empty in Hp.
  by apply Permutation_nil_r in Hp.
Qed.

Lemma convertEnvVars_eq envMap iter :
  range_order envMap iter →
  slice_elems (convertEnvVars iter envMap) = env_entry envMap <$> sort_Strings iter.
Proof.
  intros Hr. unfold convertEnvVars. case_bool_decide as Hlen.
  - by rewrite (range_order_empty _ _ Hlen Hr).
  - change (foldl _ [] iter) with (foldl (λ r x, r ++ [id x]) [] iter).
    rewrite (foldl_snoc id iter []). simpl. rewrite list_fmap_id.
    by rewrite (foldl_snoc (env_entry envMap)).
Qed.

Lemma convertEnvVars_some envMap iter :
  range_order envMap iter → go_len envMap ≠ 0%nat →
  convertEnvVars iter envMap = Some (env_entry envMap <$> sort_Strings iter).
Proof.
  intros Hr Hlen. pose proof (convertEnvVars_eq _ _ Hr) as Heq.
  unfold convertEnvVars in *. rewrite bool_decide_false in * by done.
  simpl in Heq. by rewrite Heq.
Qed.

Lemma go_len_zero envMap :
  go_len envMap = 0%nat ↔ envMap = None ∨ envMap = Some ∅.
Proof.
  unfold go_len, go_table. split.
  - intros Hsz%map_size_empty_iff. destruct envMap as [m|]; [|by left].
    right. simpl in Hsz. by rewrite Hsz.
  - by intros [-> | ->].
Qed.

Lemma convertEnvVars_nil envMap iter :
  convertEnvVars iter envMap = None ↔ envMap = None ∨ envMap = Some ∅.
Proof.
  rewrite <- go_len_zero. unfold convertEnvVars.
  by case_bool_decide.
Qed.

Lemma sort_Strings_perm_eq l1 l2 : l1 ≡ₚ l2 → sort_Strings l1 = sort_Strings l2.
Proof.
  intros Hp. unfold sort_Strings.
  apply (Sorted_unique str_le); try apply Sorted_merge_sort; try apply _.
  by rewrite !merge_sort_Permutation.
Qed.

(** C4 (amended). [convertEnvVars] returns the entries of the env map
    sorted by key, whatever the order in which the map is iterated: the
    keys of the result are in increasing bytewise order, the result holds
    exactly the map's pairs, any two iteration orders give the same
    result, and the map ZEBRA/ALPHA/BETA gives ALPHA, BETA, ZEBRA.  The
    function has no error result.  For a nil or empty map, and for no
    other, it returns the nil slice and not an empty sequence; the
    container of the built Deployment always carries the result as its
    [Env], so that for a nil or empty map the field is left unset. *)
Theorem convertEnvVars_sorted_by_key (envMap : GoMap) (iter : list string) :
  range_order envMap iter →
  Sorted str_le (corev1.ev_Name <$> slice_elems (convertEnvVars iter envMap)) ∧
  (∀ k v, {| corev1.ev_Name := k; corev1.ev_Value := v |}
            ∈ slice_elems (convertEnvVars iter envMap)
          ↔ go_table envMap !! k = Some v) ∧
  (∀ iter', range_order envMap iter' →
            convertEnvVars iter' envMap = convertEnvVars iter envMap) ∧
  (envMap = Scenario.zebra_env →
     convertEnvVars iter envMap =
       Some [ {| corev1.ev_Name := "ALPHA"; corev1.ev_Value := "a" |};
              {| corev1.ev_Name := "BETA"; corev1.ev_Value := "b" |};
              {| corev1.ev_Name := "ZEBRA"; corev1.ev_Value := "z" |} ]) ∧
  (convertEnvVars iter envMap = None ↔ envMap = None ∨ envMap = Some ∅) ∧
  (∀ (d : Deployment) (w : World),
     xdeployment.Env
       (xdeployment.Spec (XR_ (bc_FunctionContext (d_XComposer d)))) = envMap →
     (λ o, corev1.c_Env <$>
             corev1.pt_Containers (appsv1.ds_Template (appsv1.dep_Spec o)))
       <$> (Deployment_createResource d w).2
     = Some [convertEnvVars iter envMap]).
Proof.
  intros Hr.
  assert (∀ iter', range_order envMap iter' →
            convertEnvVars iter' envMap = convertEnvVars iter envMap) as Hdet.
  { intros iter' Hr'.
    destruct (decide (go_len envMap = 0%nat)) as [Hlen|Hlen].
    - unfold convertEnvVars. by rewrite !bool_decide_true.
    - rewrite (convertEnvVars_some _ _ Hr' Hlen), (convertEnvVars_some _ _ Hr Hlen).
      do 2 f_equal. apply sort_Strings_perm_eq. by rewrite Hr, Hr'. }
  split; [|split; [|split; [|split; [|split]]]]; [ | split | | | | ].
  - rewrite (convertEnvVars_eq _ _ Hr), env_entry_names.
    apply Sorted_merge_sort; apply _.
  - rewrite (convertEnvVars_eq _ _ Hr).
    intros Hin. apply list_elem_of_fmap in Hin as (key & Heq & Hin).
    unfold env_entry in Heq. injection Heq as -> ->.
    unfold sort_Strings in Hin. rewrite merge_sort_Permutation, Hr in Hin.
    apply list_elem_of_fmap in Hin as ([k' v'] & -> & Hin).
    apply elem_of_map_to_list in Hin. unfold go_index. simpl. by rewrite Hin.
  - rewrite (convertEnvVars_eq _ _ Hr).
    intros Hlk. apply list_elem_of_fmap. exists k. split.
    + unfold env_entry, go_index. by rewrite Hlk.
    + unfold sort_Strings. rewrite merge_sort_Permutation, Hr.
      apply list_elem_of_fmap. exists (k, v). split; [done|].
      by apply elem_of_map_to_list.
  - exact Hdet.
  - intros ->. rewrite convertEnvVars_some; [|done|by vm_compute].
    rewrite (sort_Strings_perm_eq _ _ Hr). by vm_compute.
  - apply convertEnvVars_nil.
  - intros d w Henv. rewrite <- (Hdet (env_iteration envMap)), <- Henv.
    + unfold Deployment_createResource.
      by destruct (xdeployment.Replicas _).
    + unfold range_order, env_iteration. reflexivity.
Qed.

(** ** Deployment: replicas *)

(** C9. The replica count of the built Deployment is [spec.replicas]
    when that field is set, whatever its value (zero and negative values
    included), and 2 when it is unset. *)
Theorem createResource_replicas (d : Deployment) (w : World) :
  appsv1.ds_Replicas ∘ appsv1.dep_Spec <$> (Deployment_createResource d w).2 =
    Some (Some (default 2
      (xdeployment.Replicas
         (xdeployment.Spec (XR_ (bc_FunctionContext (d_XComposer d))))))).
Proof.
  unfold Deployment_createResource.
  by destruct (xdeployment.Replicas _).
Qed.

(** ** Resource names *)

Lemma NewDeployment_inv (f : XContext) d :
  NewDeployment f = inr d →
  d_XComposer d =
    {| bc_FunctionContext := f;
       ResourceName := "xdeployment-deployment-" +:+ xdeployment.Name (XR_ f);
       ConditionType := "DeploymentReady" |} ∧
  ConvertObserved appsv1.Deployment (Observed f)
    ("xdeployment-deployment-" +:+ xdeployment.Name (XR_ f))
    = inr (d_ObservedResource d).
Proof.
  unfold NewDeployment. destruct (ConvertObserved _ _ _); [done|].
  by intros [= <-].
Qed.

Lemma NewService_inv (f : XContext) s :
  NewService f = inr s →
  s_XComposer s =
    {| bc_FunctionContext := f;
       ResourceName := "xdeployment-service-" +:+ xdeployment.Name (XR_ f);
       ConditionType := "ServiceReady" |} ∧
  ConvertObserved corev1.Service (Observed f)
    ("xdeployment-service-" +:+ xdeployment.Name (XR_ f))
    = inr (s_ObservedResource s).
Proof.
  unfold NewService. destruct (ConvertObserved _ _ _); [done|].
  by intros [= <-].
Qed.

Lemma NewHttpRoute_inv (f : XContext) h :
  NewHttpRoute f = inr h →
  h_XComposer h =
    {| bc_FunctionContext := f;
       ResourceName := "xdeployment-httproute-" +:+ xdeployment.Name (XR_ f);
       ConditionType := "HttpRouteReady" |} ∧
  ConvertObserved gwapiv1.HTTPRoute (Observed f)
    ("xdeployment-httproute-" +:+ xdeployment.Name (XR_ f))
    = inr (h_ObservedResource h).
Proof.
  unfold NewHttpRoute. destruct (ConvertObserved _ _ _); [done|].
  by intros [= <-].
Qed.

(** ** Observed lookup *)

Lemma ConvertObserved_missing T `{!FromUnstructured T}
    (observed : gmap string ObservedComposed) name :
  observed !! name = None → ConvertObserved T observed name = inr None.
Proof. unfold ConvertObserved. by intros ->. Qed.

Lemma ConvertObserved_error T `{!FromUnstructured T}
    (observed : gmap string ObservedComposed) name err :
  ConvertObserved T observed name = inl err →
  ∃ obs, observed !! name = Some obs ∧ fromUnstructured (oc_Resource obs) = inl err.
Proof.
  unfold ConvertObserved. destruct (observed !! name) as [obs|]; [|done].
  destruct (fromUnstructured (oc_Resource obs)) eqn:E; [|done].
  intros [= <-]. eauto.
Qed.

(** ** HTTPRoute readiness *)

Lemma parent_accepted_iff conditions :
  parent_accepted conditions = true ↔
  ∃ condition, condition ∈ conditions ∧
    metav1.Type_ condition = "Accepted" ∧ metav1.Status condition = "True".
Proof.
  induction conditions as [|c cs IH]; simpl.
  - split; [done|]. by intros (? & ?%elem_of_nil & _).
  - destruct (String.eqb (metav1.Type_ c) gwapiv1.RouteConditionAccepted) eqn:Et;
    destruct (String.eqb (metav1.Status c) metav1.ConditionTrue) eqn:Es; simpl.
    1: { apply String.eqb_eq in Et, Es. split; [|done]. intros _.
         exists c. split; [left|done]. }
    all: rewrite IH; split;
      [ intros (x & Hx & Hc); exists x; split; [by right|done]
      | intros (x & Hx & Ht & Hs); apply elem_of_cons in Hx as [-> | Hx];
        [ apply String.eqb_neq in Et || apply String.eqb_neq in Es; done
        | by exists x ] ].
Qed.

Lemma parents_accepted_iff parents :
  parents_accepted parents = true ↔
  ∃ parent condition, parent ∈ parents ∧
    condition ∈ gwapiv1.rps_Conditions parent ∧
    metav1.Type_ condition = "Accepted" ∧ metav1.Status condition = "True".
Proof.
  induction parents as [|p ps IH]; simpl.
  - split; [done|]. by intros (? & ? & ?%elem_of_nil & _).
  - destruct (parent_accepted (gwapiv1.rps_Conditions p)) eqn:E.
    + apply parent_accepted_iff in E as (c & Hc & Ht & Hs).
      split; [|done]. intros _. exists p, c. split; [left|done].
    + rewrite IH. split.
      * intros (x & c & Hx & Hc). exists x, c. split; [by right|done].
      * intros (x & c & Hx & Hc & Ht & Hs).
        apply elem_of_cons in Hx as [-> | Hx]; [|by exists x, c].
        assert (parent_accepted (gwapiv1.rps_Conditions p) = true) as E'.
        { apply parent_accepted_iff. eauto. }
        congruence.
Qed.

(** C8. The route composer is ready exactly when some parent status entry
    of the observed HTTPRoute holds a condition of type Accepted with
    status True; in particular it is not ready when no route has been
    observed, and it is ready as soon as one parent is accepted, whatever
    the parents before and after it. *)
Theorem HttpRoute_IsReady_iff (h : HttpRoute) :
  (HttpRoute_IsReady h = true ↔
   ∃ o parent condition,
     h_ObservedResource h = Some o ∧
     parent ∈ gwapiv1.rt_Parents o ∧
     condition ∈ gwapiv1.rps_Conditions parent ∧
     metav1.Type_ condition = "Accepted" ∧
     metav1.Status condition = "True") ∧
  (h_ObservedResource h = None → HttpRoute_IsReady h = false) ∧
  (∀ o before parent after,
     h_ObservedResource h = Some o →
     gwapiv1.rt_Parents o = before ++ parent :: after →
     parent_accepted (gwapiv1.rps_Conditions parent) = true →
     HttpRoute_IsReady h = true).
Proof.
  unfold HttpRoute_IsReady. split; [|split].
  - destruct (h_ObservedResource h) as [o|].
    + rewrite parents_accepted_iff. split.
      * intros (p & c & ?). by exists o, p, c.
      * intros (o' & p & c & [= <-] & ?). by exists p, c.
    + split; [done|]. by intros (? & ? & ? & ? & _).
  - by intros ->.
  - intros o before parent after -> Hps Hacc.
    apply parents_accepted_iff.
    apply parent_accepted_iff in Hacc as (c & Hc & Ht & Hs).
    exists parent, c. rewrite Hps. split; [|done].
    apply elem_of_app. right. left.
Qed.

(** ** Absence at [ComposeDesiredResourceFrom] *)

(** C10. [ComposeDesiredResourceFrom] takes the nil interface and an
    interface holding a nil pointer (of any of the three kinds) as
    absence: it returns no resource and no error, and leaves the response
    and the log as they were. *)
Theorem ComposeDesiredResourceFrom_absent {XR D} (b : BaseComposer XR D)
    (o : runtime_Object) (w : World) :
  o = NilObject ∨ o = DeploymentObject None ∨
  o = ServiceObject None ∨ o = HTTPRouteObject None →
  ComposeDesiredResourceFrom b o w = (w, inr None).
Proof. by intros [-> | [-> | [-> | ->]]]. Qed.

Lemma ComposeDesiredResourceFrom_outcome {XR D} (b : BaseComposer XR D) o w :
  match (ComposeDesiredResourceFrom b o w).2 with
  | inl err =>
      reflect_IsNil o = false ∧ composed_From o = inl err ∧
      (ComposeDesiredResourceFrom b o w).1 =
        (response_Fatal (Wrapf err ("cannot convert " +:+ type_name o
                                    +:+ " to composed resource")) w).1
  | inr None =>
      reflect_IsNil o = true ∧ (ComposeDesiredResourceFrom b o w).1 = w
  | inr (Some dr) =>
      reflect_IsNil o = false ∧ (ComposeDesiredResourceFrom b o w).1 = w ∧
      ∃ composed, composed_From o = inr composed ∧
        dr = {| dr_Name := ResourceName b;
                dr_Resource := {| dc_Resource := composed;
                                  dc_Ready := ReadyFalse |} |}
  end.
Proof.
  unfold ComposeDesiredResourceFrom.
  destruct o as [|[p|]|[p|]|[p|]]; simpl; try done;
    destruct (composed_From _) as [err|u] eqn:E; simpl; eauto.
Qed.

(** ** The route composer's precondition *)

Lemma HttpRoute_createResource_rsp h w :
  w_rsp (HttpRoute_createResource h w).1 = w_rsp w.
Proof.
  unfold HttpRoute_createResource.
  destruct (_ ≫= defaults.Gateway); [|done].
  by destruct (_ || _).
Qed.

Lemma HttpRoute_createResource_some h w :
  is_Some (HttpRoute_createResource h w).2 ↔
  route_precondition (XR_ (bc_FunctionContext (h_XComposer h)))
                     (Defaults (bc_FunctionContext (h_XComposer h))).
Proof.
  unfold HttpRoute_createResource, route_precondition.
  destruct (_ ≫= defaults.Gateway) as [gw|]; simpl.
  2: { split; [by intros [? ?]|]. by intros (_ & _ & [? ?]). }
  destruct (xdeployment.Port _) as [port|]; simpl.
  2: { split; [by intros [? ?]|]. by intros ([? ?] & _). }
  destruct (String.eqb _ "") eqn:E; simpl.
  - apply String.eqb_eq in E. split; [by intros [? ?]|]. by intros (_ & ? & _).
  - apply String.eqb_neq in E. split; [|by eauto]. eauto.
Qed.

(** C3 (amended). The route composer builds an HTTPRoute exactly when
    [spec.port] is set, [spec.hostname] is non-empty and the static
    configuration holds a gateway entry, whether or not that entry's name
    and namespace are empty.  Otherwise the result is absent: one debug
    line is logged, the response is untouched and no error is returned. *)
Theorem HttpRoute_createResource_iff (h : HttpRoute) (w : World) :
  (is_Some (HttpRoute_createResource h w).2 ↔
   route_precondition (XR_ (bc_FunctionContext (h_XComposer h)))
                      (Defaults (bc_FunctionContext (h_XComposer h)))) ∧
  ((HttpRoute_createResource h w).2 = None →
   (∃ msg, (HttpRoute_createResource h w).1 =
             {| w_rsp := w_rsp w;
                w_log := w_log w ++ [{| log_Level := LevelDebug; log_Msg := msg |}] |}) ∧
   HttpRoute_ComposeDesiredResource h w =
     ((HttpRoute_createResource h w).1, inr None)).
Proof.
  split; [apply HttpRoute_createResource_some|].
  unfold HttpRoute_ComposeDesiredResource.
  unfold mbind at 1, M_bind at 1.
  intros Hnone. split; [|by rewrite Hnone].
  revert Hnone. unfold HttpRoute_createResource.
  destruct (_ ≫= defaults.Gateway); [|by eauto].
  destruct (_ || _); [by eauto|done].
Qed.

(** ** One composer at a time *)

Lemma Deployment_createResource_spec d w :
  w_rsp (Deployment_createResource d w).1 = w_rsp w ∧
  is_Some (Deployment_createResource d w).2.
Proof.
  unfold Deployment_createResource.
  destruct (xdeployment.Replicas _); simpl; eauto.
Qed.

Lemma Service_createResource_spec s w :
  w_rsp (Service_createResource s w).1 = w_rsp w ∧
  (is_Some (Service_createResource s w).2 ↔
   is_Some (xdeployment.Port
              (xdeployment.Spec (XR_ (bc_FunctionContext (s_XComposer s)))))).
Proof.
  unfold Service_createResource.
  destruct (xdeployment.Port _); simpl; (split; [done|]).
  - split; eauto.
  - split; by intros [? ?].
Qed.

Lemma from_builds {XR D} (b : BaseComposer XR D)
    (o : runtime_Object) (present : bool) w0 w :
  w_rsp w = w_rsp w0 →
  reflect_IsNil o = negb present →
  match (ComposeDesiredResourceFrom b o w).2 with
  | inl err =>
      ∃ msg, w_rsp (ComposeDesiredResourceFrom b o w).1 = w_rsp (response_Fatal msg w0).1
  | inr None =>
      present = false ∧ w_rsp (ComposeDesiredResourceFrom b o w).1 = w_rsp w0
  | inr (Some dr) =>
      present = true ∧ w_rsp (ComposeDesiredResourceFrom b o w).1 = w_rsp w0 ∧
      dr_Name dr = ResourceName b ∧ dc_Ready (dr_Resource dr) = ReadyFalse
  end.
Proof.
  intros Hw Hnil.
  pose proof (ComposeDesiredResourceFrom_outcome b o w) as H.
  destruct ((ComposeDesiredResourceFrom b o w).2) as [err|[dr|]].
  - destruct H as (_ & _ & ->). eexists. simpl. by rewrite Hw.
  - destruct H as (Hn & -> & u & _ & ->). rewrite Hn in Hnil.
    destruct present; done.
  - destruct H as (Hn & ->). rewrite Hn in Hnil. destruct present; done.
Qed.

Lemma is_nil_pointer_iff {A} (p : option A) (P : Prop) `{!Decision P} :
  (is_Some p ↔ P) → is_nil_pointer p = negb (bool_decide P).
Proof.
  intros HP. destruct p; simpl.
  - rewrite bool_decide_eq_true_2; [done|]. apply HP. eauto.
  - rewrite bool_decide_eq_false_2; [done|]. rewrite <- HP. by intros [? ?].
Qed.

Lemma Deployment_builds d :
  builds (Deployment_composer d) (ResourceName (d_XComposer d)) true.
Proof.
  intros w. simpl. unfold Deployment_ComposeDesiredResource, mbind, M_bind.
  destruct (Deployment_createResource_spec d w) as [Hw [o Ho]].
  apply from_builds; [done|]. by rewrite Ho.
Qed.

Lemma Service_builds s :
  builds (Service_composer s) (ResourceName (s_XComposer s))
    (bool_decide (is_Some (xdeployment.Port
       (xdeployment.Spec (XR_ (bc_FunctionContext (s_XComposer s))))))).
Proof.
  intros w. simpl. unfold Service_ComposeDesiredResource, mbind, M_bind.
  destruct (Service_createResource_spec s w) as [Hw Ho].
  apply from_builds; [done|]. simpl. by apply is_nil_pointer_iff.
Qed.

Lemma HttpRoute_builds h :
  builds (HttpRoute_composer h) (ResourceName (h_XComposer h))
    (bool_decide (route_precondition
       (XR_ (bc_FunctionContext (h_XComposer h)))
       (Defaults (bc_FunctionContext (h_XComposer h))))).
Proof.
  intros w. simpl. unfold HttpRoute_ComposeDesiredResource, mbind, M_bind.
  apply from_builds; [apply HttpRoute_createResource_rsp|]. simpl.
  apply is_nil_pointer_iff, HttpRoute_createResource_some.
Qed.

(** ** Resource names, continued *)

(** C5. Each constructor derives its resource name from its format and
    the composite's name: "xdeployment-deployment-<name>",
    "xdeployment-service-<name>" and "xdeployment-httproute-<name>".  It
    looks the observed entry up under that very name, fails exactly when
    that lookup fails, and otherwise returns a composer carrying the name;
    with nothing observed under the name it succeeds.  What the composer
    builds is placed under that name.  Two contexts whose composite has
    the same name give the same resource names for every kind. *)
Theorem resource_names_exact (f f' : XContext) :
  let name := xdeployment.Name (XR_ f) in
  let deployment := "xdeployment-deployment-" +:+ name in
  let service := "xdeployment-service-" +:+ name in
  let route := "xdeployment-httproute-" +:+ name in
  (name_of d_XComposer (NewDeployment f) =
     looked_up deployment (ConvertObserved appsv1.Deployment (Observed f) deployment) ∧
   name_of s_XComposer (NewService f) =
     looked_up service (ConvertObserved corev1.Service (Observed f) service) ∧
   name_of h_XComposer (NewHttpRoute f) =
     looked_up route (ConvertObserved gwapiv1.HTTPRoute (Observed f) route)) ∧
  ((Observed f !! deployment = None →
    name_of d_XComposer (NewDeployment f) = inr deployment) ∧
   (Observed f !! service = None →
    name_of s_XComposer (NewService f) = inr service) ∧
   (Observed f !! route = None →
    name_of h_XComposer (NewHttpRoute f) = inr route)) ∧
  ((∀ d w dr, NewDeployment f = inr d →
      (ComposeDesiredResource (Deployment_composer d) w).2 = inr (Some dr) →
      dr_Name dr = deployment) ∧
   (∀ s w dr, NewService f = inr s →
      (ComposeDesiredResource (Service_composer s) w).2 = inr (Some dr) →
      dr_Name dr = service) ∧
   (∀ h w dr, NewHttpRoute f = inr h →
      (ComposeDesiredResource (HttpRoute_composer h) w).2 = inr (Some dr) →
      dr_Name dr = route)) ∧
  (xdeployment.Name (XR_ f) = xdeployment.Name (XR_ f') →
   (∀ n n', name_of d_XComposer (NewDeployment f) = inr n →
            name_of d_XComposer (NewDeployment f') = inr n' → n = n') ∧
   (∀ n n', name_of s_XComposer (NewService f) = inr n →
            name_of s_XComposer (NewService f') = inr n' → n = n') ∧
   (∀ n n', name_of h_XComposer (NewHttpRoute f) = inr n →
            name_of h_XComposer (NewHttpRoute f') = inr n' → n = n')).
Proof.
  intros name deployment service route.
  assert (∀ g : XContext,
            name_of d_XComposer (NewDeployment g) =
              looked_up ("xdeployment-deployment-" +:+ xdeployment.Name (XR_ g))
                (ConvertObserved appsv1.Deployment (Observed g)
                   ("xdeployment-deployment-" +:+ xdeployment.Name (XR_ g)))) as HD.
  { intros g. unfold name_of, looked_up, NewDeployment.
    by destruct (ConvertObserved _ _ _). }
  assert (∀ g : XContext,
            name_of s_XComposer (NewService g) =
              looked_up ("xdeployment-service-" +:+ xdeployment.Name (XR_ g))
                (ConvertObserved corev1.Service (Observed g)
                   ("xdeployment-service-" +:+ xdeployment.Name (XR_ g)))) as HS.
  { intros g. unfold name_of, looked_up, NewService.
    by destruct (ConvertObserved _ _ _). }
  assert (∀ g : XContext,
            name_of h_XComposer (NewHttpRoute g) =
              looked_up ("xdeployment-httproute-" +:+ xdeployment.Name (XR_ g))
                (ConvertObserved gwapiv1.HTTPRoute (Observed g)
                   ("xdeployment-httproute-" +:+ xdeployment.Name (XR_ g)))) as HH.
  { intros g. unfold name_of, looked_up, NewHttpRoute.
    by destruct (ConvertObserved _ _ _). }
  split; [|split; [|split]].
  - split; [apply HD | split; [apply HS | apply HH]].
  - split; [|split]; intros Hnone.
    + rewrite HD. fold name deployment.
      by rewrite (ConvertObserved_missing _ _ _ Hnone).
    + rewrite HS. fold name service.
      by rewrite (ConvertObserved_missing _ _ _ Hnone).
    + rewrite HH. fold name route.
      by rewrite (ConvertObserved_missing _ _ _ Hnone).
  - split; [|split].
    + intros d w dr [Hd _]%NewDeployment_inv Hdr.
      pose proof (Deployment_builds d w) as Hb. rewrite Hdr in Hb.
      destruct Hb as (_ & _ & -> & _). by rewrite Hd.
    + intros s w dr [Hs _]%NewService_inv Hdr.
      pose proof (Service_builds s w) as Hb. rewrite Hdr in Hb.
      destruct Hb as (_ & _ & -> & _). by rewrite Hs.
    + intros h w dr [Hh _]%NewHttpRoute_inv Hdr.
      pose proof (HttpRoute_builds h w) as Hb. rewrite Hdr in Hb.
      destruct Hb as (_ & _ & -> & _). by rewrite Hh.
  - intros Hname. split; [|split]; intros n n'.
    + rewrite (HD f), (HD f'), <- Hname. unfold looked_up.
      do 2 destruct (ConvertObserved _ _ _); simpl; congruence.
    + rewrite (HS f), (HS f'), <- Hname. unfold looked_up.
      do 2 destruct (ConvertObserved _ _ _); simpl; congruence.
    + rewrite (HH f), (HH f'), <- Hname. unfold looked_up.
      do 2 destruct (ConvertObserved _ _ _); simpl; congruence.
Qed.

(** ** The loop over the composers *)

(** What one pass of the loop does, by the outcome of the composer. *)
Lemma compose_loop_cons r rest desired w :
  compose_loop (r :: rest) desired w =
    match (ComposeDesiredResource r w).2 with
    | inl err =>
        ((response_Condition (composition_error r err)
            (ComposeDesiredResource r w).1).1, inl err)
    | inr None => compose_loop rest desired (ComposeDesiredResource r w).1
    | inr (Some dr) =>
        compose_loop rest
          (<[dr_Name dr :=
               with_ready (dr_Resource dr)
                 (if IsReady r then ReadyTrue else dc_Ready (dr_Resource dr))]> desired)
          (log_Info "Added desired resource"
             (response_Condition (readiness_condition r)
                (ComposeDesiredResource r w).1).1).1
    end.
Proof.
  simpl. unfold mbind at 1, M_bind at 1.
  destruct (ComposeDesiredResource r w) as [w1 [err|[dr|]]]; simpl; [done| |done].
  unfold readiness_condition. destruct (IsReady r); [done|].
  by destruct dr as [name [body ready]].
Qed.

Lemma compose_loop_step r name pre rest desired w w' desired' :
  builds r name pre →
  compose_loop (r :: rest) desired w = (w', inr desired') →
  ∃ built w1,
    (is_Some built ↔ pre = true) ∧
    w_rsp w1 = noted pre (readiness_condition r) (w_rsp w) ∧
    compose_loop rest (put name built (IsReady r) desired) w1 = (w', inr desired').
Proof.
  intros Hb. specialize (Hb w). rewrite compose_loop_cons.
  destruct ((ComposeDesiredResource r w).2) as [err|[dr|]]; [done| |].
  - destruct Hb as (-> & Hw & <- & Hready).
    destruct dr as [name [body ready]]. simpl in *. subst ready.
    intros Hloop. exists (Some body). eexists. split; [by eauto|].
    split; [|by rewrite <- Hloop; destruct (IsReady r)].
    simpl. by rewrite Hw.
  - destruct Hb as (-> & Hw). intros Hloop. exists None. eexists.
    split; [|split; [|exact Hloop]]; [|done].
    split; [by intros [? ?]|done].
Qed.

Lemma compose_loop_three rD rS rH nD nS nH pS pH desired w w' desired' :
  builds rD nD true → builds rS nS pS → builds rH nH pH →
  compose_loop [rD; rS; rH] desired w = (w', inr desired') →
  ∃ bD bS bH,
    (is_Some bS ↔ pS = true) ∧ (is_Some bH ↔ pH = true) ∧
    desired' =
      put nH bH (IsReady rH)
        (put nS bS (IsReady rS) (put nD (Some bD) (IsReady rD) desired)) ∧
    w_rsp w' =
      noted pH (readiness_condition rH)
        (noted pS (readiness_condition rS)
           (noted true (readiness_condition rD) (w_rsp w))).
Proof.
  intros HD HS HH Hloop.
  apply (compose_loop_step _ _ _ _ _ _ _ _ HD) in Hloop
    as (bD & w1 & HbD & Hw1 & Hloop).
  apply (compose_loop_step _ _ _ _ _ _ _ _ HS) in Hloop
    as (bS & w2 & HbS & Hw2 & Hloop).
  apply (compose_loop_step _ _ _ _ _ _ _ _ HH) in Hloop
    as (bH & w3 & HbH & Hw3 & Hloop).
  simpl in Hloop. injection Hloop as <- <-.
  destruct bD as [bD|]; [|by destruct HbD as [_ [? ?]]].
  exists bD, bS, bH. repeat split; try tauto.
  by rewrite Hw3, Hw2, Hw1.
Qed.

(** A failing composer ends the loop: the composers after it are not
    run, and the condition recorded carries the composer's own type. *)
Lemma compose_loop_error r rest desired w err :
  (ComposeDesiredResource r w).2 = inl err →
  compose_loop (r :: rest) desired w =
    ((response_Condition (composition_error r err)
        (ComposeDesiredResource r w).1).1, inl err).
Proof. intros H. by rewrite compose_loop_cons, H. Qed.

(** ** Decoding the caller's desired state, storing the function's *)

Lemma desired_loop_keys items dcds m :
  desired_loop items dcds = inr m →
  ∀ k, is_Some (m !! k) ↔ is_Some (dcds !! k) ∨ k ∈ items.*1.
Proof.
  revert dcds. induction items as [|[name r] items IH]; intros dcds; simpl.
  - intros [= <-] k. rewrite elem_of_nil. tauto.
  - destruct (AsObject (wire_Resource r)) as [err|u]; [done|].
    intros Hm k. rewrite (IH _ Hm k), elem_of_cons, lookup_insert_is_Some.
    simpl. destruct (decide (name = k)); intuition congruence.
Qed.

Lemma GetDesiredComposedResources_keys req desired :
  GetDesiredComposedResources req = inr desired →
  ∀ k, is_Some (desired !! k) ↔ is_Some (req_DesiredResources req !! k).
Proof.
  intros H k. rewrite (desired_loop_keys _ _ _ H k), lookup_empty.
  rewrite list_elem_of_fmap. split.
  - intros [[]%is_Some_None | ([k' v] & -> & Hin)].
    apply elem_of_map_to_list in Hin. eauto.
  - intros [v Hv]. right. exists (k, v). split; [done|].
    by apply elem_of_map_to_list.
Qed.

Lemma set_desired_loop_spec items w w' :
  NoDup items.*1 →
  set_desired_loop items w = (w', None) →
  rsp_Tag (w_rsp w') = rsp_Tag (w_rsp w) ∧
  rsp_Conditions (w_rsp w') = rsp_Conditions (w_rsp w) ∧
  rsp_Results (w_rsp w') = rsp_Results (w_rsp w) ∧
  (∀ k dcd, (k, dcd) ∈ items →
     ∃ s, AsStruct (dc_Resource dcd) = inr s ∧
          rsp_Desired (w_rsp w') !! k =
            Some {| wire_Resource := s; wire_Ready := dc_Ready dcd |}) ∧
  (∀ k, k ∉ items.*1 → rsp_Desired (w_rsp w') !! k = rsp_Desired (w_rsp w) !! k).
Proof.
  revert w. induction items as [|[name dcd] items IH]; intros w Hnd; simpl.
  - intros [= <-]. repeat split; try done. by intros k d ?%elem_of_nil.
  - destruct (AsStruct (dc_Resource dcd)) as [err|s] eqn:Es; [done|].
    unfold mbind at 1, M_bind at 1. simpl.
    apply NoDup_cons in Hnd as [Hname Hnd].
    intros Hloop. destruct (IH _ Hnd Hloop) as (Ht & Hc & Hr & Hin & Hout).
    simpl in *. repeat split; try done.
    + intros k d [[= -> ->] | Hk]%elem_of_cons.
      * exists s. split; [done|]. rewrite (Hout _ Hname). apply lookup_insert_eq.
      * by apply Hin.
    + intros k [Hne Hk]%not_elem_of_cons.
      rewrite (Hout _ Hk). by apply lookup_insert_ne.
Qed.

Lemma SetDesiredComposedResources_spec dcds w w' :
  SetDesiredComposedResources dcds w = (w', None) →
  rsp_Tag (w_rsp w') = rsp_Tag (w_rsp w) ∧
  rsp_Conditions (w_rsp w') = rsp_Conditions (w_rsp w) ∧
  rsp_Results (w_rsp w') = rsp_Results (w_rsp w) ∧
  (∀ k dcd, dcds !! k = Some dcd →
     ∃ s, AsStruct (dc_Resource dcd) = inr s ∧
          rsp_Desired (w_rsp w') !! k =
            Some {| wire_Resource := s; wire_Ready := dc_Ready dcd |}) ∧
  (∀ k, dcds !! k = None → rsp_Desired (w_rsp w') !! k = rsp_Desired (w_rsp w) !! k).
Proof.
  intros H.
  destruct (set_desired_loop_spec _ _ _ (NoDup_fst_map_to_list dcds) H)
    as (Ht & Hc & Hr & Hin & Hout).
  repeat split; try done.
  - intros k dcd Hk. by apply Hin, elem_of_map_to_list.
  - intros k Hk. apply Hout. intros ([k' v] & -> & Hin')%list_elem_of_fmap.
    apply elem_of_map_to_list in Hin'. simpl in Hk. congruence.
Qed.

(** ** The handler, phase by phase *)

Lemma RunFunction_body_loop req dv observed desired xd d s h :
  decoded req dv observed desired xd →
  constructed (context_of dv observed xd) d s h →
  RunFunction_body req (initial_world req) =
    (compose_loop
       [Deployment_composer d; Service_composer s; HttpRoute_composer h] desired
     ≫= after_loop) (loop_start req).
Proof.
  intros (Hi & Ho & Hd & xr & Hxr & Hxd) (HD & HS & HH).
  unfold RunFunction_body. unfold mbind at 1, M_bind at 1.
  rewrite Hi, Ho, Hd, Hxr, Hxd. fold (context_of dv observed xd).
  cbv zeta. by rewrite HD, HS, HH.
Qed.

Lemma last_snoc_cond {A} (l : list A) (x : A) : last (l ++ [x]) = Some x.
Proof. induction l as [|y [|z l] IH]; done. Qed.

Lemma RunFunction_decode_failure req :
  decode_failure req →
  ∃ msg, RunFunction req = (Some (halted req [internal_error] msg), None).
Proof.
  intros Hfail. unfold RunFunction, RunFunction_world, RunFunction_body.
  unfold mbind at 1 3, M_bind at 1 3.
  destruct (GetInput_into (req_Input req)) as [e|dv] eqn:Ei; [by eexists|].
  destruct (GetObservedComposedResources req) as [e|observed] eqn:Eo; [by eexists|].
  destruct (GetDesiredComposedResources req) as [e|desired] eqn:Ed; [by eexists|].
  destruct (AsObject (req_ObservedComposite req)) as [e|xr] eqn:Ex; [by eexists|].
  destruct (XDeployment_FromUnstructured xr) as [e|xd] eqn:Exd; [by eexists|].
  exfalso.
  destruct Hfail as [[? ?] | [[? ?] | [[? ?] | [[? ?] | (? & ? & ? & ?)]]]];
    congruence.
Qed.

Lemma RunFunction_constructor_failure req dv observed desired xd :
  decoded req dv observed desired xd →
  (∀ d s h, ¬ constructed (context_of dv observed xd) d s h) →
  ∃ msg, RunFunction req = (Some (halted req [] msg), None).
Proof.
  intros (Hi & Ho & Hd & xr & Hxr & Hxd) Hfail.
  unfold RunFunction, RunFunction_world, RunFunction_body.
  unfold mbind at 1 3, M_bind at 1 3.
  rewrite Hi, Ho, Hd, Hxr, Hxd. fold (context_of dv observed xd). cbv zeta.
  destruct (NewDeployment _) as [e|d] eqn:ED; [by eexists|].
  destruct (NewService _) as [e|s] eqn:ES; [by eexists|].
  destruct (NewHttpRoute _) as [e|h] eqn:EH; [by eexists|].
  by destruct (Hfail d s h).
Qed.

(** C6. The observed lookup returns nothing, without error, for a name
    that was never observed; it fails only on a value that is present and
    does not decode; every constructor fails exactly when its lookup does;
    and a failing constructor halts the invocation: the response holds the
    request's desired state, no condition and one fatal result. *)
Theorem ConvertObserved_corruption_is_fatal
    (req : RunFunctionRequest) (dv : defaults.XDeploymentDefaults)
    (observed : gmap string ObservedComposed)
    (desired : gmap string DesiredComposed) (xd : xdeployment.XDeployment) :
  let f := context_of dv observed xd in
  let name := xdeployment.Name xd in
  (∀ T (dec : FromUnstructured T) n,
     observed !! n = None → ConvertObserved T observed n = inr None) ∧
  (∀ T (dec : FromUnstructured T) n err,
     ConvertObserved T observed n = inl err →
     ∃ obs, observed !! n = Some obs ∧ fromUnstructured (oc_Resource obs) = inl err) ∧
  (∀ err,
     (NewDeployment f = inl err ↔
      ConvertObserved appsv1.Deployment observed
        ("xdeployment-deployment-" +:+ name) = inl err) ∧
     (NewService f = inl err ↔
      ConvertObserved corev1.Service observed
        ("xdeployment-service-" +:+ name) = inl err) ∧
     (NewHttpRoute f = inl err ↔
      ConvertObserved gwapiv1.HTTPRoute observed
        ("xdeployment-httproute-" +:+ name) = inl err)) ∧
  (decoded req dv observed desired xd →
   (∃ err, NewDeployment f = inl err ∨ NewService f = inl err ∨
           NewHttpRoute f = inl err) →
   ∃ msg, RunFunction req = (Some (halted req [] msg), None)).
Proof.
  intros f name. split; [|split; [|split]].
  - intros T dec n. apply ConvertObserved_missing.
  - intros T dec n err. apply ConvertObserved_error.
  - intros err. unfold NewDeployment, NewService, NewHttpRoute. simpl.
    fold name. repeat split; destruct (ConvertObserved _ _ _); congruence.
  - intros Hdec [err Herr]. apply (RunFunction_constructor_failure _ _ _ _ _ Hdec).
    intros d s h (HD & HS & HH). fold f in HD, HS, HH.
    destruct Herr as [? | [? | ?]]; congruence.
Qed.

(** ** Build errors *)

Lemma compose_loop_failure rs desired w w1 err :
  Forall quiet rs →
  compose_loop rs desired w = (w1, inl err) →
  ∃ before r after,
    rs = before ++ r :: after ∧
    last (rsp_Conditions (w_rsp w1)) = Some (composition_error r err) ∧
    rsp_Desired (w_rsp w1) = rsp_Desired (w_rsp w) ∧
    ∀ after', compose_loop (before ++ r :: after') desired w = (w1, inl err).
Proof.
  intros Hq. revert desired w.
  induction Hq as [|r rs (name & pre & Hb) Hq IH]; intros desired w; [done|].
  rewrite compose_loop_cons. specialize (Hb w).
  destruct ((ComposeDesiredResource r w).2) as [e|[dr|]] eqn:E.
  - intros [= <- <-]. exists [], r, rs. destruct Hb as [msg Hw].
    repeat split.
    + apply last_snoc_cond.
    + simpl. by rewrite Hw.
    + intros after'. change ([] ++ r :: after') with (r :: after').
      by rewrite compose_loop_cons, E.
  - destruct Hb as (_ & Hw & _). intros Hloop.
    destruct (IH _ _ Hloop) as (before & r' & after & -> & Hlast & Hdes & Hrest).
    exists (r :: before), r', after. repeat split; try done.
    + rewrite Hdes. simpl. by rewrite Hw.
    + intros after'. change ((r :: before) ++ r' :: after')
        with (r :: (before ++ r' :: after')).
      rewrite compose_loop_cons, E. apply Hrest.
  - destruct Hb as (_ & Hw). intros Hloop.
    destruct (IH _ _ Hloop) as (before & r' & after & -> & Hlast & Hdes & Hrest).
    exists (r :: before), r', after. repeat split; try done.
    + by rewrite Hdes, Hw.
    + intros after'. change ((r :: before) ++ r' :: after')
        with (r :: (before ++ r' :: after')).
      rewrite compose_loop_cons, E. apply Hrest.
Qed.

Lemma constructed_quiet f d s h :
  constructed f d s h →
  Forall quiet [Deployment_composer d; Service_composer s; HttpRoute_composer h].
Proof.
  intros _. repeat constructor.
  - eexists _, _. apply Deployment_builds.
  - eexists _, _. apply Service_builds.
  - eexists _, _. apply HttpRoute_builds.
Qed.

Lemma constructed_condition_types f d s h :
  constructed f d s h →
  GetConditionType (Deployment_composer d) = "DeploymentReady" ∧
  GetConditionType (Service_composer s) = "ServiceReady" ∧
  GetConditionType (HttpRoute_composer h) = "HttpRouteReady".
Proof.
  intros ([HD _]%NewDeployment_inv & [HS _]%NewService_inv & [HH _]%NewHttpRoute_inv).
  simpl. unfold BaseComposer_GetConditionType. by rewrite HD, HS, HH.
Qed.

(** C2 (amended). A failure of one of the five decoding steps halts the
    invocation: the response holds the request's desired state, the
    condition FunctionSuccess=False with reason InternalError for the
    composite and the claim, and one fatal result.  A build error of a
    composer ends the loop: the composers after it are not run, the
    response object keeps the request's desired state, and the condition
    recorded last carries the failing composer's own type
    (DeploymentReady, ServiceReady or HttpRouteReady, not
    FunctionSuccess), status False, reason CompositionError, the error as
    message, for the composite only. *)
Theorem fatal_failures_halt (req : RunFunctionRequest) :
  (decode_failure req →
   ∃ msg, RunFunction req = (Some (halted req [internal_error] msg), None)) ∧
  (∀ dv observed desired xd d s h w1 err,
     decoded req dv observed desired xd →
     constructed (context_of dv observed xd) d s h →
     let resources :=
       [Deployment_composer d; Service_composer s; HttpRoute_composer h] in
     compose_loop resources desired (loop_start req) = (w1, inl err) →
     RunFunction_world req = w1 ∧
     rsp_Desired (w_rsp w1) = req_DesiredResources req ∧
     ∃ before r after,
       resources = before ++ r :: after ∧
       (∀ after',
          compose_loop (before ++ r :: after') desired (loop_start req)
            = (w1, inl err)) ∧
       GetConditionType r ∈ ["DeploymentReady"; "ServiceReady"; "HttpRouteReady"] ∧
       last (rsp_Conditions (w_rsp w1)) =
         Some {| cond_Type := GetConditionType r;
                 cond_Status := StatusConditionFalse;
                 cond_Reason := "CompositionError";
                 cond_Message := Some err;
                 cond_Target := TargetComposite |}).
Proof.
  split; [apply RunFunction_decode_failure|].
  intros dv observed desired xd d s h w1 err Hdec Hcon resources Hloop.
  split; [|split].
  - unfold RunFunction_world.
    rewrite (RunFunction_body_loop _ _ _ _ _ _ _ _ Hdec Hcon).
    unfold mbind, M_bind. fold resources. by rewrite Hloop.
  - destruct (compose_loop_failure _ _ _ _ _ (constructed_quiet _ _ _ _ Hcon) Hloop)
      as (_ & _ & _ & _ & _ & Hdes & _).
    by rewrite Hdes.
  - destruct (compose_loop_failure _ _ _ _ _ (constructed_quiet _ _ _ _ Hcon) Hloop)
      as (before & r & after & Hrs & Hlast & _ & Hrest).
    exists before, r, after. repeat split; try done.
    assert (r ∈ resources) as Hin.
    { fold resources in Hrs. rewrite Hrs. apply elem_of_app. right. left. }
    destruct (constructed_condition_types _ _ _ _ Hcon) as (HD & HS & HH).
    unfold resources in Hin.
    repeat (apply elem_of_cons in Hin as [-> | Hin]);
      [rewrite HD | rewrite HS | rewrite HH | by apply elem_of_nil in Hin];
      set_solver.
Qed.

(** ** The successful run *)

Lemma put_lookup_same n body ready (m : gmap string DesiredComposed) :
  put n (Some body) ready m !! n =
    Some {| dc_Resource := body; dc_Ready := ready_flag ready |}.
Proof. apply lookup_insert_eq. Qed.

Lemma put_lookup_other n built ready (m : gmap string DesiredComposed) k :
  k ≠ n → put n built ready m !! k = m !! k.
Proof. intros Hne. destruct built; [|done]. by apply lookup_insert_ne. Qed.

Lemma put_is_Some n built ready (m : gmap string DesiredComposed) k :
  is_Some (put n built ready m !! k) ↔ is_Some (m !! k) ∨ (k = n ∧ is_Some built).
Proof.
  destruct built as [body|]; simpl.
  - rewrite lookup_insert_is_Some.
    destruct (decide (n = k)) as [-> | Hne]; [by intuition eauto|].
    intuition congruence.
  - split; [tauto|]. intros [? | [_ [? ?]]]; done.
Qed.

Lemma names_distinct (n : string) :
  "xdeployment-deployment-" +:+ n ≠ "xdeployment-service-" +:+ n ∧
  "xdeployment-deployment-" +:+ n ≠ "xdeployment-httproute-" +:+ n ∧
  "xdeployment-service-" +:+ n ≠ "xdeployment-httproute-" +:+ n.
Proof. repeat split; simpl; by intros [=]. Qed.

Lemma cond_Type_readiness r : cond_Type (readiness_condition r) = GetConditionType r.
Proof. unfold readiness_condition. by destruct (IsReady r). Qed.

Lemma RunFunction_success req dv observed desired xd rsp :
  decoded req dv observed desired xd →
  RunFunction req = (Some rsp, None) → rsp_Results rsp = [] →
  ∃ d s h w1 desired' w2,
    constructed (context_of dv observed xd) d s h ∧
    compose_loop
      [Deployment_composer d; Service_composer s; HttpRoute_composer h]
      desired (loop_start req) = (w1, inr desired') ∧
    SetDesiredComposedResources desired' w1 = (w2, None) ∧
    rsp = w_rsp w2.
Proof.
  intros Hdec Hrun Hres.
  destruct (NewDeployment (context_of dv observed xd)) as [e|d] eqn:ED.
  { destruct (RunFunction_constructor_failure _ _ _ _ _ Hdec) as [msg Hmsg].
    - intros d s h (? & _). congruence.
    - rewrite Hmsg in Hrun. by injection Hrun as <-. }
  destruct (NewService (context_of dv observed xd)) as [e|s] eqn:ES.
  { destruct (RunFunction_constructor_failure _ _ _ _ _ Hdec) as [msg Hmsg].
    - intros d' s h (_ & ? & _). congruence.
    - rewrite Hmsg in Hrun. by injection Hrun as <-. }
  destruct (NewHttpRoute (context_of dv observed xd)) as [e|h] eqn:EH.
  { destruct (RunFunction_constructor_failure _ _ _ _ _ Hdec) as [msg Hmsg].
    - intros d' s' h (_ & _ & ?). congruence.
    - rewrite Hmsg in Hrun. by injection Hrun as <-. }
  assert (constructed (context_of dv observed xd) d s h) as Hcon by done.
  exists d, s, h. revert Hrun. unfold RunFunction, RunFunction_world.
  rewrite (RunFunction_body_loop _ _ _ _ _ _ _ _ Hdec Hcon).
  unfold mbind, M_bind.
  destruct (compose_loop _ desired (loop_start req)) as [w1 [err|desired']];
    simpl; [done|].
  unfold mbind, M_bind.
  destruct (SetDesiredComposedResources desired' w1) as [w2 [err|]] eqn:ESet; simpl.
  - intros [= <-]. simpl in Hres. by apply app_eq_nil in Hres as [_ ?].
  - intros [= <-]. by exists w1, desired', w2.
Qed.

(** The response of a successful run, in terms of what the three
    composers built. *)
Lemma RunFunction_success_shape req dv observed desired xd rsp :
  decoded req dv observed desired xd →
  RunFunction req = (Some rsp, None) → rsp_Results rsp = [] →
  ∃ d s h bD bS bH,
    let name := xdeployment.Name xd in
    let pS := bool_decide (is_Some (xdeployment.Port (xdeployment.Spec xd))) in
    let pH := bool_decide (route_precondition xd (Some dv)) in
    let built :=
      put ("xdeployment-httproute-" +:+ name) bH (HttpRoute_IsReady h)
        (put ("xdeployment-service-" +:+ name) bS (Service_IsReady s)
           (put ("xdeployment-deployment-" +:+ name) (Some bD)
              (Deployment_IsReady d) desired)) in
    constructed (context_of dv observed xd) d s h ∧
    (is_Some bS ↔ pS = true) ∧ (is_Some bH ↔ pH = true) ∧
    rsp_Conditions rsp =
      [readiness_condition (Deployment_composer d)] ++
      (if pS then [readiness_condition (Service_composer s)] else []) ++
      (if pH then [readiness_condition (HttpRoute_composer h)] else []) ∧
    (∀ k dcd, built !! k = Some dcd →
       ∃ body, AsStruct (dc_Resource dcd) = inr body ∧
               rsp_Desired rsp !! k =
                 Some {| wire_Resource := body; wire_Ready := dc_Ready dcd |}) ∧
    (∀ k, built !! k = None → rsp_Desired rsp !! k = req_DesiredResources req !! k).
Proof.
  intros Hdec Hrun Hres.
  destruct (RunFunction_success _ _ _ _ _ _ Hdec Hrun Hres)
    as (d & s & h & w1 & desired' & w2 & Hcon & Hloop & Hset & ->).
  pose proof Hcon as
    ([HD _]%NewDeployment_inv & [HS _]%NewService_inv & [HH _]%NewHttpRoute_inv).
  pose proof (Deployment_builds d) as BD.
  pose proof (Service_builds s) as BS.
  pose proof (HttpRoute_builds h) as BH.
  rewrite HD in BD. rewrite HS in BS. rewrite HH in BH. simpl in BD, BS, BH.
  destruct (compose_loop_three _ _ _ _ _ _ _ _ _ _ _ _ BD BS BH Hloop)
    as (bD & bS & bH & HbS & HbH & -> & Hw1).
  destruct (SetDesiredComposedResources_spec _ _ _ Hset)
    as (_ & Hc & _ & Hin & Hout).
  exists d, s, h, bD, bS, bH. simpl.
  split; [done|]. split; [done|]. split; [done|]. split; [|split].
  - rewrite Hc, Hw1. simpl.
    destruct (bool_decide (is_Some _)), (bool_decide (route_precondition _ _)); done.
  - exact Hin.
  - intros k Hk. rewrite (Hout _ Hk), Hw1.
    destruct (bool_decide (is_Some _)), (bool_decide (route_precondition _ _)); done.
Qed.

(** C1 (amended). When every input decodes, no composer fails and the
    desired set is stored in the response, the response's desired set
    has an entry under a name exactly when the request's desired state
    already had one under that name, or the name is that of a kind whose
    precondition holds (Deployment: always; Service: port set; HTTPRoute:
    port set, hostname non-empty, gateway configured).  The conditions
    emitted are one per kind whose precondition holds, in loop order.  In
    particular, with port unset the only condition is DeploymentReady and
    the service and route names are in the desired set only if the caller
    had put them there. *)
Theorem desired_entries_follow_preconditions
    (req : RunFunctionRequest) (dv : defaults.XDeploymentDefaults)
    (observed : gmap string ObservedComposed)
    (desired : gmap string DesiredComposed)
    (xd : xdeployment.XDeployment) (rsp : RunFunctionResponse) :
  decoded req dv observed desired xd →
  RunFunction req = (Some rsp, None) → rsp_Results rsp = [] →
  let name := xdeployment.Name xd in
  let port_set := is_Some (xdeployment.Port (xdeployment.Spec xd)) in
  let route_pre := route_precondition xd (Some dv) in
  (∀ k, is_Some (rsp_Desired rsp !! k) ↔
        is_Some (req_DesiredResources req !! k) ∨
        k = "xdeployment-deployment-" +:+ name ∨
        (k = "xdeployment-service-" +:+ name ∧ port_set) ∨
        (k = "xdeployment-httproute-" +:+ name ∧ route_pre)) ∧
  cond_Type <$> rsp_Conditions rsp =
    ["DeploymentReady"] ++ when port_set "ServiceReady"
                        ++ when route_pre "HttpRouteReady" ∧
  (xdeployment.Port (xdeployment.Spec xd) = None →
   cond_Type <$> rsp_Conditions rsp = ["DeploymentReady"] ∧
   (is_Some (rsp_Desired rsp !! ("xdeployment-service-" +:+ name)) ↔
    is_Some (req_DesiredResources req !! ("xdeployment-service-" +:+ name))) ∧
   (is_Some (rsp_Desired rsp !! ("xdeployment-httproute-" +:+ name)) ↔
    is_Some (req_DesiredResources req !! ("xdeployment-httproute-" +:+ name)))).
Proof.
  intros Hdec Hrun Hres name port_set route_pre.
  destruct (RunFunction_success_shape _ _ _ _ _ _ Hdec Hrun Hres)
    as (d & s & h & bD & bS & bH & Hcon & HbS & HbH & Hconds & Hin & Hout).
  fold name in HbS, HbH, Hconds, Hin, Hout.
  fold port_set in HbS, Hconds. fold route_pre in HbH, Hconds.
  rewrite bool_decide_eq_true in HbS, HbH.
  destruct Hdec as (_ & _ & Hdes & _).
  pose proof (GetDesiredComposedResources_keys _ _ Hdes) as Hkeys.
  assert (∀ k, is_Some (rsp_Desired rsp !! k) ↔
        is_Some (req_DesiredResources req !! k) ∨
        k = "xdeployment-deployment-" +:+ name ∨
        (k = "xdeployment-service-" +:+ name ∧ port_set) ∨
        (k = "xdeployment-httproute-" +:+ name ∧ route_pre)) as Hentries.
  { intros k. rewrite <- HbS, <- HbH, <- Hkeys.
    match type of Hin with
    | ∀ k dcd, ?b !! k = Some dcd → _ => set (built := b) in *
    end.
    assert (is_Some (built !! k) ↔
            is_Some (desired !! k) ∨ k = "xdeployment-deployment-" +:+ name ∨
            (k = "xdeployment-service-" +:+ name ∧ is_Some bS) ∨
            (k = "xdeployment-httproute-" +:+ name ∧ is_Some bH)) as Hbuilt.
    { unfold built. rewrite !put_is_Some. intuition eauto. }
    rewrite <- Hbuilt. destruct (built !! k) as [dcd|] eqn:E.
    - destruct (Hin _ _ E) as (body & _ & ->). split; eauto.
    - rewrite (Hout _ E), <- Hkeys. split; [|by intros [? ?]].
      intros Hreq. rewrite Hbuilt. by left. }
  assert (cond_Type <$> rsp_Conditions rsp =
    ["DeploymentReady"] ++ when port_set "ServiceReady"
                        ++ when route_pre "HttpRouteReady") as Htypes.
  { destruct (constructed_condition_types _ _ _ _ Hcon) as (HD & HS & HH).
    rewrite Hconds. unfold when.
    destruct (bool_decide port_set), (bool_decide route_pre); simpl;
      rewrite ?cond_Type_readiness, ?HD, ?HS, ?HH; done. }
  split; [done|]. split; [done|].
  intros Hport.
  assert (¬ port_set) as Hnp by (unfold port_set; rewrite Hport; by intros [? ?]).
  assert (¬ route_pre) as Hnr by (by intros [? _]).
  destruct (names_distinct name) as (Hds & Hdh & Hsh).
  split; [|split].
  - rewrite Htypes. unfold when.
    by rewrite !bool_decide_eq_false_2.
  - rewrite Hentries. intuition congruence.
  - rewrite Hentries. intuition congruence.
Qed.

(** ** Ready flags *)

(** C7. A built object is wrapped with its flag at [ReadyFalse]; a pass
    of the loop stores it with the flag at [ReadyTrue] exactly when the
    composer's [IsReady] holds; in the response of a successful run the
    entry of every kind that was built carries [ReadyTrue] exactly when
    that composer's [IsReady] holds; and [IsReady] is a function of the
    observed resource alone. *)
Theorem ready_flag_set_by_handler
    (req : RunFunctionRequest) (dv : defaults.XDeploymentDefaults)
    (observed : gmap string ObservedComposed)
    (desired : gmap string DesiredComposed)
    (xd : xdeployment.XDeployment)
    (d : Deployment) (s : Service) (h : HttpRoute)
    (rsp : RunFunctionResponse) :
  let name := xdeployment.Name xd in
  (∀ XR D (b : BaseComposer XR D) o w dr,
     (ComposeDesiredResourceFrom b o w).2 = inr (Some dr) →
     dc_Ready (dr_Resource dr) = ReadyFalse) ∧
  (∀ r rest m w dr,
     (ComposeDesiredResource r w).2 = inr (Some dr) →
     dc_Ready (dr_Resource dr) = ReadyFalse →
     ∃ w', compose_loop (r :: rest) m w =
           compose_loop rest
             (<[dr_Name dr :=
                  {| dc_Resource := dc_Resource (dr_Resource dr);
                     dc_Ready := ready_flag (IsReady r) |}]> m) w') ∧
  (decoded req dv observed desired xd →
   constructed (context_of dv observed xd) d s h →
   RunFunction req = (Some rsp, None) → rsp_Results rsp = [] →
   (∃ body, rsp_Desired rsp !! ("xdeployment-deployment-" +:+ name) =
      Some {| wire_Resource := body;
              wire_Ready := ready_flag (Deployment_IsReady d) |}) ∧
   (is_Some (xdeployment.Port (xdeployment.Spec xd)) →
    ∃ body, rsp_Desired rsp !! ("xdeployment-service-" +:+ name) =
      Some {| wire_Resource := body;
              wire_Ready := ready_flag (Service_IsReady s) |}) ∧
   (route_precondition xd (Some dv) →
    ∃ body, rsp_Desired rsp !! ("xdeployment-httproute-" +:+ name) =
      Some {| wire_Resource := body;
              wire_Ready := ready_flag (HttpRoute_IsReady h) |})) ∧
  ((∀ d', d_ObservedResource d' = d_ObservedResource d →
          Deployment_IsReady d' = Deployment_IsReady d) ∧
   (∀ s', s_ObservedResource s' = s_ObservedResource s →
          Service_IsReady s' = Service_IsReady s) ∧
   (∀ h', h_ObservedResource h' = h_ObservedResource h →
          HttpRoute_IsReady h' = HttpRoute_IsReady h)).
Proof.
  intros name. split; [|split; [|split]].
  - intros XR D b o w dr Hdr.
    pose proof (ComposeDesiredResourceFrom_outcome b o w) as H.
    rewrite Hdr in H. by destruct H as (_ & _ & u & _ & ->).
  - intros r rest m w dr Hdr Hready. eexists.
    rewrite compose_loop_cons, Hdr. f_equal. f_equal.
    unfold with_ready, ready_flag. rewrite Hready. by destruct (IsReady r).
  - intros Hdec (HD & HS & HH) Hrun Hres.
    destruct (RunFunction_success_shape _ _ _ _ _ _ Hdec Hrun Hres)
      as (d' & s' & h' & bD & bS & bH & (HD' & HS' & HH')
          & HbS & HbH & _ & Hin & _).
    assert (d' = d) as -> by congruence.
    assert (s' = s) as -> by congruence.
    assert (h' = h) as -> by congruence.
    fold name in Hin. rewrite bool_decide_eq_true in HbS, HbH.
    destruct (names_distinct name) as (Hds & Hdh & Hsh).
    split; [|split].
    + destruct (Hin ("xdeployment-deployment-" +:+ name)
        {| dc_Resource := bD; dc_Ready := ready_flag (Deployment_IsReady d) |})
        as (body & _ & Hbody); [|by eauto].
      rewrite !put_lookup_other by done. apply put_lookup_same.
    + intros [b ->]%HbS.
      destruct (Hin ("xdeployment-service-" +:+ name)
        {| dc_Resource := b; dc_Ready := ready_flag (Service_IsReady s) |})
        as (body & _ & Hbody); [|by eauto].
      rewrite put_lookup_other by done. apply put_lookup_same.
    + intros [b ->]%HbH.
      destruct (Hin ("xdeployment-httproute-" +:+ name)
        {| dc_Resource := b; dc_Ready := ready_flag (HttpRoute_IsReady h) |})
        as (body & _ & Hbody); [|by eauto].
      apply put_lookup_same.
  - unfold Deployment_IsReady, Service_IsReady, HttpRoute_IsReady.
    repeat split; by intros ? ->.
Qed.

End Properties.

(** * The properties on concrete invocations *)

Ltac run := vm_compute; reflexivity.

Ltac solve_decoded :=
  split; [run|]; split; [run|]; split; [run|]; eexists; split; run.

(** C4 on the map ZEBRA/ALPHA/BETA, iterated in that order. *)
Lemma convertEnvVars_sorted_witness :
  convertEnvVars ["ZEBRA"; "ALPHA"; "BETA"] Scenario.zebra_env =
    Some [ {| corev1.ev_Name := "ALPHA"; corev1.ev_Value := "a" |};
           {| corev1.ev_Name := "BETA"; corev1.ev_Value := "b" |};
           {| corev1.ev_Name := "ZEBRA"; corev1.ev_Value := "z" |} ].
Proof.
  assert (range_order Scenario.zebra_env ["ZEBRA"; "ALPHA"; "BETA"]) as Hr.
  { unfold range_order. apply (bool_decide_unpack _). by vm_compute. }
  destruct (@convertEnvVars_sorted_by_key (Scenario.sdk true)
              Scenario.zebra_env _ Hr)
    as (_ & _ & _ & Hzebra & _).
  exact (Hzebra eq_refl).
Defined.

(** C4, as stated, fails: for a nil map and for an empty one the function
    returns the nil slice, which is not an empty sequence, and the
    container of the Deployment built for a spec without env has its
    [Env] unset. *)
Lemma empty_env_is_the_nil_slice :
  let sdk := Scenario.sdk true in
  let d := Scenario.deployment sdk
             (Scenario.context sdk (Scenario.spec None "") None) None in
  convertEnvVars [] None = None ∧
  convertEnvVars [] (Some ∅) = None ∧
  convertEnvVars [] None ≠ Some [] ∧
  convertEnvVars [] (Some ∅) ≠ Some [] ∧
  (λ o, corev1.c_Env <$>
          corev1.pt_Containers (appsv1.ds_Template (appsv1.dep_Spec o)))
    <$> (Deployment_createResource d (Scenario.empty_world true)).2
  = Some [None].
Proof. intros sdk d. repeat split; try done; run. Qed.

(** C9 on four specs: replicas unset, 5, 0 and -3. *)
Example replicas_examples :
  let built replicas :=
    appsv1.ds_Replicas ∘ appsv1.dep_Spec <$>
      (Deployment_createResource
         (Scenario.deployment (Scenario.sdk true)
            (Scenario.context (Scenario.sdk true)
               {| xdeployment.Name := "test-app";
                  xdeployment.Spec :=
                    {| xdeployment.Image := "nginx:latest";
                       xdeployment.Replicas := replicas;
                       xdeployment.Port := None;
                       xdeployment.Hostname := "";
                       xdeployment.Env := None |} |} None) None)
         (Scenario.empty_world true)).2 in
  built None = Some (Some 2) ∧ built (Some 5) = Some (Some 5) ∧
  built (Some 0) = Some (Some 0) ∧ built (Some (-3)) = Some (Some (-3)).
Proof. repeat split; run. Qed.

(** C5 on two contexts whose composite is called test-app, with nothing
    observed. *)
Lemma resource_names_witness :
  let sdk := Scenario.sdk true in
  let f := Scenario.context sdk Scenario.full_spec (Some Scenario.my_gateway) in
  let f' := Scenario.context sdk (Scenario.spec None "") None in
  (name_of d_XComposer (NewDeployment f) = inr "xdeployment-deployment-test-app" ∧
   name_of s_XComposer (NewService f) = inr "xdeployment-service-test-app" ∧
   name_of h_XComposer (NewHttpRoute f) = inr "xdeployment-httproute-test-app") ∧
  (name_of d_XComposer (NewDeployment f') = name_of d_XComposer (NewDeployment f) ∧
   name_of s_XComposer (NewService f') = name_of s_XComposer (NewService f) ∧
   name_of h_XComposer (NewHttpRoute f') = name_of h_XComposer (NewHttpRoute f)).
Proof.
  intros sdk f f'.
  destruct (resource_names_exact f f') as (_ & (Hd & Hs & Hh) & _ & Hsame).
  destruct (resource_names_exact f' f) as (_ & (Hd' & Hs' & Hh') & _).
  destruct (Hsame eq_refl) as (Hdd & Hss & Hhh).
  split.
  - split; [exact (Hd eq_refl) | split; [exact (Hs eq_refl) | exact (Hh eq_refl)]].
  - split; [|split].
    + etrans; [exact (Hd' eq_refl)|]. etrans; [|symmetry; exact (Hd eq_refl)].
      apply f_equal. symmetry. exact (Hdd _ _ (Hd eq_refl) (Hd' eq_refl)).
    + etrans; [exact (Hs' eq_refl)|]. etrans; [|symmetry; exact (Hs eq_refl)].
      apply f_equal. symmetry. exact (Hss _ _ (Hs eq_refl) (Hs' eq_refl)).
    + etrans; [exact (Hh' eq_refl)|]. etrans; [|symmetry; exact (Hh eq_refl)].
      apply f_equal. symmetry. exact (Hhh _ _ (Hh eq_refl) (Hh' eq_refl)).
Defined.

(** C8 on a route accepted by its second parent, and on no route. *)
Lemma HttpRoute_IsReady_witness :
  let sdk := Scenario.sdk true in
  HttpRoute_IsReady
    (Scenario.route sdk
       (Scenario.context sdk Scenario.full_spec (Some Scenario.my_gateway))
       (Some Scenario.observed_route)) = true ∧
  HttpRoute_IsReady
    (Scenario.route sdk
       (Scenario.context sdk Scenario.full_spec (Some Scenario.my_gateway))
       None) = false.
Proof.
  intros sdk. split.
  - destruct (HttpRoute_IsReady_iff
                (Scenario.route sdk
                   (Scenario.context sdk Scenario.full_spec
                      (Some Scenario.my_gateway))
                   (Some Scenario.observed_route))) as (_ & _ & Hany).
    exact (Hany Scenario.observed_route [Scenario.parent "False"]
             (Scenario.parent "True") [] eq_refl eq_refl eq_refl).
  - destruct (HttpRoute_IsReady_iff
                (Scenario.route sdk
                   (Scenario.context sdk Scenario.full_spec
                      (Some Scenario.my_gateway))
                   None)) as (_ & Hnone & _).
    exact (Hnone eq_refl).
Defined.

(** C10 on a nil Service pointer and on the nil interface. *)
Lemma ComposeDesiredResourceFrom_absent_witness :
  let sdk := Scenario.sdk true in
  let b := s_XComposer
             (Scenario.service sdk
                (Scenario.context sdk (Scenario.spec None "") None) None) in
  ComposeDesiredResourceFrom b (ServiceObject None) (Scenario.empty_world true)
    = (Scenario.empty_world true, inr None) ∧
  ComposeDesiredResourceFrom b NilObject (Scenario.empty_world true)
    = (Scenario.empty_world true, inr None).
Proof.
  intros sdk b. split.
  - apply (ComposeDesiredResourceFrom_absent b (ServiceObject None)).
    right. right. left. reflexivity.
  - apply (ComposeDesiredResourceFrom_absent b NilObject).
    left. reflexivity.
Defined.

(** C3, as stated, fails: with port and hostname set and a gateway entry
    whose name and namespace are both empty, the route is built. *)
Lemma route_built_for_unnamed_gateway :
  let sdk := Scenario.sdk true in
  let dv := Some (Scenario.gateway "" "") in
  is_Some (HttpRoute_createResource
             (Scenario.route sdk (Scenario.context sdk Scenario.full_spec dv) None)
             (Scenario.empty_world true)).2 ∧
  ¬ route_precondition_spec Scenario.full_spec dv.
Proof.
  intros sdk dv. split.
  - vm_compute. eexists. reflexivity.
  - intros (_ & _ & gw & Hgw & Hname & _). vm_compute in Hgw.
    injection Hgw as <-. by apply Hname.
Qed.

(** C3 (amended) on a gateway entry without namespace, and on a
    configuration without gateway. *)
Lemma HttpRoute_createResource_witness :
  let sdk := Scenario.sdk true in
  is_Some (HttpRoute_createResource
             (Scenario.route sdk
                (Scenario.context sdk Scenario.full_spec
                   (Some (Scenario.gateway "my-gateway" "")))
                None)
             (Scenario.empty_world true)).2 ∧
  HttpRoute_ComposeDesiredResource
    (Scenario.route sdk
       (Scenario.context sdk Scenario.full_spec (Some Scenario.no_gateway)) None)
    (Scenario.empty_world true)
  = ((HttpRoute_createResource
        (Scenario.route sdk
           (Scenario.context sdk Scenario.full_spec (Some Scenario.no_gateway))
           None)
        (Scenario.empty_world true)).1, inr None).
Proof.
  intros sdk. split.
  - apply (HttpRoute_createResource_iff
             (Scenario.route sdk
                (Scenario.context sdk Scenario.full_spec
                   (Some (Scenario.gateway "my-gateway" "")))
                None)
             (Scenario.empty_world true)).
    split; [by eexists|]. split; [discriminate|by eexists].
  - apply (HttpRoute_createResource_iff
             (Scenario.route sdk
                (Scenario.context sdk Scenario.full_spec
                   (Some Scenario.no_gateway))
                None)
             (Scenario.empty_world true)).
    reflexivity.
Defined.

(** C6 on a request whose observed deployment does not decode. *)
Lemma corruption_is_fatal_witness :
  ∃ msg,
    RunFunction Scenario.corrupt_observed =
      (Some (halted Scenario.corrupt_observed [] msg), None).
Proof.
  destruct (@ConvertObserved_corruption_is_fatal (Scenario.sdk true)
              Scenario.corrupt_observed Scenario.my_gateway
              {[ "xdeployment-deployment-test-app" :=
                   @Build_ObservedComposed (Scenario.sdk true)
                     (Scenario.OOther "corrupt") ]}
              ∅ Scenario.full_spec) as (_ & _ & _ & Hfatal).
  apply Hfatal.
  - solve_decoded.
  - exists "cannot decode Deployment". left. run.
Defined.

(** C2 (amended) on an input that does not decode, and on a route that
    does not convert. *)
Lemma fatal_failures_witness :
  (∃ msg,
     RunFunction Scenario.bad_input =
       (Some (halted Scenario.bad_input [internal_error] msg), None)) ∧
  (let req := Scenario.everything false in
   rsp_Desired (w_rsp (RunFunction_world req)) = req_DesiredResources req ∧
   ∃ r : @ComposableResource (Scenario.sdk false),
     GetConditionType r ∈ ["DeploymentReady"; "ServiceReady"; "HttpRouteReady"] ∧
     last (rsp_Conditions (w_rsp (RunFunction_world req))) =
          Some {| cond_Type := GetConditionType r;
                  cond_Status := StatusConditionFalse;
                  cond_Reason := "CompositionError";
                  cond_Message := Some "cannot convert HTTPRoute to unstructured";
                  cond_Target := TargetComposite |}).
Proof.
  split.
  - apply (fatal_failures_halt Scenario.bad_input).
    left. exists "cannot unmarshal input". run.
  - intros req.
    pose (sdk := Scenario.sdk false).
    pose (f := @context_of sdk Scenario.my_gateway ∅ Scenario.full_spec).
    destruct (proj2 (fatal_failures_halt req)
                Scenario.my_gateway ∅ ∅ Scenario.full_spec
                (Scenario.deployment sdk f None)
                (Scenario.service sdk f None)
                (Scenario.route sdk f None)
                (RunFunction_world req)
                "cannot convert HTTPRoute to unstructured")
      as (_ & Hdes & _ & r & _ & _ & _ & Htype & Hlast).
    + solve_decoded.
    + split; [run|]. split; run.
    + run.
    + split; [exact Hdes|]. exists r. split; [exact Htype | exact Hlast].
Defined.

(** C2, as stated, fails: when the route composer's build fails, the
    function returns the error and no response, and the conditions it had
    recorded hold none of type FunctionSuccess (the last one, of type
    HttpRouteReady, carries the reason CompositionError). *)
Lemma no_FunctionSuccess_on_build_error :
  let req := Scenario.everything false in
  RunFunction req = (None, Some "cannot convert HTTPRoute to unstructured") ∧
  (λ c, (cond_Type c, cond_Reason c)) <$>
    rsp_Conditions (w_rsp (RunFunction_world req)) =
    [("DeploymentReady", "Unavailable"); ("ServiceReady", "Unavailable");
     ("HttpRouteReady", "CompositionError")].
Proof. split; run. Qed.

(** C1 (amended) on a request with port unset and nothing desired so far. *)
Lemma desired_entries_witness :
  let req := Scenario.only_deployment in
  let rsp := Scenario.response_of req in
  cond_Type <$> rsp_Conditions rsp = ["DeploymentReady"] ∧
  (is_Some (rsp_Desired rsp !! "xdeployment-service-test-app") ↔
   is_Some (req_DesiredResources req !! "xdeployment-service-test-app")) ∧
  (is_Some (rsp_Desired rsp !! "xdeployment-httproute-test-app") ↔
   is_Some (req_DesiredResources req !! "xdeployment-httproute-test-app")).
Proof.
  intros req rsp.
  destruct (@desired_entries_follow_preconditions (Scenario.sdk true)
              req Scenario.no_gateway ∅ ∅ (Scenario.spec None "") rsp)
    as (_ & _ & Hunset).
  - solve_decoded.
  - run.
  - run.
  - exact (Hunset eq_refl).
Defined.

(** C1, as stated, fails: with port unset, a request whose desired state
    already holds an entry under the service name gets a response whose
    desired set holds that entry. *)
Lemma caller_entry_under_service_name_survives :
  let req := Scenario.prior_service in
  let rsp := Scenario.response_of req in
  xdeployment.Port (xdeployment.Spec (Scenario.spec None "")) = None ∧
  RunFunction req = (Some rsp, None) ∧
  rsp_Results rsp = [] ∧
  cond_Type <$> rsp_Conditions rsp = ["DeploymentReady"] ∧
  is_Some (rsp_Desired rsp !! "xdeployment-deployment-test-app") ∧
  is_Some (rsp_Desired rsp !! "xdeployment-service-test-app").
Proof.
  repeat split; try run; vm_compute; eexists; reflexivity.
Qed.

(** C7 on a request whose deployment and route are observed ready and
    whose service is not yet observed. *)
Lemma ready_flag_witness :
  let rsp := Scenario.response_of Scenario.observed_ready in
  (∃ body, rsp_Desired rsp !! "xdeployment-deployment-test-app" =
      Some {| wire_Resource := body; wire_Ready := ReadyTrue |}) ∧
  (∃ body, rsp_Desired rsp !! "xdeployment-service-test-app" =
      Some {| wire_Resource := body; wire_Ready := ReadyFalse |}) ∧
  (∃ body, rsp_Desired rsp !! "xdeployment-httproute-test-app" =
      Some {| wire_Resource := body; wire_Ready := ReadyTrue |}).
Proof.
  intros rsp.
  pose (sdk := Scenario.sdk true).
  pose (observed :=
    (<[ "xdeployment-deployment-test-app" :=
          @Build_ObservedComposed sdk (Scenario.ODeployment Scenario.observed_deployment) ]>
       {[ "xdeployment-httproute-test-app" :=
            @Build_ObservedComposed sdk (Scenario.ORoute Scenario.observed_route) ]})
    : gmap string (@ObservedComposed sdk)).
  pose (f := @context_of sdk Scenario.my_gateway observed Scenario.full_spec).
  destruct (@ready_flag_set_by_handler sdk
              Scenario.observed_ready Scenario.my_gateway observed ∅
              Scenario.full_spec
              (Scenario.deployment sdk f (Some Scenario.observed_deployment))
              (Scenario.service sdk f None)
              (Scenario.route sdk f (Some Scenario.observed_route))
              rsp) as (_ & _ & Hrun & _).
  destruct Hrun as (HD & HS & HH).
  - solve_decoded.
  - split; [run|]. split; run.
  - run.
  - run.
  - split; [exact HD|]. split.
    + apply HS. by eexists.
    + apply HH. split; [by eexists|]. split; [discriminate|by eexists].
Defined.

(** ** The repository's own test cases, replayed on the embedding *)

(** [TestRunFunction]: the number of desired resources and the condition
    types of the three table entries. *)
Example TestRunFunction :
  let outcome (req : @RunFunctionRequest (Scenario.sdk true)) :=
    (size (rsp_Desired (Scenario.response_of req)),
     (λ c, (cond_Type c, cond_Status c, cond_Reason c)) <$>
       rsp_Conditions (Scenario.response_of req)) in
  outcome (Scenario.everything true) =
    (3%nat, [("DeploymentReady", StatusConditionFalse, "Unavailable");
             ("ServiceReady", StatusConditionFalse, "Unavailable");
             ("HttpRouteReady", StatusConditionFalse, "Unavailable")]) ∧
  outcome Scenario.only_deployment =
    (1%nat, [("DeploymentReady", StatusConditionFalse, "Unavailable")]) ∧
  outcome (Scenario.request true (Scenario.spec (Some 8080) "")
             Scenario.my_gateway ∅ ∅) =
    (2%nat, [("DeploymentReady", StatusConditionFalse, "Unavailable");
             ("ServiceReady", StatusConditionFalse, "Unavailable")]).
Proof. repeat split; run. Qed.

(** [TestInternalErrorResponse]: one condition, one fatal result. *)
Example TestInternalErrorResponse :
  w_rsp (InternalErrorResponse "assert.AnError" (Scenario.empty_world true)).1 =
    @Build_RunFunctionResponse (Scenario.sdk true) "test" ∅
      [internal_error]
      [{| res_Severity := SeverityFatal; res_Message := "assert.AnError" |}].
Proof. reflexivity. Qed.

(** [TestHttpRoute_createResource]: the route is absent without port,
    without hostname, without defaults and without gateway. *)
Example TestHttpRoute_createResource :
  let sdk := Scenario.sdk true in
  let built xd dv :=
    (HttpRoute_createResource
       (Scenario.route sdk (Scenario.context sdk xd dv) None)
       (Scenario.empty_world true)).2 in
  gwapiv1.rs_ParentRefs ∘ gwapiv1.rt_Spec <$>
    built Scenario.full_spec (Some Scenario.my_gateway) =
    Some [{| gwapiv1.pr_Name := "my-gateway";
             gwapiv1.pr_Namespace := Some "gateway-ns" |}] ∧
  built (Scenario.spec None "test.example.com") (Some Scenario.my_gateway) = None ∧
  built (Scenario.spec (Some 3000) "") (Some Scenario.my_gateway) = None ∧
  built Scenario.full_spec None = None ∧
  built Scenario.full_spec (Some Scenario.no_gateway) = None.
Proof. repeat split; run. Qed.

(** * Further properties of the composers and the handler *)

Section Further.
Context `{sdk : Sdk}.

(** ** Readiness of the Deployment *)

Lemma deployment_available_iff conditions :
  deployment_available conditions = true ↔
  ∃ condition, condition ∈ conditions ∧
    appsv1.dc_Type condition = "Available" ∧
    appsv1.dc_Status condition = "True".
Proof.
  induction conditions as [|c cs IH]; simpl.
  - split; [done|]. by intros (? & ?%elem_of_nil & _).
  - destruct (String.eqb (appsv1.dc_Type c) appsv1.DeploymentAvailable) eqn:Et;
    destruct (String.eqb (appsv1.dc_Status c) corev1.ConditionTrue) eqn:Es; simpl.
    1: { apply String.eqb_eq in Et, Es. split; [|done]. intros _.
         exists c. split; [left|done]. }
    all: rewrite IH; split;
      [ intros (x & Hx & Hc); exists x; split; [by right|done]
      | intros (x & Hx & Ht & Hs); apply elem_of_cons in Hx as [-> | Hx];
        [ apply String.eqb_neq in Et || apply String.eqb_neq in Es; done
        | by exists x ] ].
Qed.

(** X1. The Deployment composer is ready exactly when the observed
    Deployment holds, anywhere in its condition list, a condition of type
    Available with status True; it is not ready when nothing is observed. *)
Theorem Deployment_IsReady_iff (d : Deployment) :
  (Deployment_IsReady d = true ↔
   ∃ o condition,
     d_ObservedResource d = Some o ∧
     condition ∈ appsv1.dep_Conditions o ∧
     appsv1.dc_Type condition = "Available" ∧
     appsv1.dc_Status condition = "True") ∧
  (d_ObservedResource d = None → Deployment_IsReady d = false).
Proof.
  unfold Deployment_IsReady. split.
  - destruct (d_ObservedResource d) as [o|].
    + rewrite deployment_available_iff. split.
      * intros (c & ?). by exists o, c.
      * intros (o' & c & [= <-] & ?). by exists c.
    + split; [done|]. by intros (? & ? & ? & _).
  - by intros ->.
Qed.

(** ** A built object is not a ready one *)

(** X2. For each of the three kinds, a composer whose observed resource
    is the very object its [createResource] builds is not ready: the
    built bodies carry no status and no cluster address. *)
Theorem built_objects_are_not_ready
    (d d' : Deployment) (s s' : Service) (h h' : HttpRoute) (w : World) :
  (d_ObservedResource d' = (Deployment_createResource d w).2 →
   Deployment_IsReady d' = false) ∧
  (s_ObservedResource s' = (Service_createResource s w).2 →
   Service_IsReady s' = false) ∧
  (h_ObservedResource h' = (HttpRoute_createResource h w).2 →
   HttpRoute_IsReady h' = false).
Proof.
  split; [|split].
  - unfold Deployment_IsReady, Deployment_createResource. intros ->.
    by destruct (xdeployment.Replicas _).
  - unfold Service_IsReady, Service_createResource. intros ->.
    by destruct (xdeployment.Port _).
  - unfold HttpRoute_IsReady, HttpRoute_createResource. intros ->.
    destruct (_ ≫= defaults.Gateway); [|done].
    by destruct (_ || _).
Qed.

(** ** The three built objects fit together *)

Lemma int32_in_range (z : Z) : - 2 ^ 31 ≤ z < 2 ^ 31 → int32 z = z.
Proof. intros Hz. unfold int32. rewrite Z.mod_small; lia. Qed.

Lemma int32_bounds (z : Z) : - 2 ^ 31 ≤ int32 z < 2 ^ 31.
Proof.
  unfold int32.
  pose proof (Z.mod_pos_bound (z + 2 ^ 31) (2 ^ 32) ltac:(lia)). lia.
Qed.

(** X3. For one composite, the selector of the built Service, the
    selector of the built Deployment and the labels of the Deployment's
    pod template are the same single label, app.kubernetes.io/name set to
    the composite's name: the Service selects the Deployment's pods. *)
Theorem service_selects_deployment_pods
    (d : Deployment) (s : Service) (w w' : World)
    (od : appsv1.Deployment) (os : corev1.Service) :
  XR_ (bc_FunctionContext (s_XComposer s)) = XR_ (bc_FunctionContext (d_XComposer d)) →
  (Deployment_createResource d w).2 = Some od →
  (Service_createResource s w').2 = Some os →
  corev1.ss_Selector (corev1.svc_Spec os) =
    appsv1.ds_MatchLabels (appsv1.dep_Spec od) ∧
  appsv1.ds_MatchLabels (appsv1.dep_Spec od) =
    metav1.Labels (corev1.pt_ObjectMeta (appsv1.ds_Template (appsv1.dep_Spec od))) ∧
  corev1.ss_Selector (corev1.svc_Spec os) =
    {[ "app.kubernetes.io/name" :=
         xdeployment.Name (XR_ (bc_FunctionContext (d_XComposer d))) ]}.
Proof.
  unfold Deployment_createResource, Service_createResource. intros ->.
  destruct (xdeployment.Replicas _); destruct (xdeployment.Port _);
    simpl; intros [= <-] [= <-]; done.
Qed.

(** X4. For one composite with a port, the target port of the built
    Service is the container port of the built Deployment, both being the
    spec's port converted to 32 bits: the port itself when it fits, a
    value within the 32-bit range in any case.  The Service listens on
    8080.  Without a port the container exposes none. *)
Theorem service_targets_container_port
    (d : Deployment) (s : Service) (w w' : World) (od : appsv1.Deployment) :
  XR_ (bc_FunctionContext (s_XComposer s)) = XR_ (bc_FunctionContext (d_XComposer d)) →
  (Deployment_createResource d w).2 = Some od →
  let port := xdeployment.Port
                (xdeployment.Spec (XR_ (bc_FunctionContext (d_XComposer d)))) in
  let container_ports :=
    corev1.pt_Containers (appsv1.ds_Template (appsv1.dep_Spec od))
      ≫= corev1.c_Ports in
  (port = None → container_ports = [] ∧ (Service_createResource s w').2 = None) ∧
  (∀ p, port = Some p →
     ∃ os, (Service_createResource s w').2 = Some os ∧
       corev1.cp_ContainerPort <$> container_ports = [int32 p] ∧
       corev1.sp_TargetPort <$> corev1.ss_Ports (corev1.svc_Spec os) = [int32 p] ∧
       corev1.sp_Port <$> corev1.ss_Ports (corev1.svc_Spec os) = [8080] ∧
       - 2 ^ 31 ≤ int32 p < 2 ^ 31 ∧
       (- 2 ^ 31 ≤ p < 2 ^ 31 → int32 p = p)).
Proof.
  unfold Deployment_createResource, Service_createResource. intros ->.
  destruct (xdeployment.Replicas _); simpl; intros [= <-]; simpl; split.
  all: try (by intros ->).
  all: intros p ->; eexists; split; [done|]; simpl;
    repeat split; try done; try apply int32_bounds; apply int32_in_range.
Qed.

(** X5. For one composite, the built HTTPRoute has the configured gateway
    as its only parent, the spec's hostname as its only hostname, and one
    rule with one backend: the built Service, by its name and by the port
    it listens on. *)
Theorem route_backend_is_the_service
    (h : HttpRoute) (s : Service) (w w' : World)
    (route : gwapiv1.HTTPRoute) :
  XR_ (bc_FunctionContext (s_XComposer s)) = XR_ (bc_FunctionContext (h_XComposer h)) →
  (HttpRoute_createResource h w).2 = Some route →
  ∃ os gw,
    (Service_createResource s w').2 = Some os ∧
    Defaults (bc_FunctionContext (h_XComposer h)) ≫= defaults.Gateway = Some gw ∧
    gwapiv1.rs_ParentRefs (gwapiv1.rt_Spec route) =
      [{| gwapiv1.pr_Name := defaults.gw_Name gw;
          gwapiv1.pr_Namespace := Some (defaults.gw_Namespace gw) |}] ∧
    gwapiv1.rs_Hostnames (gwapiv1.rt_Spec route) =
      [xdeployment.Hostname
         (xdeployment.Spec (XR_ (bc_FunctionContext (h_XComposer h))))] ∧
    gwapiv1.rs_Rules (gwapiv1.rt_Spec route) ≫= gwapiv1.rr_BackendRefs =
      (λ p, {| gwapiv1.br_Name := metav1.Name (corev1.svc_ObjectMeta os);
               gwapiv1.br_Port := Some (corev1.sp_Port p) |})
        <$> corev1.ss_Ports (corev1.svc_Spec os).
Proof.
  unfold HttpRoute_createResource, Service_createResource. intros ->.
  destruct (_ ≫= defaults.Gateway) as [gw|]; [|done].
  destruct (xdeployment.Port _) as [port|]; [|done]. simpl.
  destruct (String.eqb _ ""); [done|]. simpl. intros [= <-].
  eexists _, gw. by repeat split.
Qed.

(** ** The Deployment is never absent *)

(** X6. Composing the Deployment never yields absence, whatever the spec
    holds (an empty image included): it either fails with the error of
    the conversion, or yields a resource under the composer's name whose
    body is the conversion of a Deployment named after the composite with
    one container, named after the composite and running the spec's
    image. *)
Theorem Deployment_is_never_absent (d : Deployment) (w : World) :
  let xd := XR_ (bc_FunctionContext (d_XComposer d)) in
  ∃ o,
    (Deployment_createResource d w).2 = Some o ∧
    metav1.Name (appsv1.dep_ObjectMeta o) = xdeployment.Name xd ∧
    (λ c, (corev1.c_Name c, corev1.c_Image c)) <$>
      corev1.pt_Containers (appsv1.ds_Template (appsv1.dep_Spec o)) =
      [(xdeployment.Name xd, xdeployment.Image (xdeployment.Spec xd))] ∧
    match (Deployment_ComposeDesiredResource d w).2 with
    | inl err => composed_From (DeploymentObject (Some o)) = inl err
    | inr None => False
    | inr (Some dr) =>
        dr_Name dr = ResourceName (d_XComposer d) ∧
        composed_From (DeploymentObject (Some o)) = inr (dc_Resource (dr_Resource dr))
    end.
Proof.
  intros xd.
  destruct (Deployment_createResource d w) as [w1 o] eqn:E.
  assert (is_Some o) as [od ->].
  { pose proof (Deployment_createResource_spec d w) as [_ H]. by rewrite E in H. }
  exists od. split; [done|].
  assert (metav1.Name (appsv1.dep_ObjectMeta od) = xdeployment.Name xd ∧
          (λ c, (corev1.c_Name c, corev1.c_Image c)) <$>
            corev1.pt_Containers (appsv1.ds_Template (appsv1.dep_Spec od)) =
            [(xdeployment.Name xd, xdeployment.Image (xdeployment.Spec xd))])
    as [Hname Hcont].
  { revert E. unfold Deployment_createResource. fold xd.
    destruct (xdeployment.Replicas _); simpl; by intros [= <- <-]. }
  split; [done|]. split; [done|].
  unfold Deployment_ComposeDesiredResource, mbind, M_bind. rewrite E. simpl.
  pose proof (ComposeDesiredResourceFrom_outcome (d_XComposer d)
                (DeploymentObject (Some od)) w1) as H.
  destruct ((ComposeDesiredResourceFrom _ _ _).2) as [err|[dr|]].
  - by destruct H as (_ & ? & _).
  - by destruct H as (_ & _ & u & ? & ->).
  - by destruct H as (? & _).
Qed.

(** ** The loop, for any list of composers *)

Lemma prefix_snoc {A} (l1 l2 : list A) (x : A) :
  l1 `prefix_of` l2 → l1 `prefix_of` l2 ++ [x].
Proof. intros [k ->]. exists (k ++ [x]). by rewrite app_assoc. Qed.

(** X7. Whatever composers the loop is given (as long as each touches
    the response only to record a failure), it never changes the desired
    resources or the tag of the response and never drops a condition
    recorded before, adding at most one per composer.  When it succeeds
    it records no result, keeps every entry of the desired map it started
    from and adds no more entries than it adds conditions; when it fails
    it records exactly one fatal result. *)
Theorem compose_loop_frame
    (rs : list ComposableResource) (desired : gmap string DesiredComposed)
    (w w' : World) (out : Err + gmap string DesiredComposed) :
  Forall quiet rs →
  compose_loop rs desired w = (w', out) →
  rsp_Desired (w_rsp w') = rsp_Desired (w_rsp w) ∧
  rsp_Tag (w_rsp w') = rsp_Tag (w_rsp w) ∧
  rsp_Conditions (w_rsp w) `prefix_of` rsp_Conditions (w_rsp w') ∧
  (length (rsp_Conditions (w_rsp w')) ≤
     length (rsp_Conditions (w_rsp w)) + length rs)%nat ∧
  match out with
  | inr desired' =>
      rsp_Results (w_rsp w') = rsp_Results (w_rsp w) ∧
      (∀ k, is_Some (desired !! k) → is_Some (desired' !! k)) ∧
      (size desired' ≤ size desired +
         (length (rsp_Conditions (w_rsp w')) - length (rsp_Conditions (w_rsp w))))%nat
  | inl err =>
      ∃ msg, rsp_Results (w_rsp w') =
               rsp_Results (w_rsp w) ++
                 [{| res_Severity := SeverityFatal; res_Message := msg |}]
  end.
Proof.
  intros Hq. revert desired w.
  induction Hq as [|r rs (name & pre & Hb) Hq IH]; intros desired w.
  { simpl. intros [= <- <-]. repeat split; try done; simpl; lia. }
  rewrite compose_loop_cons. specialize (Hb w).
  destruct ((ComposeDesiredResource r w).2) as [e|[dr|]] eqn:E.
  - intros [= <- <-]. destruct Hb as [msg Hw]. simpl. rewrite Hw. simpl.
    split; [done|]. split; [done|]. split; [by apply prefix_snoc|].
    split; [rewrite length_app; simpl; lia|]. by exists msg.
  - destruct Hb as (_ & Hw & _). intros Hloop.
    destruct (IH _ _ Hloop) as (Hd & Ht & Hp & Hlen & Hout).
    simpl in Hd, Ht, Hp, Hlen, Hout. rewrite Hw in Hd, Ht, Hp, Hlen, Hout.
    rewrite length_app in Hlen. simpl in Hlen.
    assert (rsp_Conditions (w_rsp w) `prefix_of` rsp_Conditions (w_rsp w')) as Hp'.
    { etrans; [|exact Hp]. by apply prefix_app_r. }
    split; [done|]. split; [done|]. split; [done|].
    split; [simpl; lia|].
    destruct out as [err|desired']; [done|].
    destruct Hout as (Hr & Hkeys & Hsize). rewrite length_app in Hsize.
    simpl in Hsize. split; [done|]. split.
    + intros k Hk. apply Hkeys. rewrite lookup_insert_is_Some.
      destruct (decide (dr_Name dr = k)); eauto.
    + pose proof (prefix_length _ _ Hp) as Hpl. rewrite length_app in Hpl.
      simpl in Hpl.
      assert (size (<[dr_Name dr := with_ready (dr_Resource dr)
                (if IsReady r then ReadyTrue else dc_Ready (dr_Resource dr))]>
                desired) ≤ S (size desired))%nat as Hins.
      { destruct (desired !! dr_Name dr) eqn:El.
        - rewrite map_size_insert_Some by eauto. lia.
        - by rewrite map_size_insert_None. }
      lia.
  - destruct Hb as (_ & Hw). intros Hloop.
    destruct (IH _ _ Hloop) as (Hd & Ht & Hp & Hlen & Hout).
    rewrite Hw in Hd, Ht, Hp, Hlen, Hout.
    split; [done|]. split; [done|]. split; [done|].
    split; [simpl; lia|].
    by destruct out as [err|desired'].
Qed.

(** ** Environment variables: one entry per key *)

(** X8. [convertEnvVars] returns as many entries as the map has keys, and
    no two entries carry the same name, whatever the order in which the
    map is iterated. *)
Theorem convertEnvVars_one_entry_per_key (envMap : GoMap) (iter : list string) :
  range_order envMap iter →
  length (slice_elems (convertEnvVars iter envMap)) = go_len envMap ∧
  NoDup (corev1.ev_Name <$> slice_elems (convertEnvVars iter envMap)).
Proof.
  intros Hr. rewrite (convertEnvVars_eq _ _ Hr). split.
  - rewrite length_fmap. unfold sort_Strings.
    rewrite merge_sort_Permutation, Hr, length_fmap.
    apply length_map_to_list.
  - rewrite env_entry_names. unfold sort_Strings.
    rewrite merge_sort_Permutation, Hr. apply NoDup_fst_map_to_list.
Qed.

(** ** Each composer reads the observed entry under its own name *)

(** X9. Adding or replacing an observed entry under a name changes what
    a constructor finds only if the name is that constructor's own
    resource name; under its own name the constructor finds the decoded
    entry, or fails with the decoder's error.  As the three names differ,
    an entry concerns at most one composer. *)
Theorem composers_read_their_own_entry
    (dv : defaults.XDeploymentDefaults) (xd : xdeployment.XDeployment)
    (observed : gmap string ObservedComposed) (k : string) (v : ObservedComposed) :
  let name := xdeployment.Name xd in
  let f := context_of dv observed xd in
  let f' := context_of dv (<[k := v]> observed) xd in
  (if decide (k = "xdeployment-deployment-" +:+ name)
   then sum_map id d_ObservedResource (NewDeployment f') =
        sum_map id Some (Deployment_FromUnstructured (oc_Resource v))
   else sum_map id d_ObservedResource (NewDeployment f') =
        sum_map id d_ObservedResource (NewDeployment f)) ∧
  (if decide (k = "xdeployment-service-" +:+ name)
   then sum_map id s_ObservedResource (NewService f') =
        sum_map id Some (Service_FromUnstructured (oc_Resource v))
   else sum_map id s_ObservedResource (NewService f') =
        sum_map id s_ObservedResource (NewService f)) ∧
  (if decide (k = "xdeployment-httproute-" +:+ name)
   then sum_map id h_ObservedResource (NewHttpRoute f') =
        sum_map id Some (HTTPRoute_FromUnstructured (oc_Resource v))
   else sum_map id h_ObservedResource (NewHttpRoute f') =
        sum_map id h_ObservedResource (NewHttpRoute f)) ∧
  (k ≠ "xdeployment-deployment-" +:+ name ∨ k ≠ "xdeployment-service-" +:+ name) ∧
  (k ≠ "xdeployment-deployment-" +:+ name ∨ k ≠ "xdeployment-httproute-" +:+ name) ∧
  (k ≠ "xdeployment-service-" +:+ name ∨ k ≠ "xdeployment-httproute-" +:+ name).
Proof.
  intros name f f'.
  destruct (names_distinct name) as (Hds & Hdh & Hsh).
  unfold NewDeployment, NewService, NewHttpRoute, ConvertObserved. simpl.
  fold name. unfold fromUnstructured, Deployment_decodable, Service_decodable,
    HTTPRoute_decodable.
  split; [|split; [|split; [|split; [|split]]]].
  - case_decide as Hk.
    + rewrite Hk, lookup_insert_eq. by destruct (Deployment_FromUnstructured _).
    + rewrite lookup_insert_ne by done. destruct (observed !! _); [|done].
      by destruct (Deployment_FromUnstructured _).
  - case_decide as Hk.
    + rewrite Hk, lookup_insert_eq. by destruct (Service_FromUnstructured _).
    + rewrite lookup_insert_ne by done. destruct (observed !! _); [|done].
      by destruct (Service_FromUnstructured _).
  - case_decide as Hk.
    + rewrite Hk, lookup_insert_eq. by destruct (HTTPRoute_FromUnstructured _).
    + rewrite lookup_insert_ne by done. destruct (observed !! _); [|done].
      by destruct (HTTPRoute_FromUnstructured _).
  - destruct (decide (k = "xdeployment-deployment-" +:+ name)) as [-> | ?]; eauto.
  - destruct (decide (k = "xdeployment-deployment-" +:+ name)) as [-> | ?]; eauto.
  - destruct (decide (k = "xdeployment-service-" +:+ name)) as [-> | ?]; eauto.
Qed.

(** ** Which constructor failed *)

(** X10. When a constructor fails, the fatal result of the response names
    the first kind that failed, in the order deployment, service,
    httpRoute, followed by the constructor's error; the response holds the
    request's desired state and no condition. *)
Theorem constructor_failure_names_the_kind
    (req : RunFunctionRequest) (dv : defaults.XDeploymentDefaults)
    (observed : gmap string ObservedComposed)
    (desired : gmap string DesiredComposed) (xd : xdeployment.XDeployment) :
  decoded req dv observed desired xd →
  let f := context_of dv observed xd in
  (∀ err, NewDeployment f = inl err →
     RunFunction req =
       (Some (halted req [] ("cannot create deployment: " +:+ err)), None)) ∧
  (∀ d err, NewDeployment f = inr d → NewService f = inl err →
     RunFunction req =
       (Some (halted req [] ("cannot create service: " +:+ err)), None)) ∧
  (∀ d s err, NewDeployment f = inr d → NewService f = inr s →
     NewHttpRoute f = inl err →
     RunFunction req =
       (Some (halted req [] ("cannot create httpRoute: " +:+ err)), None)).
Proof.
  intros (Hi & Ho & Hd & xr & Hxr & Hxd) f.
  unfold RunFunction, RunFunction_world, RunFunction_body.
  unfold mbind at 1 3 5 7 9 11, M_bind at 1 3 5 7 9 11.
  rewrite Hi, Ho, Hd, Hxr, Hxd. fold (context_of dv observed xd). fold f.
  cbv zeta. split; [|split].
  - by intros err ->.
  - by intros d err -> ->.
  - by intros d s err -> -> ->.
Qed.

(** ** Conditions and flags in the response *)

Lemma readiness_condition_for r :
  readiness_condition r = condition_for (GetConditionType r) (ready_flag (IsReady r)).
Proof. unfold readiness_condition. by destruct (IsReady r). Qed.

(** The entries a successful run stores for the kinds it built, and the
    conditions it emits, side by side. *)
Lemma RunFunction_success_kinds req dv observed desired xd rsp :
  decoded req dv observed desired xd →
  RunFunction req = (Some rsp, None) → rsp_Results rsp = [] →
  ∃ d s h,
    let name := xdeployment.Name xd in
    let pS := bool_decide (is_Some (xdeployment.Port (xdeployment.Spec xd))) in
    let pH := bool_decide (route_precondition xd (Some dv)) in
    constructed (context_of dv observed xd) d s h ∧
    rsp_Conditions rsp =
      [condition_for "DeploymentReady" (ready_flag (Deployment_IsReady d))] ++
      (if pS then [condition_for "ServiceReady" (ready_flag (Service_IsReady s))]
       else []) ++
      (if pH then [condition_for "HttpRouteReady" (ready_flag (HttpRoute_IsReady h))]
       else []) ∧
    (∃ body, rsp_Desired rsp !! ("xdeployment-deployment-" +:+ name) =
       Some {| wire_Resource := body;
               wire_Ready := ready_flag (Deployment_IsReady d) |}) ∧
    (pS = true →
     ∃ body, rsp_Desired rsp !! ("xdeployment-service-" +:+ name) =
       Some {| wire_Resource := body;
               wire_Ready := ready_flag (Service_IsReady s) |}) ∧
    (pH = true →
     ∃ body, rsp_Desired rsp !! ("xdeployment-httproute-" +:+ name) =
       Some {| wire_Resource := body;
               wire_Ready := ready_flag (HttpRoute_IsReady h) |}).
Proof.
  intros Hdec Hrun Hres.
  destruct (RunFunction_success_shape _ _ _ _ _ _ Hdec Hrun Hres)
    as (d & s & h & bD & bS & bH & Hcon & HbS & HbH & Hconds & Hin & _).
  exists d, s, h. simpl.
  destruct (constructed_condition_types _ _ _ _ Hcon) as (HD & HS & HH).
  destruct (names_distinct (xdeployment.Name xd)) as (Hds & Hdh & Hsh).
  split; [done|]. split; [|split; [|split]].
  - rewrite Hconds, !readiness_condition_for, HD, HS, HH. done.
  - destruct (Hin ("xdeployment-deployment-" +:+ xdeployment.Name xd)
        {| dc_Resource := bD; dc_Ready := ready_flag (Deployment_IsReady d) |})
        as (body & _ & Hbody); [|by eauto].
    rewrite !put_lookup_other by done. apply put_lookup_same.
  - intros [b ->]%HbS.
    destruct (Hin ("xdeployment-service-" +:+ xdeployment.Name xd)
        {| dc_Resource := b; dc_Ready := ready_flag (Service_IsReady s) |})
        as (body & _ & Hbody); [|by eauto].
    rewrite put_lookup_other by done. apply put_lookup_same.
  - intros [b ->]%HbH.
    destruct (Hin ("xdeployment-httproute-" +:+ xdeployment.Name xd)
        {| dc_Resource := b; dc_Ready := ready_flag (HttpRoute_IsReady h) |})
        as (body & _ & Hbody); [|by eauto].
    apply put_lookup_same.
Qed.

(** X11. In the response of a successful run every condition belongs to
    one of the three kinds, and agrees with the ready flag of that kind's
    entry in the desired set: True with reason Available when the flag is
    [ReadyTrue], otherwise False with reason Unavailable and the message
    that the type is not yet available; it always targets the composite
    only. *)
Theorem conditions_agree_with_flags
    (req : RunFunctionRequest) (dv : defaults.XDeploymentDefaults)
    (observed : gmap string ObservedComposed)
    (desired : gmap string DesiredComposed)
    (xd : xdeployment.XDeployment) (rsp : RunFunctionResponse) :
  decoded req dv observed desired xd →
  RunFunction req = (Some rsp, None) → rsp_Results rsp = [] →
  ∀ c, c ∈ rsp_Conditions rsp →
    ∃ k entry,
      (cond_Type c, k) ∈
        [("DeploymentReady", "xdeployment-deployment-" +:+ xdeployment.Name xd);
         ("ServiceReady", "xdeployment-service-" +:+ xdeployment.Name xd);
         ("HttpRouteReady", "xdeployment-httproute-" +:+ xdeployment.Name xd)] ∧
      rsp_Desired rsp !! k = Some entry ∧
      c = condition_for (cond_Type c) (wire_Ready entry) ∧
      cond_Target c = TargetComposite.
Proof.
  intros Hdec Hrun Hres c Hc.
  destruct (RunFunction_success_kinds _ _ _ _ _ _ Hdec Hrun Hres)
    as (d & s & h & _ & Hconds & [bD HD] & HS & HH).
  rewrite Hconds in Hc.
  apply elem_of_app in Hc as [Hc | Hc]; [|apply elem_of_app in Hc as [Hc | Hc]].
  - apply list_elem_of_singleton in Hc as ->.
    exists ("xdeployment-deployment-" +:+ xdeployment.Name xd). eexists.
    split; [|split; [exact HD|]].
    + destruct (Deployment_IsReady d); simpl; by left.
    + by destruct (Deployment_IsReady d).
  - destruct (bool_decide (is_Some _)); [|by apply elem_of_nil in Hc].
    apply list_elem_of_singleton in Hc as ->. destruct (HS eq_refl) as [bS HbS].
    exists ("xdeployment-service-" +:+ xdeployment.Name xd). eexists.
    split; [|split; [exact HbS|]].
    + destruct (Service_IsReady s); simpl; by (right; left).
    + by destruct (Service_IsReady s).
  - destruct (bool_decide (route_precondition _ _)); [|by apply elem_of_nil in Hc].
    apply list_elem_of_singleton in Hc as ->. destruct (HH eq_refl) as [bH HbH].
    exists ("xdeployment-httproute-" +:+ xdeployment.Name xd). eexists.
    split; [|split; [exact HbH|]].
    + destruct (HttpRoute_IsReady h); simpl; by (right; right; left).
    + by destruct (HttpRoute_IsReady h).
Qed.

(** X12. A kind under whose name nothing is observed is reported not
    ready by a successful run: its condition, when there is one, is the
    one that goes with [ReadyFalse] (status False, reason Unavailable).
    In particular, with nothing observed at all every condition of the
    response is False. *)
Theorem unobserved_kinds_are_not_ready
    (req : RunFunctionRequest) (dv : defaults.XDeploymentDefaults)
    (observed : gmap string ObservedComposed)
    (desired : gmap string DesiredComposed)
    (xd : xdeployment.XDeployment) (rsp : RunFunctionResponse) :
  decoded req dv observed desired xd →
  RunFunction req = (Some rsp, None) → rsp_Results rsp = [] →
  let name := xdeployment.Name xd in
  (observed !! ("xdeployment-deployment-" +:+ name) = None →
   ∀ c, c ∈ rsp_Conditions rsp → cond_Type c = "DeploymentReady" →
     c = condition_for "DeploymentReady" ReadyFalse) ∧
  (observed !! ("xdeployment-service-" +:+ name) = None →
   ∀ c, c ∈ rsp_Conditions rsp → cond_Type c = "ServiceReady" →
     c = condition_for "ServiceReady" ReadyFalse) ∧
  (observed !! ("xdeployment-httproute-" +:+ name) = None →
   ∀ c, c ∈ rsp_Conditions rsp → cond_Type c = "HttpRouteReady" →
     c = condition_for "HttpRouteReady" ReadyFalse) ∧
  (observed = ∅ →
   ∀ c, c ∈ rsp_Conditions rsp → cond_Status c = StatusConditionFalse).
Proof.
  intros Hdec Hrun Hres name.
  destruct (RunFunction_success_kinds _ _ _ _ _ _ Hdec Hrun Hres)
    as (d & s & h & Hcon & Hconds & _).
  destruct Hcon as ([_ HD]%NewDeployment_inv & [_ HS]%NewService_inv
                    & [_ HH]%NewHttpRoute_inv).
  simpl in HD, HS, HH. fold name in HD, HS, HH.
  assert (∀ c, c ∈ rsp_Conditions rsp →
    (cond_Type c = "DeploymentReady" ∧
     c = condition_for "DeploymentReady" (ready_flag (Deployment_IsReady d))) ∨
    (cond_Type c = "ServiceReady" ∧
     c = condition_for "ServiceReady" (ready_flag (Service_IsReady s))) ∨
    (cond_Type c = "HttpRouteReady" ∧
     c = condition_for "HttpRouteReady" (ready_flag (HttpRoute_IsReady h))))
    as Hcases.
  { intros c Hc. rewrite Hconds in Hc.
    apply elem_of_app in Hc as [Hc | Hc]; [|apply elem_of_app in Hc as [Hc | Hc]].
    - apply list_elem_of_singleton in Hc as ->. left.
      by destruct (Deployment_IsReady d).
    - destruct (bool_decide (is_Some _)); [|by apply elem_of_nil in Hc].
      apply list_elem_of_singleton in Hc as ->. right. left.
      by destruct (Service_IsReady s).
    - destruct (bool_decide (route_precondition _ _)); [|by apply elem_of_nil in Hc].
      apply list_elem_of_singleton in Hc as ->. right. right.
      by destruct (HttpRoute_IsReady h). }
  assert (observed !! ("xdeployment-deployment-" +:+ name) = None →
          Deployment_IsReady d = false) as HnD.
  { intros Hn. rewrite (ConvertObserved_missing _ _ _ Hn) in HD.
    injection HD as HD. unfold Deployment_IsReady. by rewrite <- HD. }
  assert (observed !! ("xdeployment-service-" +:+ name) = None →
          Service_IsReady s = false) as HnS.
  { intros Hn. rewrite (ConvertObserved_missing _ _ _ Hn) in HS.
    injection HS as HS. unfold Service_IsReady. by rewrite <- HS. }
  assert (observed !! ("xdeployment-httproute-" +:+ name) = None →
          HttpRoute_IsReady h = false) as HnH.
  { intros Hn. rewrite (ConvertObserved_missing _ _ _ Hn) in HH.
    injection HH as HH. unfold HttpRoute_IsReady. by rewrite <- HH. }
  split; [|split; [|split]].
  - intros Hn c Hc Ht.
    destruct (Hcases c Hc) as [[_ Hc'] | [[Ht' _] | [Ht' _]]];
      [|by rewrite Ht' in Ht..]. by rewrite Hc', (HnD Hn).
  - intros Hn c Hc Ht.
    destruct (Hcases c Hc) as [[Ht' _] | [[_ Hc'] | [Ht' _]]];
      [by rewrite Ht' in Ht| |by rewrite Ht' in Ht]. by rewrite Hc', (HnS Hn).
  - intros Hn c Hc Ht.
    destruct (Hcases c Hc) as [[Ht' _] | [[Ht' _] | [_ Hc']]];
      [by rewrite Ht' in Ht..|]. by rewrite Hc', (HnH Hn).
  - intros -> c Hc.
    destruct (Hcases c Hc) as [[_ ->] | [[_ ->] | [_ ->]]].
    + by rewrite (HnD (lookup_empty _)).
    + by rewrite (HnS (lookup_empty _)).
    + by rewrite (HnH (lookup_empty _)).
Qed.

(** ** What the caller had desired *)

Lemma desired_loop_lookup items dcds m :
  NoDup items.*1 →
  desired_loop items dcds = inr m →
  (∀ k p, (k, p) ∈ items →
     ∃ u, AsObject (wire_Resource p) = inr u ∧
          m !! k = Some {| dc_Resource := u; dc_Ready := wire_Ready p |}) ∧
  (∀ k, k ∉ items.*1 → m !! k = dcds !! k).
Proof.
  revert dcds. induction items as [|[name r] items IH]; intros dcds Hnd; simpl.
  - intros [= <-]. split; [|done]. by intros k p ?%elem_of_nil.
  - apply NoDup_cons in Hnd as [Hname Hnd]. simpl in Hname.
    destruct (AsObject (wire_Resource r)) as [err|u] eqn:Eu; [done|].
    intros Hm. destruct (IH _ Hnd Hm) as [Hin Hout]. split.
    + intros k p [[= -> ->] | Hk]%elem_of_cons; [|by apply Hin].
      exists u. split; [done|]. rewrite (Hout _ Hname). apply lookup_insert_eq.
    + intros k [Hne Hk]%not_elem_of_cons.
      rewrite (Hout _ Hk). by apply lookup_insert_ne.
Qed.

Lemma GetDesiredComposedResources_lookup req desired :
  GetDesiredComposedResources req = inr desired →
  (∀ k p, req_DesiredResources req !! k = Some p →
     ∃ u, AsObject (wire_Resource p) = inr u ∧
          desired !! k = Some {| dc_Resource := u; dc_Ready := wire_Ready p |}) ∧
  (∀ k, req_DesiredResources req !! k = None → desired !! k = None).
Proof.
  intros H.
  destruct (desired_loop_lookup _ _ _ (NoDup_fst_map_to_list _) H) as [Hin Hout].
  split.
  - intros k p Hk. by apply Hin, elem_of_map_to_list.
  - intros k Hk. rewrite Hout; [done|].
    intros ([k' v] & -> & Hin')%list_elem_of_fmap.
    apply elem_of_map_to_list in Hin'. simpl in Hk. congruence.
Qed.

Lemma put_lookup_skip n built ready (m : gmap string DesiredComposed) k :
  (k = n → built = None) → put n built ready m !! k = m !! k.
Proof.
  intros Hk. destruct built as [body|]; [|done].
  apply lookup_insert_ne. intros <-. by specialize (Hk eq_refl).
Qed.

(** X13. A successful run hands the caller's desired entries on: an entry
    under a name the function does not compose on this run comes back
    with the ready flag it came with, its body taken through the two
    conversions (wire to object, object to wire). *)
Theorem caller_entries_pass_through
    (req : RunFunctionRequest) (dv : defaults.XDeploymentDefaults)
    (observed : gmap string ObservedComposed)
    (desired : gmap string DesiredComposed)
    (xd : xdeployment.XDeployment) (rsp : RunFunctionResponse)
    (k : string) (p : ProtoResource) :
  decoded req dv observed desired xd →
  RunFunction req = (Some rsp, None) → rsp_Results rsp = [] →
  req_DesiredResources req !! k = Some p →
  k ≠ "xdeployment-deployment-" +:+ xdeployment.Name xd →
  (k = "xdeployment-service-" +:+ xdeployment.Name xd →
   xdeployment.Port (xdeployment.Spec xd) = None) →
  (k = "xdeployment-httproute-" +:+ xdeployment.Name xd →
   ¬ route_precondition xd (Some dv)) →
  ∃ u body,
    AsObject (wire_Resource p) = inr u ∧ AsStruct u = inr body ∧
    rsp_Desired rsp !! k =
      Some {| wire_Resource := body; wire_Ready := wire_Ready p |}.
Proof.
  intros Hdec Hrun Hres Hk HnD HnS HnH.
  destruct (RunFunction_success_shape _ _ _ _ _ _ Hdec Hrun Hres)
    as (d & s & h & bD & bS & bH & _ & HbS & HbH & _ & Hin & _).
  rewrite bool_decide_eq_true in HbS, HbH.
  destruct Hdec as (_ & _ & Hdes & _).
  destruct (GetDesiredComposedResources_lookup _ _ Hdes) as [Hreq _].
  destruct (Hreq _ _ Hk) as (u & Hu & Hdk).
  destruct (Hin k {| dc_Resource := u; dc_Ready := wire_Ready p |})
    as (body & Hbody & Hrsp).
  - rewrite !put_lookup_skip; [done|done|..].
    + intros Heq. destruct bS as [b|]; [|done].
      assert (is_Some (Some b)) as Hs%HbS by eauto.
      rewrite (HnS Heq) in Hs. by destruct Hs.
    + intros Heq. destruct bH as [b|]; [|done].
      assert (is_Some (Some b)) as Hs%HbH by eauto.
      by destruct (HnH Heq).
  - by exists u, body.
Qed.

(** ** Storing the desired set *)

Lemma set_desired_loop_failure items w w' err :
  set_desired_loop items w = (w', Some err) →
  rsp_Tag (w_rsp w') = rsp_Tag (w_rsp w) ∧
  rsp_Conditions (w_rsp w') = rsp_Conditions (w_rsp w) ∧
  rsp_Results (w_rsp w') = rsp_Results (w_rsp w) ∧
  ∃ k dcd, (k, dcd) ∈ items ∧ AsStruct (dc_Resource dcd) = inl err.
Proof.
  revert w. induction items as [|[name dcd] items IH]; intros w; simpl; [done|].
  destruct (AsStruct (dc_Resource dcd)) as [e|s] eqn:Es.
  - intros [= <- <-]. repeat split; try done. exists name, dcd. split; [left|done].
  - unfold mbind at 1, M_bind at 1. simpl. intros Hloop.
    destruct (IH _ Hloop) as (Ht & Hc & Hr & k & d' & Hin & Herr).
    simpl in *. repeat split; try done. exists k, d'. split; [by right|done].
Qed.

Lemma set_desired_loop_succeeds items w :
  (∀ k dcd, (k, dcd) ∈ items → ∃ s, AsStruct (dc_Resource dcd) = inr s) →
  ∃ w', set_desired_loop items w = (w', None).
Proof.
  revert w. induction items as [|[name dcd] items IH]; intros w Hall; simpl.
  - by eexists.
  - destruct (Hall name dcd) as [s ->]; [left|].
    unfold mbind at 1, M_bind at 1. simpl. apply IH.
    intros k d' Hin. apply (Hall k d'). by right.
Qed.

(** X14. When the loop has succeeded but an entry of the desired map
    cannot be converted to its wire form, the run still returns a
    response: the conditions of the loop followed by
    FunctionSuccess=False with reason InternalError for the composite and
    the claim, and one fatal result that carries the conversion's error. *)
Theorem store_failure_is_an_internal_error
    (req : RunFunctionRequest) (dv : defaults.XDeploymentDefaults)
    (observed : gmap string ObservedComposed)
    (desired desired' : gmap string DesiredComposed)
    (xd : xdeployment.XDeployment)
    (d : Deployment) (s : Service) (h : HttpRoute)
    (w1 w2 : World) (err : Err) :
  decoded req dv observed desired xd →
  constructed (context_of dv observed xd) d s h →
  compose_loop
    [Deployment_composer d; Service_composer s; HttpRoute_composer h]
    desired (loop_start req) = (w1, inr desired') →
  SetDesiredComposedResources desired' w1 = (w2, Some err) →
  (∃ k dcd, desired' !! k = Some dcd ∧ AsStruct (dc_Resource dcd) = inl err) ∧
  ∃ rsp,
    RunFunction req = (Some rsp, None) ∧
    rsp_Conditions rsp = rsp_Conditions (w_rsp w1) ++ [internal_error] ∧
    rsp_Results rsp =
      [{| res_Severity := SeverityFatal;
          res_Message :=
            "cannot set desired composed resources in *v1.RunFunctionResponse: "
            +:+ err |}].
Proof.
  intros Hdec Hcon Hloop Hset.
  destruct (set_desired_loop_failure _ _ _ _ Hset)
    as (_ & Hc & Hr & k & dcd & Hin & Herr).
  split. { exists k, dcd. split; [|done]. by apply elem_of_map_to_list. }
  assert (rsp_Results (w_rsp w1) = []) as Hr1.
  { pose proof Hcon as
      ([HD _]%NewDeployment_inv & [HS _]%NewService_inv & [HH _]%NewHttpRoute_inv).
    pose proof (Deployment_builds d) as BD.
    pose proof (Service_builds s) as BS.
    pose proof (HttpRoute_builds h) as BH.
    destruct (compose_loop_three _ _ _ _ _ _ _ _ _ _ _ _ BD BS BH Hloop)
      as (_ & _ & _ & _ & _ & _ & Hw1).
    rewrite Hw1.
    destruct (bool_decide (is_Some _)), (bool_decide (route_precondition _ _)); done. }
  eexists. unfold RunFunction, RunFunction_world.
  rewrite (RunFunction_body_loop _ _ _ _ _ _ _ _ Hdec Hcon).
  unfold mbind at 1 2, M_bind at 1 2. rewrite Hloop. simpl.
  unfold mbind, M_bind. rewrite Hset. simpl.
  split; [done|]. simpl. by rewrite Hc, Hr, Hr1.
Qed.

(** ** Running again on one's own output *)

Lemma ComposeDesiredResourceFrom_steady {XR D} (b : BaseComposer XR D) o w w' :
  (ComposeDesiredResourceFrom b o w).2 = (ComposeDesiredResourceFrom b o w').2.
Proof.
  unfold ComposeDesiredResourceFrom.
  destruct (is_nil_interface o || reflect_IsNil o); [done|].
  by destruct (composed_From o).
Qed.

Lemma composers_steady d s h :
  Forall steady [Deployment_composer d; Service_composer s; HttpRoute_composer h].
Proof.
  repeat constructor; intros w w'; simpl.
  - unfold Deployment_ComposeDesiredResource, mbind, M_bind.
    assert ((Deployment_createResource d w).2 = (Deployment_createResource d w').2)
      as -> by (unfold Deployment_createResource; by destruct (xdeployment.Replicas _)).
    apply ComposeDesiredResourceFrom_steady.
  - unfold Service_ComposeDesiredResource, mbind, M_bind.
    assert ((Service_createResource s w).2 = (Service_createResource s w').2)
      as -> by (unfold Service_createResource; by destruct (xdeployment.Port _)).
    apply ComposeDesiredResourceFrom_steady.
  - unfold HttpRoute_ComposeDesiredResource, mbind, M_bind.
    assert ((HttpRoute_createResource h w).2 = (HttpRoute_createResource h w').2)
      as ->.
    { unfold HttpRoute_createResource.
      destruct (_ ≫= defaults.Gateway); [|done]. by destruct (_ || _). }
    apply ComposeDesiredResourceFrom_steady.
Qed.

(** Replaying a successful loop from another map and another state: it
    succeeds again, and every key either was left alone both times or
    ends with the value it ended with the first time. *)
Lemma compose_loop_replay rs m w w1 m' :
  Forall steady rs →
  compose_loop rs m w = (w1, inr m') →
  ∀ n w', ∃ w2 n',
    compose_loop rs n w' = (w2, inr n') ∧
    ∀ k, (m' !! k = m !! k ∧ n' !! k = n !! k) ∨ n' !! k = m' !! k.
Proof.
  intros Hs. revert m w.
  induction Hs as [|r rs Hr Hs IH]; intros m w.
  { simpl. intros [= <- <-] n w'. exists w', n. split; [done|]. by left. }
  rewrite compose_loop_cons. intros Hloop n w'.
  rewrite compose_loop_cons, <- (Hr w w').
  destruct ((ComposeDesiredResource r w).2) as [e|[dr|]]; [done| |].
  - destruct (IH _ _ Hloop
        (<[dr_Name dr := with_ready (dr_Resource dr)
             (if IsReady r then ReadyTrue else dc_Ready (dr_Resource dr))]> n)
        (log_Info "Added desired resource"
           (response_Condition (readiness_condition r)
              (ComposeDesiredResource r w').1).1).1) as (w2 & n' & Hn & Hk).
    exists w2, n'. split; [done|]. intros k.
    destruct (decide (dr_Name dr = k)) as [<- | Hne].
    + right. destruct (Hk (dr_Name dr)) as [[Hm Hn'] | ?]; [|done].
      rewrite Hm, Hn'. by rewrite !lookup_insert_eq.
    + destruct (Hk k) as [[Hm Hn'] | ?]; [|by right].
      left. by rewrite Hm, Hn', !lookup_insert_ne.
  - apply (IH _ _ Hloop).
Qed.

Lemma desired_loop_succeeds items dcds :
  (∀ k p, (k, p) ∈ items → ∃ u, AsObject (wire_Resource p) = inr u) →
  ∃ m, desired_loop items dcds = inr m.
Proof.
  revert dcds. induction items as [|[name r] items IH]; intros dcds Hall; simpl.
  - by eexists.
  - destruct (Hall name r) as [u ->]; [left|].
    apply IH. intros k p Hin. apply (Hall k p). by right.
Qed.

Lemma response_eq (r1 r2 : RunFunctionResponse) :
  rsp_Tag r1 = rsp_Tag r2 → rsp_Desired r1 = rsp_Desired r2 →
  rsp_Conditions r1 = rsp_Conditions r2 → rsp_Results r1 = rsp_Results r2 →
  r1 = r2.
Proof. destruct r1, r2. simpl. by intros -> -> -> ->. Qed.

Lemma noted_fields pre c rsp :
  rsp_Tag (noted pre c rsp) = rsp_Tag rsp ∧
  rsp_Desired (noted pre c rsp) = rsp_Desired rsp ∧
  rsp_Results (noted pre c rsp) = rsp_Results rsp ∧
  rsp_Conditions (noted pre c rsp) =
    rsp_Conditions rsp ++ (if pre then [c] else []).
Proof. destruct pre; simpl; by rewrite ?app_nil_r. Qed.

(** The response of a successful loop over the three composers, field by
    field, from the response the loop started with. *)
Lemma compose_loop_three_fields d s h desired w w' desired' :
  compose_loop
    [Deployment_composer d; Service_composer s; HttpRoute_composer h]
    desired w = (w', inr desired') →
  ∃ pS pH : bool,
    rsp_Tag (w_rsp w') = rsp_Tag (w_rsp w) ∧
    rsp_Desired (w_rsp w') = rsp_Desired (w_rsp w) ∧
    rsp_Results (w_rsp w') = rsp_Results (w_rsp w) ∧
    rsp_Conditions (w_rsp w') =
      ((rsp_Conditions (w_rsp w) ++ [readiness_condition (Deployment_composer d)])
         ++ (if pS then [readiness_condition (Service_composer s)] else []))
        ++ (if pH then [readiness_condition (HttpRoute_composer h)] else []) ∧
    (pS = bool_decide (is_Some (xdeployment.Port (xdeployment.Spec
             (XR_ (bc_FunctionContext (s_XComposer s))))))) ∧
    (pH = bool_decide (route_precondition
             (XR_ (bc_FunctionContext (h_XComposer h)))
             (Defaults (bc_FunctionContext (h_XComposer h))))) ∧
    (∀ k, is_Some (desired !! k) → is_Some (desired' !! k)).
Proof.
  intros Hloop.
  destruct (compose_loop_three _ _ _ _ _ _ _ _ _ _ _ _
              (Deployment_builds d) (Service_builds s) (HttpRoute_builds h) Hloop)
    as (bD & bS & bH & _ & _ & -> & ->).
  eexists _, _.
  repeat (split; [by rewrite ?(proj1 (noted_fields _ _ _)),
                     ?(proj1 (proj2 (noted_fields _ _ _))),
                     ?(proj1 (proj2 (proj2 (noted_fields _ _ _)))),
                     ?(proj2 (proj2 (proj2 (noted_fields _ _ _))))|]).
  intros k Hk. rewrite !put_is_Some. eauto.
Qed.

(** X15. Provided the wire form of an object converts back to that
    object, a successful run is a fixed point: invoked again on the same
    input, observed state and composite, with the desired resources of
    its own response as the caller's desired state, the function returns
    the same response. *)
Theorem rerun_returns_the_same_response
    (req : RunFunctionRequest) (dv : defaults.XDeploymentDefaults)
    (observed : gmap string ObservedComposed)
    (desired : gmap string DesiredComposed)
    (xd : xdeployment.XDeployment) (rsp : RunFunctionResponse) :
  (∀ u s, AsStruct u = inr s → AsObject s = inr u) →
  decoded req dv observed desired xd →
  RunFunction req = (Some rsp, None) → rsp_Results rsp = [] →
  RunFunction (resubmit req rsp) = (Some rsp, None).
Proof.
  intros Hrt Hdec Hrun Hres.
  destruct (RunFunction_success _ _ _ _ _ _ Hdec Hrun Hres)
    as (d & s & h & w1 & desired' & w2 & Hcon & Hloop & Hset & ->).
  destruct (SetDesiredComposedResources_spec _ _ _ Hset)
    as (Ht & Hc & Hr & Hin & Hout).
  destruct (compose_loop_three_fields _ _ _ _ _ _ _ Hloop)
    as (pS & pH & Ht1 & Hd1 & Hr1 & Hc1 & HpS & HpH & Hkeys).
  pose proof Hdec as (Hi & Ho & Hdes & Hxr).
  pose proof (GetDesiredComposedResources_keys _ _ Hdes) as Hreqkeys.
  set (req2 := resubmit req (w_rsp w2)).
  (* a key the first run left out of its map is not in its response *)
  assert (∀ k, desired' !! k = None → rsp_Desired (w_rsp w2) !! k = None) as Hnone.
  { intros k Ek. rewrite (Hout _ Ek), Hd1. simpl.
    destruct (req_DesiredResources req !! k) eqn:Er; [|done].
    assert (is_Some (desired' !! k)) as [? ?]; [|congruence].
    apply Hkeys, Hreqkeys. eauto. }
  (* the second run decodes the first run's desired map *)
  assert (GetDesiredComposedResources req2 = inr desired') as Hdes2.
  { unfold GetDesiredComposedResources. simpl.
    destruct (desired_loop_succeeds (map_to_list (rsp_Desired (w_rsp w2))) ∅)
      as [m Hm].
    { intros k p Hkp%elem_of_map_to_list.
      destruct (desired' !! k) as [dcd|] eqn:Ek.
      - destruct (Hin _ _ Ek) as (body & Hbody & Hk).
        rewrite Hk in Hkp. injection Hkp as <-. simpl. eauto.
      - rewrite (Hnone _ Ek) in Hkp. done. }
    rewrite Hm. f_equal.
    destruct (desired_loop_lookup _ _ _ (NoDup_fst_map_to_list _) Hm)
      as [Hmin Hmout].
    apply map_eq. intros k.
    destruct (desired' !! k) as [dcd|] eqn:Ek.
    - destruct (Hin _ _ Ek) as (body & Hbody & Hk).
      apply elem_of_map_to_list in Hk.
      destruct (Hmin _ _ Hk) as (u & Hu & ->). simpl in Hu.
      rewrite (Hrt _ _ Hbody) in Hu. injection Hu as <-. by destruct dcd.
    - rewrite Hmout, lookup_empty; [done|].
      intros ([k' p] & -> & Hkp%elem_of_map_to_list)%list_elem_of_fmap.
      simpl in Ek. rewrite (Hnone _ Ek) in Hkp. done. }
  assert (decoded req2 dv observed desired' xd) as Hdec2.
  { split; [exact Hi|]. split; [exact Ho|]. split; [exact Hdes2|exact Hxr]. }
  (* the loop, replayed *)
  destruct (compose_loop_replay _ _ _ _ _ (composers_steady d s h) Hloop
              desired' (loop_start req2)) as (w1' & n' & Hloop2 & Hk).
  assert (n' = desired') as ->.
  { apply map_eq. intros k. by destruct (Hk k) as [[_ ?] | ?]. }
  destruct (compose_loop_three_fields _ _ _ _ _ _ _ Hloop2)
    as (pS' & pH' & Ht1' & Hd1' & Hr1' & Hc1' & HpS' & HpH' & _).
  (* the store, replayed *)
  destruct (set_desired_loop_succeeds (map_to_list desired') w1') as [w2' Hset2].
  { intros k dcd Hkd%elem_of_map_to_list.
    destruct (Hin _ _ Hkd) as (body & ? & _). eauto. }
  destruct (SetDesiredComposedResources_spec _ _ _ Hset2)
    as (Ht2 & Hc2 & Hr2 & Hin2 & Hout2).
  unfold RunFunction, RunFunction_world.
  rewrite (RunFunction_body_loop _ _ _ _ _ _ _ _ Hdec2 Hcon).
  unfold mbind at 1 2, M_bind at 1 2. rewrite Hloop2. simpl.
  unfold mbind, M_bind.
  change (SetDesiredComposedResources desired' w1')
    with (set_desired_loop (map_to_list desired') w1').
  rewrite Hset2. simpl. f_equal. f_equal.
  apply response_eq.
  - by rewrite Ht2, Ht1', Ht, Ht1.
  - apply map_eq. intros k. destruct (desired' !! k) as [dcd|] eqn:Ek.
    + destruct (Hin _ _ Ek) as (body & Hbody & ->).
      destruct (Hin2 _ _ Ek) as (body2 & Hbody2 & ->). congruence.
    + by rewrite (Hout2 _ Ek), Hd1'.
  - rewrite Hc2, Hc1', Hc, Hc1, HpS, HpH, HpS', HpH'. done.
  - by rewrite Hr2, Hr1', Hr, Hr1.
Qed.

(** ** Which decoding step failed *)

(** X16. When a decoding step fails, the fatal result of the response
    names the first step that failed, in the order input, observed
    resources, desired resources, composite, conversion of the composite,
    followed by the step's error; the response holds the request's desired
    state and the InternalError condition. *)
Theorem decode_failure_names_the_step (req : RunFunctionRequest) :
  let stopped msg err :=
    RunFunction req =
      (Some (halted req [internal_error] (msg +:+ ": " +:+ err)), None) in
  (∀ err, GetInput_into (req_Input req) = inl err →
     stopped "cannot get Function input from *v1.RunFunctionRequest" err) ∧
  (∀ dv err, GetInput_into (req_Input req) = inr dv →
     GetObservedComposedResources req = inl err →
     stopped "cannot get observed resources from *v1.RunFunctionRequest" err) ∧
  (∀ dv observed err, GetInput_into (req_Input req) = inr dv →
     GetObservedComposedResources req = inr observed →
     GetDesiredComposedResources req = inl err →
     stopped "cannot get desired resources from *v1.RunFunctionRequest" err) ∧
  (∀ dv observed desired err, GetInput_into (req_Input req) = inr dv →
     GetObservedComposedResources req = inr observed →
     GetDesiredComposedResources req = inr desired →
     AsObject (req_ObservedComposite req) = inl err →
     stopped
       "cannot get observedf composite resources from *v1.RunFunctionRequest"
       err) ∧
  (∀ dv observed desired xr err, GetInput_into (req_Input req) = inr dv →
     GetObservedComposedResources req = inr observed →
     GetDesiredComposedResources req = inr desired →
     AsObject (req_ObservedComposite req) = inr xr →
     XDeployment_FromUnstructured xr = inl err →
     stopped "cannot convert composite resource to XDeployment" err).
Proof.
  intros stopped. unfold stopped, RunFunction, RunFunction_world, RunFunction_body.
  unfold mbind, M_bind.
  split; [|split; [|split; [|split]]].
  - by intros err ->.
  - by intros dv err -> ->.
  - by intros dv observed err -> -> ->.
  - by intros dv observed desired err -> -> -> ->.
  - by intros dv observed desired xr err -> -> -> -> ->.
Qed.

(** ** What a build error leaves behind *)

Lemma from_fails_loudly {XR D} (b : BaseComposer XR D) o w0 w err :
  w_rsp w = w_rsp w0 →
  (ComposeDesiredResourceFrom b o w).2 = inl err →
  ∃ T, T ∈ ["*v1.Deployment"; "*v1.Service"; "*v1.HTTPRoute"] ∧
    w_rsp (ComposeDesiredResourceFrom b o w).1 =
      w_rsp (response_Fatal
               (Wrapf err ("cannot convert " +:+ T +:+ " to composed resource"))
               w0).1.
Proof.
  intros Hw Herr.
  pose proof (ComposeDesiredResourceFrom_outcome b o w) as H.
  rewrite Herr in H. destruct H as (Hnil & _ & ->).
  exists (type_name o). split.
  - destruct o; simpl in *; try done;
      [left | right; left | right; right; left].
  - simpl. by rewrite Hw.
Qed.

Lemma composers_fail_loudly d s h :
  Forall fails_loudly
    [Deployment_composer d; Service_composer s; HttpRoute_composer h].
Proof.
  repeat constructor; intros w err; simpl.
  - unfold Deployment_ComposeDesiredResource, mbind, M_bind.
    apply from_fails_loudly, Deployment_createResource_spec.
  - unfold Service_ComposeDesiredResource, mbind, M_bind.
    apply from_fails_loudly, Service_createResource_spec.
  - unfold HttpRoute_ComposeDesiredResource, mbind, M_bind.
    apply from_fails_loudly, HttpRoute_createResource_rsp.
Qed.

Lemma compose_loop_failure_result rs desired w w1 err :
  Forall quiet rs → Forall fails_loudly rs →
  compose_loop rs desired w = (w1, inl err) →
  ∃ T, T ∈ ["*v1.Deployment"; "*v1.Service"; "*v1.HTTPRoute"] ∧
    rsp_Results (w_rsp w1) =
      rsp_Results (w_rsp w) ++
        [{| res_Severity := SeverityFatal;
            res_Message :=
              Wrapf err ("cannot convert " +:+ T +:+ " to composed resource") |}].
Proof.
  intros Hq Hl. revert desired w.
  induction Hq as [|r rs (name & pre & Hb) Hq IH]; intros desired w; [done|].
  apply Forall_cons in Hl as [Hr Hl].
  rewrite compose_loop_cons. specialize (Hb w). specialize (Hr w).
  destruct ((ComposeDesiredResource r w).2) as [e|[dr|]] eqn:E.
  - intros [= <- <-]. destruct (Hr e eq_refl) as (T & HT & Hw).
    exists T. split; [done|]. simpl. by rewrite Hw.
  - destruct Hb as (_ & Hw & _). intros Hloop.
    destruct (IH Hl _ _ Hloop) as (T & HT & Hres).
    exists T. split; [done|]. rewrite Hres. simpl. by rewrite Hw.
  - destruct Hb as (_ & Hw). intros Hloop.
    destruct (IH Hl _ _ Hloop) as (T & HT & Hres).
    exists T. split; [done|]. by rewrite Hres, Hw.
Qed.

(** X17. When a composer's build fails, [RunFunction] returns no
    response and the error of the conversion as it is, unwrapped; the
    response object it leaves behind holds exactly one result, fatal,
    whose message names the type that did not convert. *)
Theorem build_error_is_returned_bare
    (req : RunFunctionRequest) (dv : defaults.XDeploymentDefaults)
    (observed : gmap string ObservedComposed)
    (desired : gmap string DesiredComposed) (xd : xdeployment.XDeployment)
    (d : Deployment) (s : Service) (h : HttpRoute) (w1 : World) (err : Err) :
  decoded req dv observed desired xd →
  constructed (context_of dv observed xd) d s h →
  compose_loop
    [Deployment_composer d; Service_composer s; HttpRoute_composer h]
    desired (loop_start req) = (w1, inl err) →
  RunFunction req = (None, Some err) ∧
  ∃ T, T ∈ ["*v1.Deployment"; "*v1.Service"; "*v1.HTTPRoute"] ∧
    rsp_Results (w_rsp (RunFunction_world req)) =
      [{| res_Severity := SeverityFatal;
          res_Message :=
            "cannot convert " +:+ T +:+ " to composed resource: " +:+ err |}].
Proof.
  intros Hdec Hcon Hloop.
  assert (RunFunction_body req (initial_world req) = (w1, ReturnError err)) as Hbody.
  { rewrite (RunFunction_body_loop _ _ _ _ _ _ _ _ Hdec Hcon).
    unfold mbind, M_bind. by rewrite Hloop. }
  split.
  - unfold RunFunction. by rewrite Hbody.
  - unfold RunFunction_world. rewrite Hbody. simpl.
    destruct (compose_loop_failure_result _ _ _ _ _
                (constructed_quiet _ _ _ _ Hcon) (composers_fail_loudly d s h) Hloop)
      as (T & HT & Hres).
    exists T. split; [done|]. rewrite Hres. unfold Wrapf.
    repeat (apply elem_of_cons in HT as [-> | HT]); try done.
    by apply elem_of_nil in HT.
Qed.

End Further.

(** * The further properties on concrete invocations *)

(** X1 on an observed deployment that reports Available=True, and on
    none. *)
Lemma Deployment_IsReady_witness :
  let sdk := Scenario.sdk true in
  let f := Scenario.context sdk Scenario.full_spec (Some Scenario.my_gateway) in
  Deployment_IsReady
    (Scenario.deployment sdk f (Some Scenario.observed_deployment)) = true ∧
  Deployment_IsReady (Scenario.deployment sdk f None) = false.
Proof.
  intros sdk f. split.
  - apply (Deployment_IsReady_iff
             (Scenario.deployment sdk f (Some Scenario.observed_deployment))).
    exists Scenario.observed_deployment,
      {| appsv1.dc_Type := "Available"; appsv1.dc_Status := "True" |}.
    split; [reflexivity|]. split; [left|]. split; reflexivity.
  - apply (Deployment_IsReady_iff (Scenario.deployment sdk f None)).
    reflexivity.
Defined.

(** X2 on the three objects built for the full spec. *)
Lemma built_objects_witness :
  let sdk := Scenario.sdk true in
  let f := Scenario.context sdk Scenario.full_spec (Some Scenario.my_gateway) in
  let w := Scenario.empty_world true in
  let d := Scenario.deployment sdk f None in
  let s := Scenario.service sdk f None in
  let h := Scenario.route sdk f None in
  Deployment_IsReady
    (Scenario.deployment sdk f (Deployment_createResource d w).2) = false ∧
  Service_IsReady
    (Scenario.service sdk f (Service_createResource s w).2) = false ∧
  HttpRoute_IsReady
    (Scenario.route sdk f (HttpRoute_createResource h w).2) = false.
Proof.
  intros sdk f w d s h.
  destruct (built_objects_are_not_ready
              d (Scenario.deployment sdk f (Deployment_createResource d w).2)
              s (Scenario.service sdk f (Service_createResource s w).2)
              h (Scenario.route sdk f (HttpRoute_createResource h w).2) w)
    as (HD & HS & HH).
  split; [exact (HD eq_refl)|]. split; [exact (HS eq_refl) | exact (HH eq_refl)].
Defined.

(** X3 on the Deployment and the Service built for the full spec. *)
Lemma service_selects_witness :
  let sdk := Scenario.sdk true in
  let f := Scenario.context sdk Scenario.full_spec (Some Scenario.my_gateway) in
  let w := Scenario.empty_world true in
  ∃ od os,
    (Deployment_createResource (Scenario.deployment sdk f None) w).2 = Some od ∧
    (Service_createResource (Scenario.service sdk f None) w).2 = Some os ∧
    corev1.ss_Selector (corev1.svc_Spec os) =
      appsv1.ds_MatchLabels (appsv1.dep_Spec od) ∧
    corev1.ss_Selector (corev1.svc_Spec os) =
      {[ "app.kubernetes.io/name" := "test-app" ]}.
Proof.
  intros sdk f w. eexists _, _.
  split; [reflexivity|]. split; [reflexivity|].
  destruct (service_selects_deployment_pods
              (Scenario.deployment sdk f None) (Scenario.service sdk f None)
              w w _ _ eq_refl eq_refl eq_refl) as (H1 & _ & H3).
  split; [exact H1 | exact H3].
Defined.

(** X4 on the full spec (port 8080) and on a spec without port. *)
Lemma service_targets_witness :
  let sdk := Scenario.sdk true in
  let w := Scenario.empty_world true in
  let f := Scenario.context sdk Scenario.full_spec (Some Scenario.my_gateway) in
  let f0 := Scenario.context sdk (Scenario.spec None "") None in
  (∃ os, (Service_createResource (Scenario.service sdk f None) w).2 = Some os ∧
     corev1.sp_TargetPort <$> corev1.ss_Ports (corev1.svc_Spec os) = [int32 8080] ∧
     int32 8080 = 8080) ∧
  (Service_createResource (Scenario.service sdk f0 None) w).2 = None.
Proof.
  intros sdk w f f0. split.
  - destruct (service_targets_container_port
                (Scenario.deployment sdk f None) (Scenario.service sdk f None)
                w w _ eq_refl eq_refl) as [_ Hport].
    destruct (Hport 8080 eq_refl) as (os & Hos & _ & Htarget & _ & _ & Hfit).
    exists os. split; [exact Hos|]. split; [exact Htarget|].
    apply Hfit. lia.
  - destruct (service_targets_container_port
                (Scenario.deployment sdk f0 None) (Scenario.service sdk f0 None)
                w w _ eq_refl eq_refl) as [Hnone _].
    exact (proj2 (Hnone eq_refl)).
Defined.

(** X5 on the route built for the full spec and my-gateway. *)
Lemma route_backend_witness :
  let sdk := Scenario.sdk true in
  let w := Scenario.empty_world true in
  let f := Scenario.context sdk Scenario.full_spec (Some Scenario.my_gateway) in
  ∃ route,
    (HttpRoute_createResource (Scenario.route sdk f None) w).2 = Some route ∧
    gwapiv1.rs_Rules (gwapiv1.rt_Spec route) ≫= gwapiv1.rr_BackendRefs =
      [{| gwapiv1.br_Name := "test-app"; gwapiv1.br_Port := Some 8080 |}].
Proof.
  intros sdk w f. eexists. split; [reflexivity|].
  destruct (route_backend_is_the_service
              (Scenario.route sdk f None) (Scenario.service sdk f None)
              w w _ eq_refl eq_refl)
    as (os & gw & Hos & _ & _ & _ & Hbackend).
  injection Hos as <-. exact Hbackend.
Defined.

(** X7 on the three composers of the full request, from the state in
    which the loop starts. *)
Lemma compose_loop_frame_witness :
  let sdk := Scenario.sdk true in
  let req := Scenario.everything true in
  let f := @context_of sdk Scenario.my_gateway ∅ Scenario.full_spec in
  let rs := [Deployment_composer (Scenario.deployment sdk f None);
             Service_composer (Scenario.service sdk f None);
             HttpRoute_composer (Scenario.route sdk f None)] in
  let run := compose_loop rs ∅ (loop_start req) in
  rsp_Desired (w_rsp run.1) = ∅ ∧
  (length (rsp_Conditions (w_rsp run.1)) ≤ 0 + 3)%nat.
Proof.
  intros sdk req f rs run.
  destruct (compose_loop_frame rs ∅ (loop_start req) run.1 run.2)
    as (Hdes & _ & _ & Hlen & _).
  - apply (constructed_quiet f). split; [reflexivity|]. split; reflexivity.
  - reflexivity.
  - split; [exact Hdes | exact Hlen].
Defined.

(** X8 on the map ZEBRA/ALPHA/BETA, iterated in that order. *)
Lemma convertEnvVars_one_entry_witness :
  length (slice_elems
            (convertEnvVars ["ZEBRA"; "ALPHA"; "BETA"] Scenario.zebra_env)) = 3%nat ∧
  NoDup (corev1.ev_Name <$>
           slice_elems
             (convertEnvVars ["ZEBRA"; "ALPHA"; "BETA"] Scenario.zebra_env)).
Proof.
  apply (convertEnvVars_one_entry_per_key Scenario.zebra_env).
  unfold range_order. apply (bool_decide_unpack _). by vm_compute.
Defined.

(** X9 on an entry observed under the service's name. *)
Lemma composers_read_witness :
  let sdk := Scenario.sdk true in
  let v := @Build_ObservedComposed sdk (Scenario.OOther "corrupt") in
  let f := @context_of sdk Scenario.my_gateway ∅ Scenario.full_spec in
  let f' := @context_of sdk Scenario.my_gateway
              {[ "xdeployment-service-test-app" := v ]} Scenario.full_spec in
  sum_map id d_ObservedResource (NewDeployment f') =
    sum_map id d_ObservedResource (NewDeployment f) ∧
  sum_map id s_ObservedResource (NewService f') = inl "cannot decode Service" ∧
  sum_map id h_ObservedResource (NewHttpRoute f') =
    sum_map id h_ObservedResource (NewHttpRoute f).
Proof.
  intros sdk v f f'.
  destruct (@composers_read_their_own_entry sdk Scenario.my_gateway
              Scenario.full_spec ∅ "xdeployment-service-test-app" v)
    as (HD & HS & HH & _).
  split; [exact HD|]. split; [exact HS | exact HH].
Defined.

(** X10 on a corrupt observed deployment and on a corrupt observed
    service. *)
Lemma constructor_failure_witness :
  RunFunction Scenario.corrupt_observed =
    (Some (halted Scenario.corrupt_observed []
             "cannot create deployment: cannot decode Deployment"), None) ∧
  RunFunction Scenario.corrupt_service =
    (Some (halted Scenario.corrupt_service []
             "cannot create service: cannot decode Service"), None).
Proof.
  pose (sdk := Scenario.sdk true). split.
  - destruct (@constructor_failure_names_the_kind sdk
                Scenario.corrupt_observed Scenario.my_gateway
                {[ "xdeployment-deployment-test-app" :=
                     @Build_ObservedComposed sdk (Scenario.OOther "corrupt") ]}
                ∅ Scenario.full_spec) as (HD & _).
    + solve_decoded.
    + apply HD. run.
  - pose (observed := ({[ "xdeployment-service-test-app" :=
                     @Build_ObservedComposed sdk (Scenario.OOther "corrupt") ]})
                      : gmap string (@ObservedComposed sdk)).
    destruct (@constructor_failure_names_the_kind sdk
                Scenario.corrupt_service Scenario.my_gateway observed
                ∅ Scenario.full_spec) as (_ & HS & _).
    + solve_decoded.
    + apply (HS (Scenario.deployment sdk
                   (@context_of sdk Scenario.my_gateway observed Scenario.full_spec)
                   None)); run.
Defined.

(** X11 on the full request with nothing observed. *)
Lemma conditions_agree_witness :
  let rsp := Scenario.response_of (Scenario.everything true) in
  Forall (λ c,
    ∃ k entry,
      (cond_Type c, k) ∈
        [("DeploymentReady", "xdeployment-deployment-test-app");
         ("ServiceReady", "xdeployment-service-test-app");
         ("HttpRouteReady", "xdeployment-httproute-test-app")] ∧
      rsp_Desired rsp !! k = Some entry ∧
      c = condition_for (cond_Type c) (wire_Ready entry) ∧
      cond_Target c = TargetComposite) (rsp_Conditions rsp).
Proof.
  intros rsp. apply Forall_forall.
  apply (@conditions_agree_with_flags (Scenario.sdk true)
           (Scenario.everything true) Scenario.my_gateway ∅ ∅ Scenario.full_spec).
  - solve_decoded.
  - run.
  - run.
Defined.

(** X12 on the full request with nothing observed. *)
Lemma unobserved_kinds_witness :
  let rsp := Scenario.response_of (Scenario.everything true) in
  Forall (λ c, cond_Status c = StatusConditionFalse) (rsp_Conditions rsp).
Proof.
  intros rsp. apply Forall_forall.
  destruct (@unobserved_kinds_are_not_ready (Scenario.sdk true)
              (Scenario.everything true) Scenario.my_gateway ∅ ∅
              Scenario.full_spec rsp) as (_ & _ & _ & Hall).
  - solve_decoded.
  - run.
  - run.
  - exact (Hall eq_refl).
Defined.

(** X13 on a request that already desires a config map. *)
Lemma caller_entries_witness :
  let rsp := Scenario.response_of Scenario.prior_configmap in
  ∃ u body,
    u = Scenario.OOther "ConfigMap" ∧ body = Scenario.OOther "ConfigMap" ∧
    rsp_Desired rsp !! "other-function-configmap" =
      Some (@Build_ProtoResource (Scenario.sdk true) body ReadyTrue).
Proof.
  intros rsp.
  pose (sdk := Scenario.sdk true).
  destruct (@caller_entries_pass_through sdk
              Scenario.prior_configmap Scenario.my_gateway ∅
              {[ "other-function-configmap" :=
                   @Build_DesiredComposed sdk (Scenario.OOther "ConfigMap") ReadyTrue ]}
              Scenario.full_spec rsp
              "other-function-configmap"
              (@Build_ProtoResource sdk (Scenario.OOther "ConfigMap") ReadyTrue))
    as (u & body & Hu & Hbody & Hrsp).
  - solve_decoded.
  - run.
  - run.
  - run.
  - discriminate.
  - discriminate.
  - discriminate.
  - exists u, body. injection Hu as <-. injection Hbody as <-.
    split; [reflexivity|]. split; [reflexivity | exact Hrsp].
Defined.

(** X14 on the full request, on the SDK that cannot encode a Service. *)
Lemma store_failure_witness :
  ∃ rsp,
    RunFunction Scenario.fragile_everything = (Some rsp, None) ∧
    last (rsp_Conditions rsp) = Some internal_error ∧
    rsp_Results rsp =
      [{| res_Severity := SeverityFatal;
          res_Message :=
            "cannot set desired composed resources in *v1.RunFunctionResponse: "
            +:+ "cannot encode Service" |}].
Proof.
  pose (sdk := Scenario.fragile_sdk).
  pose (f := @context_of sdk Scenario.my_gateway ∅ Scenario.full_spec).
  pose (rs := [Deployment_composer (Scenario.deployment sdk f None);
               Service_composer (Scenario.service sdk f None);
               HttpRoute_composer (Scenario.route sdk f None)]).
  pose (looped := compose_loop rs ∅ (loop_start Scenario.fragile_everything)).
  pose (desired' := match looped.2 with inr m => m | inl _ => ∅ end).
  destruct (@store_failure_is_an_internal_error sdk
              Scenario.fragile_everything Scenario.my_gateway ∅ ∅ desired'
              Scenario.full_spec
              (Scenario.deployment sdk f None) (Scenario.service sdk f None)
              (Scenario.route sdk f None)
              looped.1 (SetDesiredComposedResources desired' looped.1).1
              "cannot encode Service")
    as (_ & rsp & Hrun & Hconds & Hres).
  - solve_decoded.
  - split; [run|]. split; run.
  - run.
  - run.
  - exists rsp. split; [exact Hrun|]. split; [|exact Hres].
    etrans; [exact (f_equal last Hconds) | apply last_snoc_cond].
Defined.

(** X15 on the full request: the second run returns the first response. *)
Lemma rerun_witness :
  let req := Scenario.everything true in
  RunFunction (resubmit req (Scenario.response_of req)) =
    (Some (Scenario.response_of req), None).
Proof.
  intros req.
  apply (@rerun_returns_the_same_response (Scenario.sdk true)
           req Scenario.my_gateway ∅ ∅ Scenario.full_spec).
  - intros u s [= ->]. reflexivity.
  - solve_decoded.
  - run.
  - run.
Defined.

(** X16 on an input that does not decode. *)
Lemma decode_failure_step_witness :
  RunFunction Scenario.bad_input =
    (Some (halted Scenario.bad_input [internal_error]
             "cannot get Function input from *v1.RunFunctionRequest: cannot unmarshal input"),
     None).
Proof.
  apply (proj1 (decode_failure_names_the_step Scenario.bad_input)
           "cannot unmarshal input").
  run.
Defined.

(** X17 on the full request with a route that does not convert. *)
Lemma build_error_witness :
  let req := Scenario.everything false in
  RunFunction req = (None, Some "cannot convert HTTPRoute to unstructured") ∧
  ∃ T, T ∈ ["*v1.Deployment"; "*v1.Service"; "*v1.HTTPRoute"] ∧
    rsp_Results (w_rsp (RunFunction_world req)) =
      [{| res_Severity := SeverityFatal;
          res_Message :=
            "cannot convert " +:+ T +:+ " to composed resource: " +:+
            "cannot convert HTTPRoute to unstructured" |}].
Proof.
  intros req.
  pose (sdk := Scenario.sdk false).
  pose (f := @context_of sdk Scenario.my_gateway ∅ Scenario.full_spec).
  apply (@build_error_is_returned_bare sdk req
           Scenario.my_gateway ∅ ∅ Scenario.full_spec
           (Scenario.deployment sdk f None)
           (Scenario.service sdk f None)
           (Scenario.route sdk f None)
           (RunFunction_world req)
           "cannot convert HTTPRoute to unstructured").
  - solve_decoded.
  - split; [run|]. split; run.
  - run.
Defined.
